(** * Course task submission and status tracking

    A shallow embedding of [lms/djangoapps/courseware/task_submit.py]:
    the ledger of [CourseTaskLog] rows, the reservation of a task, the
    normalisation of a celery result into a row and a status dictionary,
    and the completion messages.

    Python objects are modelled by the values this module handles: scalars
    ([pyval]), flat dictionaries ([gmap string pyval]) and exception
    objects.  The database table is a finite map from primary keys to rows;
    functions that touch it live in a state-and-exception monad whose state
    survives a raised exception, as every statement is committed on its own
    under [transaction.autocommit]. *)

From Stdlib Require Import Ascii.
From stdpp Require Import base gmap strings list pretty sorting.

Local Open Scope Z_scope.

(** ** Python values *)

(** Scalars found in the dictionaries of this module. *)
Inductive pyval :=
| PNone
| PInt (z : Z)
| PStr (s : string).

(** What a task result carries in its [result] attribute: nothing, a
    dictionary (progress counters, or the value the task returned), or the
    exception that made the task fail. *)
Inductive pyobj :=
| ONone
| ODict (d : gmap string pyval)
| OExc (exc_type : string) (exc_message : string).

(** A JSON text, represented by the document it encodes: [json.dumps]
    builds one and [json.loads] reads it back. *)
Inductive json :=
| JNull
| JObject (d : gmap string pyval).

(** Exceptions raised in this module, by Python or by a collaborator. *)
Inductive exn :=
| AlreadyRunningError (msg : string)
| MultipleObjectsReturned
| KeyError (key : string)
| TypeError
| AttributeError (attr : string)
| UnboundLocalError (var : string)
| ValueError
| OtherError (name : string).

Inductive result (A : Type) :=
| Ok (a : A)
| Raise (e : exn).
Arguments Ok {A} a.
Arguments Raise {A} e.

Global Instance result_ret : MRet result := λ A a, Ok a.
Global Instance result_bind : MBind result := λ A B f r,
  match r with
  | Ok a => f a
  | Raise e => Raise e
  end.

(** [d[k]] *)
Definition dict_getitem (d : gmap string pyval) (k : string) : result pyval :=
  match d !! k with
  | Some v => Ok v
  | None => Raise (KeyError k)
  end.

(** [d.get(k, None)] *)
Definition dict_get (d : gmap string pyval) (k : string) : pyval :=
  default PNone (d !! k).

(** [o[k]] on an arbitrary object. *)
Definition getitem (o : pyobj) (k : string) : result pyval :=
  match o with
  | ODict d => dict_getitem d k
  | ONone | OExc _ _ => Raise TypeError
  end.

(** [o.get(k, None)] on an arbitrary object. *)
Definition get (o : pyobj) (k : string) : result pyval :=
  match o with
  | ODict d => Ok (dict_get d k)
  | ONone | OExc _ _ => Raise (AttributeError "get")
  end.

(** [k in o] *)
Definition contains (o : pyobj) (k : string) : result bool :=
  match o with
  | ODict d => Ok (bool_decide (is_Some (d !! k)))
  | ONone | OExc _ _ => Raise TypeError
  end.

(** [exception.message] *)
Definition exc_message_of (o : pyobj) : result string :=
  match o with
  | OExc _ m => Ok m
  | ONone | ODict _ => Raise (AttributeError "message")
  end.

(** [type(o).__name__] *)
Definition type_name (o : pyobj) : string :=
  match o with
  | ONone => "NoneType"
  | ODict _ => "dict"
  | OExc t _ => t
  end.

(** [str(v)] *)
Definition py_str (v : pyval) : string :=
  match v with
  | PNone => "None"
  | PInt z => pretty z
  | PStr s => s
  end.

(** [a == b] *)
Definition py_eq (a b : pyval) : bool :=
  match a, b with
  | PNone, PNone => true
  | PInt x, PInt y => Z.eqb x y
  | PStr x, PStr y => String.eqb x y
  | _, _ => false
  end.

(** [a < b], with Python 2's ordering across types: [None] is below every
    other value and numbers are below strings. *)
Definition py_lt (a b : pyval) : bool :=
  match a, b with
  | PNone, PNone => false
  | PNone, _ => true
  | PInt x, PInt y => Z.ltb x y
  | PInt _, PStr _ => true
  | PStr x, PStr y => String.ltb x y
  | _, _ => false
  end.

Definition is_not_None (v : pyval) : bool :=
  match v with
  | PNone => false
  | _ => true
  end.

(** [json.dumps(o)]: an exception object is not serializable. *)
Definition json_dumps (o : pyobj) : result json :=
  match o with
  | ONone => Ok JNull
  | ODict d => Ok (JObject d)
  | OExc _ _ => Raise TypeError
  end.

(** [json.loads(text)] *)
Definition json_loads (j : json) : pyobj :=
  match j with
  | JNull => ONone
  | JObject d => ODict d
  end.

(** [template.format(name=value, ...)] for templates whose fields are
    names in braces.  [field] holds the name being read while inside the
    braces. *)
Fixpoint format_go (kwargs : gmap string pyval) (template : string)
    (field : option string) : result string :=
  match template with
  | EmptyString =>
      match field with
      | None => Ok ""
      | Some _ => Raise ValueError
      end
  | String c rest =>
      match field with
      | None =>
          if Ascii.eqb c "{"%char
          then format_go kwargs rest (Some "")
          else s ← format_go kwargs rest None; Ok (String c s)
      | Some name =>
          if Ascii.eqb c "}"%char
          then v ← dict_getitem kwargs name;
               s ← format_go kwargs rest None;
               Ok (py_str v +:+ s)
          else format_go kwargs rest (Some (name +:+ String c ""))
      end
  end.

Definition format (template : string) (kwargs : list (string * pyval)) : result string :=
  format_go (list_to_map kwargs) template None.

(** ** Collaborators: users, requests, celery *)

Module User.
Record t := { id : Z; username : string }.
End User.

Module HttpRequest.
Record t := { user : User.t; META : gmap string string }.
End HttpRequest.

(** [celery.states.READY_STATES]: the states in which a task has finished. *)
Definition READY_STATES : list string := ["SUCCESS"; "FAILURE"; "REVOKED"].

Definition in_ (state : string) (states : list string) : bool :=
  bool_decide (state ∈ states).

(** A celery result object, read once: [AsyncResult] or the result that
    [apply_async] hands back. *)
Module TaskResult.
Record t := {
  task_id : string;
  state : string;
  result : pyobj;
  traceback : option string }.
End TaskResult.

(** What the result backend knows about a task id. *)
Record task_meta := {
  meta_state : string;
  meta_result : pyobj;
  meta_traceback : option string }.

(** [AsyncResult(task_id)] against a result backend. *)
Definition AsyncResult (backend : string → task_meta) (task_id : string) : TaskResult.t :=
  {| TaskResult.task_id := task_id;
     TaskResult.state := meta_state (backend task_id);
     TaskResult.result := meta_result (backend task_id);
     TaskResult.traceback := meta_traceback (backend task_id) |}.

(** ** The CourseTaskLog table *)

Module CourseTaskLog.

(** Modelled from the spec: the model class [courseware.models.CourseTaskLog]
    is not among the sources.  Its columns are the ones this module reads
    and writes; [task_id] and [task_output] are absent (null) until they are
    first set, and [id] is the primary key the database assigns. *)
Record fields := {
  task_type : string;
  course_id : string;
  task_key : string;
  task_input : option json;
  task_id : option string;
  task_state : string;
  task_output : option json;
  requester : User.t }.

(** A model instance in memory: the primary key and a copy of the row. *)
Record t := { id : N; row : fields }.

Definition set_task_output (v : option json) (e : t) : t :=
  {| id := id e;
     row := {| task_type := task_type (row e);
               course_id := course_id (row e);
               task_key := task_key (row e);
               task_input := task_input (row e);
               task_id := task_id (row e);
               task_state := task_state (row e);
               task_output := v;
               requester := requester (row e) |} |}.

Definition set_task_state (v : string) (e : t) : t :=
  {| id := id e;
     row := {| task_type := task_type (row e);
               course_id := course_id (row e);
               task_key := task_key (row e);
               task_input := task_input (row e);
               task_id := task_id (row e);
               task_state := v;
               task_output := task_output (row e);
               requester := requester (row e) |} |}.

Definition set_task_id (v : option string) (e : t) : t :=
  {| id := id e;
     row := {| task_type := task_type (row e);
               course_id := course_id (row e);
               task_key := task_key (row e);
               task_input := task_input (row e);
               task_id := v;
               task_state := task_state (row e);
               task_output := task_output (row e);
               requester := requester (row e) |} |}.

(** The table: rows by primary key. *)
Abbreviation table := (gmap N fields).

(** A query set is lazy: a condition on rows, evaluated against the table
    when its rows are asked for. *)
Definition queryset := fields → bool.

Definition objects : queryset := λ _, true.

Definition filter (cond : fields → bool) (q : queryset) : queryset :=
  λ r, q r && cond r.

Definition exclude (cond : fields → bool) (q : queryset) : queryset :=
  λ r, q r && negb (cond r).

Definition evaluate (q : queryset) (s : table) : list t :=
  (λ kr, {| id := kr.1; row := kr.2 |})
    <$> base.filter (λ kr, q kr.2 = true) (map_to_list s).

(** The key of the next inserted row. *)
Definition next_id (s : table) : N :=
  N.succ (foldr N.max 0%N (map_to_list s).*1).

End CourseTaskLog.

(** ** The monad of database code *)

Definition M (A : Type) : Type :=
  CourseTaskLog.table → result A * CourseTaskLog.table.

Global Instance M_ret : MRet M := λ A a s, (Ok a, s).
Global Instance M_bind : MBind M := λ A B f m s,
  match m s with
  | (Ok a, s') => f a s'
  | (Raise e, s') => (Raise e, s')
  end.

Definition raise {A} (e : exn) : M A := λ s, (Raise e, s).
Definition lift {A} (r : result A) : M A := λ s, (r, s).

(** [CourseTaskLog.objects.create(...)] *)
Definition objects_create (r : CourseTaskLog.fields) : M CourseTaskLog.t :=
  λ s, let k := CourseTaskLog.next_id s in
       (Ok {| CourseTaskLog.id := k; CourseTaskLog.row := r |}, <[k := r]> s).

(** [entry.save()] *)
Definition save (e : CourseTaskLog.t) : M () :=
  λ s, (Ok (), <[CourseTaskLog.id e := CourseTaskLog.row e]> s).

(** [len(queryset)] *)
Definition len (q : CourseTaskLog.queryset) : M nat :=
  λ s, (Ok (length (CourseTaskLog.evaluate q s)), s).

(** [queryset.get()]: [None] stands for [DoesNotExist]. *)
Definition objects_get (q : CourseTaskLog.queryset) : M (option CourseTaskLog.t) :=
  λ s, match CourseTaskLog.evaluate q s with
       | [] => (Ok None, s)
       | [e] => (Ok (Some e), s)
       | _ :: _ :: _ => (Raise MultipleObjectsReturned, s)
       end.

(** ** The status dictionary *)

(** The dictionary built by [_update_course_task_log] and
    [_get_course_task_log_status]: every key may be absent. *)
Module Status.
Record t := {
  message : option pyval;
  task_progress : option pyobj;
  task_traceback : option string;
  task_id : option (option string);
  task_state : option string;
  in_progress : option bool;
  succeeded : option bool }.

Definition empty : t :=
  {| message := None; task_progress := None; task_traceback := None;
     task_id := None; task_state := None; in_progress := None;
     succeeded := None |}.

Definition set_message (v : pyval) (d : t) : t :=
  {| message := Some v; task_progress := task_progress d;
     task_traceback := task_traceback d; task_id := task_id d;
     task_state := task_state d; in_progress := in_progress d;
     succeeded := succeeded d |}.

Definition set_task_progress (v : pyobj) (d : t) : t :=
  {| message := message d; task_progress := Some v;
     task_traceback := task_traceback d; task_id := task_id d;
     task_state := task_state d; in_progress := in_progress d;
     succeeded := succeeded d |}.

Definition set_task_traceback (v : string) (d : t) : t :=
  {| message := message d; task_progress := task_progress d;
     task_traceback := Some v; task_id := task_id d;
     task_state := task_state d; in_progress := in_progress d;
     succeeded := succeeded d |}.

Definition set_task_id (v : option string) (d : t) : t :=
  {| message := message d; task_progress := task_progress d;
     task_traceback := task_traceback d; task_id := Some v;
     task_state := task_state d; in_progress := in_progress d;
     succeeded := succeeded d |}.

Definition set_task_state (v : string) (d : t) : t :=
  {| message := message d; task_progress := task_progress d;
     task_traceback := task_traceback d; task_id := task_id d;
     task_state := Some v; in_progress := in_progress d;
     succeeded := succeeded d |}.

Definition set_in_progress (v : bool) (d : t) : t :=
  {| message := message d; task_progress := task_progress d;
     task_traceback := task_traceback d; task_id := task_id d;
     task_state := task_state d; in_progress := Some v;
     succeeded := succeeded d |}.

Definition set_succeeded (v : bool) (d : t) : t :=
  {| message := message d; task_progress := task_progress d;
     task_traceback := task_traceback d; task_id := task_id d;
     task_state := task_state d; in_progress := in_progress d;
     succeeded := Some v |}.

(** [d.update(other)]: the keys of [other] win. *)
Definition update (other d : t) : t :=
  {| message := from_option Some (message d) (message other);
     task_progress := from_option Some (task_progress d) (task_progress other);
     task_traceback := from_option Some (task_traceback d) (task_traceback other);
     task_id := from_option Some (task_id d) (task_id other);
     task_state := from_option Some (task_state d) (task_state other);
     in_progress := from_option Some (in_progress d) (in_progress other);
     succeeded := from_option Some (succeeded d) (succeeded other) |}.
End Status.

(** ** task_submit.py *)

Definition _task_is_running (course_id task_type task_key : string) : M bool :=
  let runningTasks :=
    CourseTaskLog.filter
      (λ r, String.eqb (CourseTaskLog.course_id r) course_id
            && String.eqb (CourseTaskLog.task_type r) task_type
            && String.eqb (CourseTaskLog.task_key r) task_key)
      CourseTaskLog.objects in
  let runningTasks :=
    foldl (λ q state,
             CourseTaskLog.exclude
               (λ r, String.eqb (CourseTaskLog.task_state r) state) q)
          runningTasks READY_STATES in
  n ← len runningTasks;
  mret (Nat.ltb 0 n).

(** The statements of [_reserve_task] after the check: the insertion of the
    log entry. *)
Definition _reserve_task_create (course_id task_type task_key : string)
    (task_input : gmap string pyval) (requester : User.t) : M CourseTaskLog.t :=
  task_input_json ← lift (json_dumps (ODict task_input));
  objects_create
    {| CourseTaskLog.course_id := course_id;
       CourseTaskLog.task_type := task_type;
       CourseTaskLog.task_key := task_key;
       CourseTaskLog.task_input := Some task_input_json;
       CourseTaskLog.task_state := "QUEUING";
       CourseTaskLog.requester := requester;
       CourseTaskLog.task_id := None;
       CourseTaskLog.task_output := None |}.

Definition _reserve_task (course_id task_type task_key : string)
    (task_input : gmap string pyval) (requester : User.t) : M CourseTaskLog.t :=
  running ← _task_is_running course_id task_type task_key;
  if running : bool then raise (AlreadyRunningError "requested task is already running")
  else _reserve_task_create course_id task_type task_key task_input requester.

(** The [PROGRESS] branch of [_update_course_task_log]. *)
Definition progress_output (returned_result : pyobj) : result Status.t :=
  has_attempted ← contains returned_result "attempted";
  output ←
    (if has_attempted : bool then
       attempted ← getitem returned_result "attempted";
       updated ← getitem returned_result "updated";
       total ← getitem returned_result "total";
       action_name ← getitem returned_result "action_name";
       message ← format "Attempted {attempted} of {total}, {action_name} {updated}"
                   [("attempted", attempted); ("updated", updated);
                    ("total", total); ("action_name", action_name)];
       Ok (Status.set_message (PStr message) Status.empty)
     else Ok Status.empty);
  Ok (Status.set_task_progress returned_result output).

(** Returns the entry as the call leaves it (the caller's object is
    mutated in place) and the [output] dictionary. *)
Definition _update_course_task_log (course_task_log_entry : CourseTaskLog.t)
    (task_result : TaskResult.t) : M (CourseTaskLog.t * Status.t) :=
  let task_id := TaskResult.task_id task_result in
  let result_state := TaskResult.state task_result in
  let returned_result := TaskResult.result task_result in
  let result_traceback := TaskResult.traceback task_result in
  let entry_needs_saving := false in
  let output := Status.empty in
  '(entry, output, entry_needs_saving) ←
    (if decide (result_state = "PROGRESS") then
       output ← lift (progress_output returned_result);
       mret (course_task_log_entry, output, entry_needs_saving)
     else if decide (result_state = "SUCCESS") then
       text ← lift (json_dumps returned_result);
       let entry := CourseTaskLog.set_task_output (Some text) course_task_log_entry in
       mret (entry, Status.set_task_progress returned_result output, entry_needs_saving)
     else if decide (result_state = "FAILURE") then
       let exception := returned_result in
       message ← lift (exc_message_of exception);
       let task_progress : gmap string pyval :=
         {[ "exception" := PStr (type_name exception); "message" := PStr message ]} in
       let output := Status.set_message (PStr message) output in
       let '(output, task_progress) :=
         match result_traceback with
         | Some tb => (Status.set_task_traceback tb output,
                       <["traceback" := PStr tb]> task_progress)
         | None => (output, task_progress)
         end in
       text ← lift (json_dumps (ODict task_progress));
       let entry := CourseTaskLog.set_task_output (Some text) course_task_log_entry in
       mret (entry, Status.set_task_progress (ODict task_progress) output, entry_needs_saving)
     else if decide (result_state = "REVOKED") then
       let entry_needs_saving := true in
       let message := "Task revoked before running" in
       let output := Status.set_message (PStr message) output in
       let task_progress : gmap string pyval := {[ "message" := PStr message ]} in
       text ← lift (json_dumps (ODict task_progress));
       let entry := CourseTaskLog.set_task_output (Some text) course_task_log_entry in
       mret (entry, Status.set_task_progress (ODict task_progress) output, entry_needs_saving)
     else mret (course_task_log_entry, output, entry_needs_saving));
  let entry :=
    if decide (result_state ≠ CourseTaskLog.task_state (CourseTaskLog.row entry))
    then CourseTaskLog.set_task_id (Some task_id)
           (CourseTaskLog.set_task_state result_state entry)
    else entry in
  _ ← (if entry_needs_saving : bool then save entry else mret ());
  mret (entry, output).

Definition _update_task (course_task_log : CourseTaskLog.t)
    (task_result : TaskResult.t) : M CourseTaskLog.t :=
  '(course_task_log, _) ← _update_course_task_log course_task_log task_result;
  _ ← save course_task_log;
  mret course_task_log.

(** The request information handed to the task. *)
Record request_info := {
  ri_username : string;
  ri_ip : string;
  ri_agent : string;
  ri_host : string }.

Record xmodule_instance_args := {
  xqueue_callback_url_prefix : string;
  xia_request_info : request_info }.

(** [get_xqueue_callback_url_prefix] lives in [courseware.module_render]
    and is taken as a parameter. *)
Definition _get_xmodule_instance_args
    (get_xqueue_callback_url_prefix : HttpRequest.t → result string)
    (request : HttpRequest.t) : result xmodule_instance_args :=
  let META := HttpRequest.META request in
  ip ← from_option Ok (Raise (KeyError "REMOTE_ADDR")) (META !! "REMOTE_ADDR");
  let agent := default "" (META !! "HTTP_USER_AGENT") in
  host ← from_option Ok (Raise (KeyError "SERVER_NAME")) (META !! "SERVER_NAME");
  let request_info :=
    {| ri_username := User.username (HttpRequest.user request);
       ri_ip := ip; ri_agent := agent; ri_host := host |} in
  prefix ← get_xqueue_callback_url_prefix request;
  Ok {| xqueue_callback_url_prefix := prefix; xia_request_info := request_info |}.

(** The branches of [get_task_completion_message] that choose the message
    template; [None] is a [msg] that no branch has assigned. *)
Definition completion_template (student num_attempted num_updated : pyval)
    (succeeded : bool) : bool * option string :=
  if is_not_None student then
    if py_eq num_attempted (PInt 0) then
      (succeeded, Some "Unable to find submission to be {action} for student '{student}'")
    else if py_eq num_updated (PInt 0) then
      (succeeded, Some "Problem failed to be {action} for student '{student}'")
    else
      (true, Some "Problem successfully {action} for student '{student}'")
  else if py_eq num_attempted (PInt 0) then
    (succeeded, Some "Unable to find any students with submissions to be {action}")
  else if py_eq num_updated (PInt 0) then
    (succeeded, Some "Problem failed to be {action} for any of {attempted} students")
  else if py_eq num_updated num_attempted then
    (true, Some "Problem successfully {action} for {attempted} students")
  else if py_lt num_updated num_attempted then
    (succeeded, Some "Problem {action} for {updated} of {attempted} students")
  else
    (succeeded, None).

(** Reading the local variable [msg]. *)
Definition read_msg (msg : option string) : result string :=
  from_option Ok (Raise (UnboundLocalError "msg")) msg.

Definition get_task_completion_message (course_task_log_entry : CourseTaskLog.t)
    : result (bool * pyval) :=
  let entry := CourseTaskLog.row course_task_log_entry in
  let succeeded := false in
  match CourseTaskLog.task_output entry with
  | None => Ok (succeeded, PStr "No status information available")
  | Some text =>
      let task_output := json_loads text in
      if in_ (CourseTaskLog.task_state entry) ["FAILURE"; "REVOKED"] then
        message ← getitem task_output "message";
        Ok (succeeded, message)
      else
        action_name ← getitem task_output "action_name";
        num_attempted ← getitem task_output "attempted";
        num_updated ← getitem task_output "updated";
        num_total ← getitem task_output "total";
        match CourseTaskLog.task_input entry with
        | None => Ok (succeeded, PStr "No status information available")
        | Some text =>
            let task_input := json_loads text in
            problem_url ← get task_input "problem_url";
            student ← get task_input "student";
            let '(succeeded, msg) :=
              completion_template student num_attempted num_updated succeeded in
            msg ←
              (if is_not_None student && negb (py_eq num_attempted num_total) then
                 m ← read_msg msg; Ok (Some (m +:+ " (out of {total})"))
               else Ok msg);
            m ← read_msg msg;
            message ← format m
                        [("action", action_name); ("updated", num_updated);
                         ("attempted", num_attempted); ("total", num_total);
                         ("student", student); ("problem", problem_url)];
            Ok (succeeded, PStr message)
        end
  end.

(** The query [CourseTaskLog.objects.get(task_id=task_id)] is made on. *)
Definition by_task_id (task_id : string) : CourseTaskLog.queryset :=
  CourseTaskLog.filter
    (λ r, bool_decide (CourseTaskLog.task_id r = Some task_id))
    CourseTaskLog.objects.

Definition _get_course_task_log_status (backend : string → task_meta)
    (task_id : string) : M (option Status.t) :=
  found ← objects_get (by_task_id task_id);
  match found with
  | None => mret None
  | Some course_task_log_entry =>
      let status := Status.empty in
      '(entry, status) ←
        (if negb (in_ (CourseTaskLog.task_state (CourseTaskLog.row course_task_log_entry))
                      READY_STATES) then
           let result := AsyncResult backend task_id in
           '(entry, output) ← _update_course_task_log course_task_log_entry result;
           mret (entry, Status.update output status)
         else
           match CourseTaskLog.task_output (CourseTaskLog.row course_task_log_entry) with
           | Some text =>
               mret (course_task_log_entry,
                     Status.set_task_progress (json_loads text) status)
           | None => mret (course_task_log_entry, status)
           end);
      let row := CourseTaskLog.row entry in
      let status := Status.set_task_id (CourseTaskLog.task_id row) status in
      let status := Status.set_task_state (CourseTaskLog.task_state row) status in
      let status :=
        Status.set_in_progress (negb (in_ (CourseTaskLog.task_state row) READY_STATES))
                               status in
      if in_ (CourseTaskLog.task_state row) READY_STATES then
        '(succeeded, message) ← lift (get_task_completion_message entry);
        mret (Some (Status.set_succeeded succeeded (Status.set_message message status)))
      else mret (Some status)
  end.

Definition _encode_problem_and_student_input (problem_url : string)
    (student : option User.t) : result (gmap string pyval * string) :=
  match student with
  | Some student =>
      let task_input : gmap string pyval :=
        {[ "problem_url" := PStr problem_url;
           "student" := PStr (User.username student) ]} in
      task_key ← format "{student}_{problem}"
                   [("student", PInt (User.id student)); ("problem", PStr problem_url)];
      Ok (task_input, task_key)
  | None =>
      let task_input : gmap string pyval := {[ "problem_url" := PStr problem_url ]} in
      task_key ← format "{student}_{problem}"
                   [("student", PStr ""); ("problem", PStr problem_url)];
      Ok (task_input, task_key)
  end.

(** The arguments of the dispatched task. *)
Record task_args := {
  arg_entry_id : N;
  arg_course_id : string;
  arg_task_input : gmap string pyval;
  arg_xmodule_instance_args : xmodule_instance_args }.

(** A task class, by what its [apply_async] does with the arguments. *)
Definition task_class := task_args → result TaskResult.t.

Definition _submit_task
    (get_xqueue_callback_url_prefix : HttpRequest.t → result string)
    (request : HttpRequest.t) (task_type : string) (task_class : task_class)
    (course_id : string) (task_input : gmap string pyval) (task_key : string)
    : M CourseTaskLog.t :=
  course_task_log ← _reserve_task course_id task_type task_key task_input
                      (HttpRequest.user request);
  xmodule_instance_args ←
    lift (_get_xmodule_instance_args get_xqueue_callback_url_prefix request);
  let task_args :=
    {| arg_entry_id := CourseTaskLog.id course_task_log;
       arg_course_id := course_id;
       arg_task_input := task_input;
       arg_xmodule_instance_args := xmodule_instance_args |} in
  task_result ← lift (task_class task_args);
  course_task_log ← _update_task course_task_log task_result;
  mret course_task_log.

(** ** Operations on the ledger *)

(** The entry points of the module that can write to the table. *)
Inductive operation :=
| Reserve (course_id task_type task_key : string)
          (task_input : gmap string pyval) (requester : User.t)
| Submit (get_xqueue_callback_url_prefix : HttpRequest.t → result string)
         (request : HttpRequest.t) (task_type : string) (task_class : task_class)
         (course_id : string) (task_input : gmap string pyval) (task_key : string)
| GetStatus (backend : string → task_meta) (task_id : string).

(** The table an operation leaves, whether it returns or raises. *)
Definition perform (s : CourseTaskLog.table) (op : operation) : CourseTaskLog.table :=
  match op with
  | Reserve course_id task_type task_key task_input requester =>
      (_reserve_task course_id task_type task_key task_input requester s).2
  | Submit prefix request task_type task_class course_id task_input task_key =>
      (_submit_task prefix request task_type task_class course_id task_input task_key s).2
  | GetStatus backend task_id =>
      (_get_course_task_log_status backend task_id s).2
  end.

Definition perform_all (ops : list operation) (s : CourseTaskLog.table)
    : CourseTaskLog.table :=
  foldl perform s ops.

(** ** Concurrent callers of [_reserve_task] *)

Module Concurrent.

(** The arguments of one call. *)
Record call := {
  course_id : string;
  task_type : string;
  task_key : string;
  task_input : gmap string pyval;
  requester : User.t }.

(** Where a caller stands: before the query of [_task_is_running], between
    that query and the insertion, or finished.  Under
    [transaction.autocommit] each of the two statements is committed on its
    own, so other callers can run between them. *)
Inductive pc :=
| Start
| Checked
| Finished (r : result CourseTaskLog.t).

Record thread := { th_call : call; th_pc : pc }.

(** One statement of one caller. *)
Definition step_thread (t : thread) (s : CourseTaskLog.table)
    : thread * CourseTaskLog.table :=
  let c := th_call t in
  match th_pc t with
  | Start =>
      match _task_is_running (course_id c) (task_type c) (task_key c) s with
      | (Ok true, s') =>
          ({| th_call := c;
              th_pc := Finished
                         (Raise (AlreadyRunningError "requested task is already running")) |},
           s')
      | (Ok false, s') => ({| th_call := c; th_pc := Checked |}, s')
      | (Raise e, s') => ({| th_call := c; th_pc := Finished (Raise e) |}, s')
      end
  | Checked =>
      let '(r, s') :=
        _reserve_task_create (course_id c) (task_type c) (task_key c)
                             (task_input c) (requester c) s in
      ({| th_call := c; th_pc := Finished r |}, s')
  | Finished _ => (t, s)
  end.

(** A schedule names, statement by statement, the caller that runs next. *)
Fixpoint run (schedule : list nat) (ts : list thread) (s : CourseTaskLog.table)
    : list thread * CourseTaskLog.table :=
  match schedule with
  | [] => (ts, s)
  | i :: schedule =>
      match ts !! i with
      | Some t =>
          let '(t', s') := step_thread t s in
          run schedule (<[i := t']> ts) s'
      | None => run schedule ts s
      end
  end.

Definition start (c : call) : thread := {| th_call := c; th_pc := Start |}.

Definition returned (t : thread) : bool :=
  match th_pc t with
  | Finished (Ok _) => true
  | _ => false
  end.

Definition raised_already_running (t : thread) : bool :=
  match th_pc t with
  | Finished (Raise (AlreadyRunningError _)) => true
  | _ => false
  end.

(** The calls made one after the other, each one complete before the next
    begins. *)
Fixpoint serial (calls : list call) (s : CourseTaskLog.table)
    : list (result CourseTaskLog.t) * CourseTaskLog.table :=
  match calls with
  | [] => ([], s)
  | c :: calls =>
      let '(r, s') :=
        _reserve_task (course_id c) (task_type c) (task_key c)
                      (task_input c) (requester c) s in
      let '(rs, s'') := serial calls s' in
      (r :: rs, s'')
  end.

End Concurrent.

(** The rows of a table that block a new reservation of a key. *)
Definition blocks (course_id task_type task_key : string) (r : CourseTaskLog.fields)
    : Prop :=
  CourseTaskLog.course_id r = course_id
  ∧ CourseTaskLog.task_type r = task_type
  ∧ CourseTaskLog.task_key r = task_key
  ∧ CourseTaskLog.task_state r ∉ READY_STATES.

(** A record whose output holds the counters of a finished task. *)
Definition has_counters (out : gmap string pyval) (action : pyval) (a u t : Z) : Prop :=
  out !! "action_name" = Some action
  ∧ out !! "attempted" = Some (PInt a)
  ∧ out !! "updated" = Some (PInt u)
  ∧ out !! "total" = Some (PInt t).

(** The text appended to the messages about one student. *)
Definition out_of_total (a t : Z) : string :=
  if Z.eqb a t then "" else " (out of " +:+ pretty t +:+ ")".

(** The entry and the output that [_update_course_task_log] builds when the
    result is [REVOKED]. *)
Definition revoked_payload : gmap string pyval :=
  {[ "message" := PStr "Task revoked before running" ]}.

Definition revoked_entry (task_id : string) (e : CourseTaskLog.t) : CourseTaskLog.t :=
  let entry := CourseTaskLog.set_task_output (Some (JObject revoked_payload)) e in
  if decide ("REVOKED" ≠ CourseTaskLog.task_state (CourseTaskLog.row e))
  then CourseTaskLog.set_task_id (Some task_id)
         (CourseTaskLog.set_task_state "REVOKED" entry)
  else entry.

(** The status a poll returns when the backend answers [REVOKED]. *)
Definition revoked_status (task_id : string) : Status.t :=
  {| Status.message := Some (PStr "Task revoked before running");
     Status.task_progress := Some (ODict revoked_payload);
     Status.task_traceback := None;
     Status.task_id := Some (Some task_id);
     Status.task_state := Some "REVOKED";
     Status.in_progress := Some false;
     Status.succeeded := Some false |}.

(** A call for the key [(course_id, task_type, task_key)]. *)
Definition has_key (course_id task_type task_key : string) (c : Concurrent.call) : Prop :=
  Concurrent.course_id c = course_id
  ∧ Concurrent.task_type c = task_type
  ∧ Concurrent.task_key c = task_key.

(** A caller that has not started, or has been turned away. *)
Definition turned_away (course_id task_type task_key : string)
    (t : Concurrent.thread) : Prop :=
  has_key course_id task_type task_key (Concurrent.th_call t)
  ∧ (Concurrent.th_pc t = Concurrent.Start
     ∨ Concurrent.th_pc t
       = Concurrent.Finished
           (Raise (AlreadyRunningError "requested task is already running"))).


(** ** Sample data *)

Definition sample_user : User.t := {| User.id := 7; User.username := "S7" |}.

Definition sample_request : HttpRequest.t :=
  {| HttpRequest.user := sample_user;
     HttpRequest.META := {[ "REMOTE_ADDR" := "127.0.0.1"; "SERVER_NAME" := "lms" ]} |}.

Definition sample_prefix : HttpRequest.t → result string := λ _, Ok "https://lms".

(** The input of a task on problem P1: for all students, or for S7. *)
Definition bulk_input : gmap string pyval := {[ "problem_url" := PStr "P1" ]}.
Definition student_input : gmap string pyval :=
  {[ "problem_url" := PStr "P1"; "student" := PStr "S7" ]}.

Definition sample_counters (a u t : Z) : gmap string pyval :=
  {[ "action_name" := PStr "rescored"; "attempted" := PInt a;
     "updated" := PInt u; "total" := PInt t ]}.

Definition sample_row (task_key : string) (task_input : gmap string pyval)
    (task_id : option string) (task_state : string) (task_output : option json)
    : CourseTaskLog.fields :=
  {| CourseTaskLog.task_type := "rescore_problem";
     CourseTaskLog.course_id := "edX/101";
     CourseTaskLog.task_key := task_key;
     CourseTaskLog.task_input := Some (JObject task_input);
     CourseTaskLog.task_id := task_id;
     CourseTaskLog.task_state := task_state;
     CourseTaskLog.task_output := task_output;
     CourseTaskLog.requester := sample_user |}.

Definition sample_entry (r : CourseTaskLog.fields) : CourseTaskLog.t :=
  {| CourseTaskLog.id := 1; CourseTaskLog.row := r |}.

(** A table with one dispatched task, known as t1 and last seen pending. *)
Definition pending_row : CourseTaskLog.fields :=
  sample_row "_P1" bulk_input (Some "t1") "PENDING" None.
Definition pending_table : CourseTaskLog.table := {[ 1%N := pending_row ]}.

(** A result backend that gives one answer for every task id. *)
Definition sample_backend (state : string) (result : pyobj) : string → task_meta :=
  λ _, {| meta_state := state; meta_result := result; meta_traceback := None |}.

Definition sample_call : Concurrent.call :=
  {| Concurrent.course_id := "edX/101";
     Concurrent.task_type := "rescore_problem";
     Concurrent.task_key := "_P1";
     Concurrent.task_input := bulk_input;
     Concurrent.requester := sample_user |}.

(** A task class whose dispatch fails. *)
Definition failing_task_class : task_class := λ _, Raise (OtherError "OperationalError").

(** The outcome as C6 words it: a success exactly when a subject is named
    and [updated > 0], or none is named, [attempted > 0] and
    [updated = attempted]. *)
Definition claimed_succeeded (subject_named : bool) (attempted updated : Z) : bool :=
  (subject_named && Z.ltb 0 updated)
  || (negb subject_named && Z.ltb 0 attempted && Z.eqb updated attempted).

(** ** The queries, the status view and the submission entry points *)

Definition get_running_course_tasks (course_id : string) : CourseTaskLog.queryset :=
  let course_tasks :=
    CourseTaskLog.filter
      (λ r, String.eqb (CourseTaskLog.course_id r) course_id)
      CourseTaskLog.objects in
  foldl (λ q state,
           CourseTaskLog.exclude
             (λ r, String.eqb (CourseTaskLog.task_state r) state) q)
        course_tasks READY_STATES.

(** The order of [order_by('-id')]: the larger primary key first. *)
Definition newer_first (a b : CourseTaskLog.t) : Prop :=
  (CourseTaskLog.id b ≤ CourseTaskLog.id a)%N.

Global Instance newer_first_dec : RelDecision newer_first :=
  λ a b, decide (CourseTaskLog.id b ≤ CourseTaskLog.id a)%N.

(** The rows of a query under [order_by('-id')]. *)
Definition order_by_minus_id (rows : list CourseTaskLog.t) : list CourseTaskLog.t :=
  merge_sort newer_first rows.

(** The query that is returned is lazy: it is given here by its rows on the
    table it is evaluated against. *)
Definition get_course_task_history (course_id problem_url : string)
    (student : option User.t) : result (CourseTaskLog.table → list CourseTaskLog.t) :=
  '(_, task_key) ← _encode_problem_and_student_input problem_url student;
  let course_tasks :=
    CourseTaskLog.filter
      (λ r, String.eqb (CourseTaskLog.course_id r) course_id
            && String.eqb (CourseTaskLog.task_key r) task_key)
      CourseTaskLog.objects in
  Ok (λ s, order_by_minus_id (CourseTaskLog.evaluate course_tasks s)).

(** [request.POST]: a key that is present in a posted form has a first
    value and possibly more. *)
Abbreviation QueryDict := (gmap string (string * list string)).

(** [POST[key]], for a key that is present: the last of its values. *)
Definition last_value (values : string * list string) : string :=
  default values.1 (last values.2).

(** [POST.getlist(key)], for a key that is present. *)
Definition all_values (values : string * list string) : list string :=
  values.1 :: values.2.

(** What [course_task_log_status] serializes into its response: the status
    of one task ([None] when it is unknown), or a dictionary of statuses by
    task id. *)
Inductive view_output :=
| OneStatus (status : option Status.t)
| StatusById (statuses : gmap string Status.t).

(** The loop of [course_task_log_status] over [task_ids[]]. *)
Fixpoint status_of_each (backend : string → task_meta) (tasks : list string)
    (output : gmap string Status.t) : M (gmap string Status.t) :=
  match tasks with
  | [] => mret output
  | task_id :: tasks =>
      task_output ← _get_course_task_log_status backend task_id;
      let output :=
        match task_output with
        | Some status => <[task_id := status]> output
        | None => output
        end in
      status_of_each backend tasks output
  end.

(** The view, up to the serialization of [output] into the response. *)
Definition course_task_log_status (backend : string → task_meta)
    (POST : QueryDict) (task_id : option string) : M view_output :=
  match task_id with
  | Some task_id =>
      output ← _get_course_task_log_status backend task_id;
      mret (OneStatus output)
  | None =>
      match POST !! "task_id" with
      | Some values =>
          let task_id := last_value values in
          output ← _get_course_task_log_status backend task_id;
          mret (OneStatus output)
      | None =>
          match POST !! "task_ids[]" with
          | Some values =>
              output ← status_of_each backend (all_values values) ∅;
              mret (StatusById output)
          | None => mret (StatusById ∅)
          end
      end
  end.

(** A module descriptor, by the attributes [_check_arguments_for_rescoring]
    asks for: whether it has a [module_class], and whether that class has
    [rescore_problem]. *)
Module Descriptor.
Record module_class := { has_rescore_problem : bool }.
Record t := { module_class_of : option module_class }.
End Descriptor.

(** The collaborators of the entry points: [get_xqueue_callback_url_prefix],
    [modulestore().get_instance] and the three task classes of
    [courseware.tasks]. *)
Record collaborators := {
  xqueue_prefix : HttpRequest.t → result string;
  get_instance : string → string → result Descriptor.t;
  rescore_problem : task_class;
  reset_problem_attempts : task_class;
  delete_problem_state : task_class }.

Definition _check_arguments_for_rescoring (env : collaborators)
    (course_id problem_url : string) : result () :=
  descriptor ← get_instance env course_id problem_url;
  let supports_rescore := false in
  let supports_rescore :=
    match Descriptor.module_class_of descriptor with
    | Some module_class =>
        if Descriptor.has_rescore_problem module_class then true
        else supports_rescore
    | None => supports_rescore
    end in
  if negb supports_rescore then
    Raise (OtherError "NotImplementedError: Specified module does not support rescoring.")
  else Ok ().

Definition submit_rescore_problem_for_student (env : collaborators)
    (request : HttpRequest.t) (course_id problem_url : string) (student : User.t)
    : M CourseTaskLog.t :=
  _ ← lift (_check_arguments_for_rescoring env course_id problem_url);
  let task_type := "rescore_problem" in
  let task_class := rescore_problem env in
  '(task_input, task_key) ←
    lift (_encode_problem_and_student_input problem_url (Some student));
  _submit_task (xqueue_prefix env) request task_type task_class course_id
    task_input task_key.

Definition submit_rescore_problem_for_all_students (env : collaborators)
    (request : HttpRequest.t) (course_id problem_url : string) : M CourseTaskLog.t :=
  _ ← lift (_check_arguments_for_rescoring env course_id problem_url);
  let task_type := "rescore_problem" in
  let task_class := rescore_problem env in
  '(task_input, task_key) ← lift (_encode_problem_and_student_input problem_url None);
  _submit_task (xqueue_prefix env) request task_type task_class course_id
    task_input task_key.

Definition submit_reset_problem_attempts_for_all_students (env : collaborators)
    (request : HttpRequest.t) (course_id problem_url : string) : M CourseTaskLog.t :=
  _ ← lift (get_instance env course_id problem_url);
  let task_type := "reset_problem_attempts" in
  let task_class := reset_problem_attempts env in
  '(task_input, task_key) ← lift (_encode_problem_and_student_input problem_url None);
  _submit_task (xqueue_prefix env) request task_type task_class course_id
    task_input task_key.

Definition submit_delete_problem_state_for_all_students (env : collaborators)
    (request : HttpRequest.t) (course_id problem_url : string) : M CourseTaskLog.t :=
  _ ← lift (get_instance env course_id problem_url);
  let task_type := "delete_problem_state" in
  let task_class := delete_problem_state env in
  '(task_input, task_key) ← lift (_encode_problem_and_student_input problem_url None);
  _submit_task (xqueue_prefix env) request task_type task_class course_id
    task_input task_key.

(** ** Calls of the public entry points *)

Inductive api_call :=
| RescoreForStudent (request : HttpRequest.t) (course_id problem_url : string)
                    (student : User.t)
| RescoreForAll (request : HttpRequest.t) (course_id problem_url : string)
| ResetAttemptsForAll (request : HttpRequest.t) (course_id problem_url : string)
| DeleteStateForAll (request : HttpRequest.t) (course_id problem_url : string)
| StatusView (backend : string → task_meta) (POST : QueryDict)
             (task_id : option string).

(** The table a call leaves, whether it returns or raises. *)
Definition api_perform (env : collaborators) (s : CourseTaskLog.table)
    (c : api_call) : CourseTaskLog.table :=
  match c with
  | RescoreForStudent request course_id problem_url student =>
      (submit_rescore_problem_for_student env request course_id problem_url student s).2
  | RescoreForAll request course_id problem_url =>
      (submit_rescore_problem_for_all_students env request course_id problem_url s).2
  | ResetAttemptsForAll request course_id problem_url =>
      (submit_reset_problem_attempts_for_all_students env request course_id problem_url s).2
  | DeleteStateForAll request course_id problem_url =>
      (submit_delete_problem_state_for_all_students env request course_id problem_url s).2
  | StatusView backend POST task_id =>
      (course_task_log_status backend POST task_id s).2
  end.

Definition api_perform_all (env : collaborators) (calls : list api_call)
    (s : CourseTaskLog.table) : CourseTaskLog.table :=
  foldl (api_perform env) s calls.

(** ** Invariants of the ledger *)

(** The columns of a row that are set when it is created. *)
Definition same_identity (r r' : CourseTaskLog.fields) : Prop :=
  CourseTaskLog.course_id r' = CourseTaskLog.course_id r
  ∧ CourseTaskLog.task_type r' = CourseTaskLog.task_type r
  ∧ CourseTaskLog.task_key r' = CourseTaskLog.task_key r
  ∧ CourseTaskLog.task_input r' = CourseTaskLog.task_input r
  ∧ CourseTaskLog.requester r' = CourseTaskLog.requester r.

(** A row blocks its own key when it is not in a ready state. *)
Definition unready (r : CourseTaskLog.fields) : Prop :=
  CourseTaskLog.task_state r ∉ READY_STATES.

(** At most one row that is not in a ready state for each course, task type
    and key. *)
Definition one_running_per_key (s : CourseTaskLog.table) : Prop :=
  ∀ k1 k2 r1 r2,
    s !! k1 = Some r1 → s !! k2 = Some r2 →
    unready r1 → unready r2 →
    CourseTaskLog.course_id r1 = CourseTaskLog.course_id r2 →
    CourseTaskLog.task_type r1 = CourseTaskLog.task_type r2 →
    CourseTaskLog.task_key r1 = CourseTaskLog.task_key r2 →
    k1 = k2.

(** The writes the module makes: none; a new row under a free key, for a
    key that no stored row blocks; or a row that is not in a ready state,
    replaced by one with the same identity. *)
Inductive ledger_step (s : CourseTaskLog.table) : CourseTaskLog.table → Prop :=
| ledger_same : ledger_step s s
| ledger_insert (k : N) (r : CourseTaskLog.fields) :
    s !! k = None →
    (¬ ∃ k' r', s !! k' = Some r'
                ∧ blocks (CourseTaskLog.course_id r) (CourseTaskLog.task_type r)
                         (CourseTaskLog.task_key r) r') →
    ledger_step s (<[k := r]> s)
| ledger_update (k : N) (r r' : CourseTaskLog.fields) :
    s !! k = Some r →
    unready r →
    same_identity r r' →
    ledger_step s (<[k := r']> s).

(** A row stays: under its key, with its identity, and untouched once it is
    in a ready state. *)
Definition row_kept (s s' : CourseTaskLog.table) : Prop :=
  ∀ k r, s !! k = Some r →
    ∃ r', s' !! k = Some r' ∧ same_identity r r'
          ∧ (in_ (CourseTaskLog.task_state r) READY_STATES = true → r' = r).

(** A module store with three problems: P1 can be rescored, P2 has a module
    class that cannot, and P3 has no module class; every other problem is
    missing. *)
Definition sample_get_instance (course_id problem_url : string) : result Descriptor.t :=
  if String.eqb problem_url "P1" then
    Ok {| Descriptor.module_class_of :=
            Some {| Descriptor.has_rescore_problem := true |} |}
  else if String.eqb problem_url "P2" then
    Ok {| Descriptor.module_class_of :=
            Some {| Descriptor.has_rescore_problem := false |} |}
  else if String.eqb problem_url "P3" then
    Ok {| Descriptor.module_class_of := None |}
  else Raise (OtherError "ItemNotFoundError").

(** A task class whose dispatch hands back a pending result. *)
Definition pending_task_class (task_id : string) : task_class :=
  λ _, Ok {| TaskResult.task_id := task_id; TaskResult.state := "PENDING";
             TaskResult.result := ONone; TaskResult.traceback := None |}.

Definition sample_env : collaborators :=
  {| xqueue_prefix := sample_prefix;
     get_instance := sample_get_instance;
     rescore_problem := pending_task_class "t-rescore";
     reset_problem_attempts := pending_task_class "t-reset";
     delete_problem_state := pending_task_class "t-delete" |}.

(** The payload [_update_course_task_log] stores for a failed task. *)
Definition failure_payload (exc_type message : string) (traceback : option string)
    : gmap string pyval :=
  match traceback with
  | Some tb => <["traceback" := PStr tb]>
                 {[ "exception" := PStr exc_type; "message" := PStr message ]}
  | None => {[ "exception" := PStr exc_type; "message" := PStr message ]}
  end.

(** The entry [_update_course_task_log] leaves in memory once it has
    observed a state for the task of that id: the state, the task id and
    the output are as given, every other field is the entry's own. *)
Definition observed_entry (task_id state : string) (output : option json)
    (e : CourseTaskLog.t) : CourseTaskLog.t :=
  {| CourseTaskLog.id := CourseTaskLog.id e;
     CourseTaskLog.row :=
       {| CourseTaskLog.task_type := CourseTaskLog.task_type (CourseTaskLog.row e);
          CourseTaskLog.course_id := CourseTaskLog.course_id (CourseTaskLog.row e);
          CourseTaskLog.task_key := CourseTaskLog.task_key (CourseTaskLog.row e);
          CourseTaskLog.task_input := CourseTaskLog.task_input (CourseTaskLog.row e);
          CourseTaskLog.task_id := Some task_id;
          CourseTaskLog.task_state := state;
          CourseTaskLog.task_output := output;
          CourseTaskLog.requester := CourseTaskLog.requester (CourseTaskLog.row e) |} |}.

(** * Properties *)

(** ** The table *)

Lemma elem_of_evaluate (q : CourseTaskLog.queryset) (s : CourseTaskLog.table)
    (e : CourseTaskLog.t) :
  e ∈ CourseTaskLog.evaluate q s
  ↔ s !! CourseTaskLog.id e = Some (CourseTaskLog.row e) ∧ q (CourseTaskLog.row e) = true.
Proof.
  unfold CourseTaskLog.evaluate. rewrite list_elem_of_fmap. split.
  - intros [[k r] [-> [Hq Hin]%list_elem_of_filter]]; simpl in *.
    by apply elem_of_map_to_list in Hin.
  - intros [Hs Hq]. destruct e as [k r]; simpl in *.
    exists (k, r). split; [done|].
    apply list_elem_of_filter. split; [done|]. by apply elem_of_map_to_list.
Qed.

Lemma le_foldr_max (l : list N) (x : N) :
  x ∈ l → (x ≤ foldr N.max 0 l)%N.
Proof.
  induction l as [|y l IH]; [by intros ?%elem_of_nil|].
  intros [->|Hin]%elem_of_cons; simpl; [lia|].
  specialize (IH Hin). lia.
Qed.

Lemma next_id_fresh (s : CourseTaskLog.table) :
  s !! CourseTaskLog.next_id s = None.
Proof.
  destruct (s !! CourseTaskLog.next_id s) as [r|] eqn:Hs; [|done].
  apply elem_of_map_to_list in Hs.
  assert (CourseTaskLog.next_id s ∈ (map_to_list s).*1) as Hin.
  { apply list_elem_of_fmap. by exists (CourseTaskLog.next_id s, r). }
  apply le_foldr_max in Hin. unfold CourseTaskLog.next_id in Hin. lia.
Qed.

Lemma length_pos_elem_of {A} (l : list A) :
  Nat.ltb 0 (length l) = true ↔ ∃ x, x ∈ l.
Proof.
  destruct l as [|x l]; simpl; split; try done.
  - by intros [x ?%elem_of_nil].
  - intros _. exists x. by left.
Qed.

Lemma not_in_READY_STATES (state : string) :
  state ∉ READY_STATES ↔ state ≠ "SUCCESS" ∧ state ≠ "FAILURE" ∧ state ≠ "REVOKED".
Proof.
  unfold READY_STATES. rewrite !not_elem_of_cons, elem_of_nil. tauto.
Qed.

(** The query of [_task_is_running] selects the rows that block the key. *)
Lemma running_query_blocks (course_id task_type task_key : string)
    (r : CourseTaskLog.fields) :
  foldl (λ q state,
           CourseTaskLog.exclude
             (λ r, String.eqb (CourseTaskLog.task_state r) state) q)
        (CourseTaskLog.filter
           (λ r, String.eqb (CourseTaskLog.course_id r) course_id
                 && String.eqb (CourseTaskLog.task_type r) task_type
                 && String.eqb (CourseTaskLog.task_key r) task_key)
           CourseTaskLog.objects)
        READY_STATES r = true
  ↔ blocks course_id task_type task_key r.
Proof.
  unfold blocks. rewrite not_in_READY_STATES. simpl.
  unfold CourseTaskLog.exclude, CourseTaskLog.filter, CourseTaskLog.objects.
  rewrite !andb_true_iff, !negb_true_iff, !String.eqb_eq, !String.eqb_neq.
  tauto.
Qed.

Lemma _task_is_running_spec (course_id task_type task_key : string)
    (s : CourseTaskLog.table) :
  ∃ b, _task_is_running course_id task_type task_key s = (Ok b, s)
       ∧ (b = true ↔ ∃ k r, s !! k = Some r ∧ blocks course_id task_type task_key r).
Proof.
  eexists. split; [reflexivity|].
  rewrite length_pos_elem_of. split.
  - intros [e [Hs Hq]%elem_of_evaluate].
    exists (CourseTaskLog.id e), (CourseTaskLog.row e).
    split; [done|]. by apply running_query_blocks.
  - intros (k & r & Hs & Hb).
    exists {| CourseTaskLog.id := k; CourseTaskLog.row := r |}.
    apply elem_of_evaluate. split; [done|]. by apply running_query_blocks.
Qed.

(** ** Reservation *)

(** C1. [_reserve_task] either finds a row with the same course, task type
    and key whose state is not a ready state, raises [AlreadyRunningError]
    and leaves the table as it was; or finds none (rows in a ready state do
    not count), inserts one row under a key that was free, and returns it:
    the row is in state [QUEUING] and has no task id. *)
Theorem reserve_task_spec (course_id task_type task_key : string)
    (task_input : gmap string pyval) (requester : User.t)
    (s : CourseTaskLog.table) :
  ((∃ k r, s !! k = Some r ∧ blocks course_id task_type task_key r)
   ∧ _reserve_task course_id task_type task_key task_input requester s
     = (Raise (AlreadyRunningError "requested task is already running"), s))
  ∨ ((¬ ∃ k r, s !! k = Some r ∧ blocks course_id task_type task_key r)
     ∧ ∃ e,
         _reserve_task course_id task_type task_key task_input requester s
         = (Ok e, <[CourseTaskLog.id e := CourseTaskLog.row e]> s)
         ∧ s !! CourseTaskLog.id e = None
         ∧ CourseTaskLog.row e
           = {| CourseTaskLog.course_id := course_id;
                CourseTaskLog.task_type := task_type;
                CourseTaskLog.task_key := task_key;
                CourseTaskLog.task_input := Some (JObject task_input);
                CourseTaskLog.task_state := "QUEUING";
                CourseTaskLog.requester := requester;
                CourseTaskLog.task_id := None;
                CourseTaskLog.task_output := None |}).
Proof.
  destruct (_task_is_running_spec course_id task_type task_key s)
    as (b & Hrun & Hb).
  unfold _reserve_task, mbind, M_bind. rewrite Hrun.
  destruct b.
  - left. split; [by apply Hb | done].
  - right. split.
    + intros Hex. apply Hb in Hex. done.
    + eexists {| CourseTaskLog.id := CourseTaskLog.next_id s; CourseTaskLog.row := _ |}.
      split; [reflexivity|]. split; [apply next_id_fresh | done].
Qed.

(** ** Completion messages *)

Lemma append_empty_r (s : string) : s +:+ "" = s.
Proof. induction s as [|c s IH]; [done|]. change (String c (s +:+ "") = String c s). by f_equal. Qed.

Lemma length_append (s1 s2 : string) :
  String.length (s1 +:+ s2) = (String.length s1 + String.length s2)%nat.
Proof.
  induction s1 as [|c s1 IH]; [done|].
  change (S (String.length (s1 +:+ s2)) = S (String.length s1 + String.length s2)).
  by f_equal.
Qed.

Lemma get_task_completion_message_no_output (e : CourseTaskLog.t) :
  CourseTaskLog.task_output (CourseTaskLog.row e) = None →
  get_task_completion_message e = Ok (false, PStr "No status information available").
Proof. intros Hout. unfold get_task_completion_message. by rewrite Hout. Qed.

(** C7. For a record in a ready state whose [task_output] is [None],
    [get_task_completion_message] returns [(False, "No status information
    available")] without raising, and a status query that finds the record
    returns a status with that message and leaves the table alone. *)
Theorem missing_output_is_reported (e : CourseTaskLog.t) :
  in_ (CourseTaskLog.task_state (CourseTaskLog.row e)) READY_STATES = true →
  CourseTaskLog.task_output (CourseTaskLog.row e) = None →
  get_task_completion_message e = Ok (false, PStr "No status information available")
  ∧ ∀ backend task_id s,
      objects_get (by_task_id task_id) s = (Ok (Some e), s) →
      _get_course_task_log_status backend task_id s
      = (Ok (Some
               {| Status.message := Some (PStr "No status information available");
                  Status.task_progress := None;
                  Status.task_traceback := None;
                  Status.task_id := Some (CourseTaskLog.task_id (CourseTaskLog.row e));
                  Status.task_state := Some (CourseTaskLog.task_state (CourseTaskLog.row e));
                  Status.in_progress := Some false;
                  Status.succeeded := Some false |}),
         s).
Proof.
  intros Hready Hout. split; [by apply get_task_completion_message_no_output|].
  intros backend task_id s Hget.
  unfold _get_course_task_log_status, mbind, M_bind.
  rewrite Hget. simpl.
  rewrite Hready, Hout. simpl. rewrite Hready. simpl.
  unfold lift. rewrite (get_task_completion_message_no_output e Hout).
  reflexivity.
Qed.

Lemma get_task_completion_message_counters (e : CourseTaskLog.t)
    (out inp : gmap string pyval) (action : pyval) (a u t : Z) :
  CourseTaskLog.task_state (CourseTaskLog.row e) = "SUCCESS" →
  CourseTaskLog.task_output (CourseTaskLog.row e) = Some (JObject out) →
  CourseTaskLog.task_input (CourseTaskLog.row e) = Some (JObject inp) →
  has_counters out action a u t →
  get_task_completion_message e
  = let student := dict_get inp "student" in
    let '(succeeded, msg) := completion_template student (PInt a) (PInt u) false in
    msg ← (if is_not_None student && negb (Z.eqb a t) then
             m ← read_msg msg; Ok (Some (m +:+ " (out of {total})"))
           else Ok msg);
    m ← read_msg msg;
    message ← format m
                [("action", action); ("updated", PInt u);
                 ("attempted", PInt a); ("total", PInt t);
                 ("student", student); ("problem", dict_get inp "problem_url")];
    Ok (succeeded, PStr message).
Proof.
  intros Hstate Hout Hinp (Hact & Ha & Hu & Ht).
  unfold get_task_completion_message. rewrite Hstate, Hout, Hinp.
  change (in_ "SUCCESS" ["FAILURE"; "REVOKED"]) with false. cbv iota.
  unfold json_loads, getitem, dict_getitem. rewrite Hact, Ha, Hu, Ht.
  reflexivity.
Qed.

(** C10. On a [SUCCESS] record whose input names no student and whose
    counters have [attempted > 0], [updated > 0] and [updated > attempted],
    no branch assigns [msg], and [get_task_completion_message] raises at the
    final [msg.format]; with [updated <= attempted] it returns a pair. *)
Theorem completion_message_needs_updated_le_attempted (e : CourseTaskLog.t)
    (out inp : gmap string pyval) (action : pyval) (a u t : Z) :
  CourseTaskLog.task_state (CourseTaskLog.row e) = "SUCCESS" →
  CourseTaskLog.task_output (CourseTaskLog.row e) = Some (JObject out) →
  CourseTaskLog.task_input (CourseTaskLog.row e) = Some (JObject inp) →
  has_counters out action a u t →
  dict_get inp "student" = PNone →
  (0 < a → 0 < u → a < u →
   get_task_completion_message e = Raise (UnboundLocalError "msg"))
  ∧ (u ≤ a → ∃ b m, get_task_completion_message e = Ok (b, PStr m)).
Proof.
  intros Hstate Hout Hinp Hc Hst.
  rewrite (get_task_completion_message_counters e out inp action a u t) by done.
  rewrite Hst. unfold completion_template, is_not_None, py_eq, py_lt.
  split.
  - intros Ha Hu Hlt.
    destruct (Z.eqb_spec a 0); [lia|]. destruct (Z.eqb_spec u 0); [lia|].
    destruct (Z.eqb_spec u a); [lia|]. destruct (Z.ltb_spec u a); [lia|].
    reflexivity.
  - intros Hle.
    destruct (Z.eqb_spec a 0); [by eexists _, _|].
    destruct (Z.eqb_spec u 0); [by eexists _, _|].
    destruct (Z.eqb_spec u a); [by eexists _, _|].
    destruct (Z.ltb_spec u a); [by eexists _, _|lia].
Qed.

(** C6, as the code has it.  On a [SUCCESS] record with integer counters
    and an input payload: when a student is named the outcome is a success
    exactly when [attempted] and [updated] are both non-zero; when none is
    named and [updated <= attempted] (or one of them is zero) it is a success
    exactly when [attempted] is non-zero and [updated = attempted].  The
    message follows the template of its case, and the messages about one
    student end in " (out of total)" exactly when [attempted] differs from
    [total]. *)
Theorem completion_message_cases (e : CourseTaskLog.t)
    (out inp : gmap string pyval) (action : pyval) (a u t : Z) :
  CourseTaskLog.task_state (CourseTaskLog.row e) = "SUCCESS" →
  CourseTaskLog.task_output (CourseTaskLog.row e) = Some (JObject out) →
  CourseTaskLog.task_input (CourseTaskLog.row e) = Some (JObject inp) →
  has_counters out action a u t →
  let student := dict_get inp "student" in
  let R := get_task_completion_message e in
  (student ≠ PNone → a = 0 →
   R = Ok (false,
           PStr ("Unable to find submission to be " +:+ py_str action
                 +:+ " for student '" +:+ py_str student +:+ "'"
                 +:+ out_of_total a t)))
  ∧ (student ≠ PNone → a ≠ 0 → u = 0 →
     R = Ok (false,
             PStr ("Problem failed to be " +:+ py_str action
                   +:+ " for student '" +:+ py_str student +:+ "'"
                   +:+ out_of_total a t)))
  ∧ (student ≠ PNone → a ≠ 0 → u ≠ 0 →
     R = Ok (true,
             PStr ("Problem successfully " +:+ py_str action
                   +:+ " for student '" +:+ py_str student +:+ "'"
                   +:+ out_of_total a t)))
  ∧ (student = PNone → a = 0 →
     R = Ok (false,
             PStr ("Unable to find any students with submissions to be "
                   +:+ py_str action)))
  ∧ (student = PNone → a ≠ 0 → u = 0 →
     R = Ok (false,
             PStr ("Problem failed to be " +:+ py_str action
                   +:+ " for any of " +:+ pretty a +:+ " students")))
  ∧ (student = PNone → a ≠ 0 → u = a →
     R = Ok (true,
             PStr ("Problem successfully " +:+ py_str action
                   +:+ " for " +:+ pretty a +:+ " students")))
  ∧ (student = PNone → a ≠ 0 → u ≠ 0 → u < a →
     R = Ok (false,
             PStr ("Problem " +:+ py_str action +:+ " for " +:+ pretty u
                   +:+ " of " +:+ pretty a +:+ " students"))).
Proof.
  intros Hstate Hout Hinp Hc student R. subst R.
  rewrite (get_task_completion_message_counters e out inp action a u t) by done.
  fold student. clearbody student.
  generalize (dict_get inp "problem_url"). intros problem_url.
  unfold completion_template, out_of_total, py_eq, py_lt.
  repeat split.
  - intros Hs ->. destruct (Z.eqb_spec 0 t); by destruct student.
  - intros Hs Ha ->. destruct (Z.eqb_spec a 0); [done|].
    destruct (Z.eqb_spec a t); by destruct student.
  - intros Hs Ha Hu. destruct (Z.eqb_spec a 0); [done|].
    destruct (Z.eqb_spec u 0); [done|].
    destruct (Z.eqb_spec a t); by destruct student.
  - intros -> ->. rewrite <- (append_empty_r (py_str action)). reflexivity.
  - intros -> Ha ->. destruct (Z.eqb_spec a 0); [done|]. reflexivity.
  - intros -> Ha ->. destruct (Z.eqb_spec a 0); [done|].
    rewrite Z.eqb_refl. reflexivity.
  - intros -> Ha Hu Hlt. destruct (Z.eqb_spec a 0); [done|].
    destruct (Z.eqb_spec u 0); [done|].
    destruct (Z.eqb_spec u a); [lia|]. destruct (Z.ltb_spec u a); [|lia].
    reflexivity.
Qed.

(** ** Key encoding *)

Lemma pretty_N_go_nonempty (x : N) (s : string) : s ≠ "" → pretty_N_go x s ≠ "".
Proof.
  revert s. induction (N.lt_wf_0 x) as [x _ IH]. intros s Hs.
  destruct (decide (x = 0%N)) as [->|Hx]; [by rewrite pretty_N_go_0|].
  rewrite pretty_N_go_step by lia.
  apply IH; [apply N.div_lt; lia | done].
Qed.

Lemma pretty_N_nonempty (x : N) : pretty x ≠ "".
Proof.
  unfold pretty, pretty_N. destruct (decide (x = 0%N)); [done|].
  rewrite pretty_N_go_step by lia. by apply pretty_N_go_nonempty.
Qed.

Lemma pretty_Z_nonempty (z : Z) : pretty z ≠ "".
Proof.
  destruct z as [|p|p]; [done| |done].
  apply (pretty_N_nonempty (N.pos p)).
Qed.

(** C9. [_encode_problem_and_student_input] yields one pair for given
    arguments, and the key made for a student differs from the key made for
    the same problem without a student. *)
Theorem encode_key_separates_student (problem_url : string) (student : User.t) :
  (exists! r, _encode_problem_and_student_input problem_url (Some student) = Ok r)
  ∧ (exists! r, _encode_problem_and_student_input problem_url None = Ok r)
  ∧ ∃ input1 key1 input0 key0,
      _encode_problem_and_student_input problem_url (Some student) = Ok (input1, key1)
      ∧ _encode_problem_and_student_input problem_url None = Ok (input0, key0)
      ∧ key1 ≠ key0.
Proof.
  assert (_encode_problem_and_student_input problem_url (Some student)
          = Ok ({[ "problem_url" := PStr problem_url;
                   "student" := PStr (User.username student) ]},
                pretty (User.id student) +:+ "_" +:+ problem_url +:+ "")) as H1
    by reflexivity.
  assert (_encode_problem_and_student_input problem_url None
          = Ok ({[ "problem_url" := PStr problem_url ]},
                "_" +:+ problem_url +:+ "")) as H0
    by reflexivity.
  split; [|split].
  - eexists. split; [exact H1|]. intros r Hr. rewrite H1 in Hr. by injection Hr.
  - eexists. split; [exact H0|]. intros r Hr. rewrite H0 in Hr. by injection Hr.
  - do 4 eexists. split; [exact H1|]. split; [exact H0|].
    intros Heq. apply (f_equal String.length) in Heq.
    rewrite length_append in Heq.
    pose proof (pretty_Z_nonempty (User.id student)) as Hne.
    destruct (pretty (User.id student)); [done|]. simpl in Heq. lia.
Qed.

(** ** Status updates *)

Lemma _update_course_task_log_revoked (e : CourseTaskLog.t) (tr : TaskResult.t)
    (s : CourseTaskLog.table) :
  TaskResult.state tr = "REVOKED" →
  _update_course_task_log e tr s
  = (Ok (revoked_entry (TaskResult.task_id tr) e,
         Status.set_task_progress (ODict revoked_payload)
           (Status.set_message (PStr "Task revoked before running") Status.empty)),
     <[CourseTaskLog.id e := CourseTaskLog.row (revoked_entry (TaskResult.task_id tr) e)]> s).
Proof.
  intros Hst. unfold _update_course_task_log. rewrite Hst.
  unfold mbind, M_bind, mret, M_ret, lift, save, revoked_entry. simpl.
  destruct (decide ("REVOKED" ≠ CourseTaskLog.task_state (CourseTaskLog.row e)));
    reflexivity.
Qed.

Lemma _update_course_task_log_not_revoked (e : CourseTaskLog.t) (tr : TaskResult.t)
    (s : CourseTaskLog.table) :
  TaskResult.state tr ≠ "REVOKED" →
  ∃ r, _update_course_task_log e tr s = (r, s)
       ∧ ∀ e' out, r = Ok (e', out) →
           CourseTaskLog.id e' = CourseTaskLog.id e
           ∧ CourseTaskLog.task_state (CourseTaskLog.row e') = TaskResult.state tr.
Proof.
  intros Hst. unfold _update_course_task_log, mbind, M_bind, mret, M_ret, lift.
  assert (∀ st : string, ¬ st ≠ TaskResult.state tr → st = TaskResult.state tr) as Hdn.
  { intros st Hn. by destruct (decide (st = TaskResult.state tr)). }
  repeat case_decide; try done;
    repeat match goal with
    | |- context [progress_output ?x] => destruct (progress_output x); simpl
    | |- context [json_dumps (TaskResult.result tr)] =>
        destruct (json_dumps (TaskResult.result tr)); simpl
    | |- context [exc_message_of ?x] => destruct (exc_message_of x); simpl
    | |- context [TaskResult.traceback tr] => destruct (TaskResult.traceback tr); simpl
    end;
    simpl; try case_decide;
    (eexists; split; [reflexivity|]); try done;
    intros ?? [= <- <-]; simpl; split; try done; symmetry; by apply Hdn.
Qed.

Lemma objects_get_table (q : CourseTaskLog.queryset) (s : CourseTaskLog.table) :
  (objects_get q s).2 = s.
Proof.
  unfold objects_get. by destruct (CourseTaskLog.evaluate q s) as [|? [|? ?]].
Qed.

Lemma objects_get_Some (q : CourseTaskLog.queryset) (s s' : CourseTaskLog.table)
    (e : CourseTaskLog.t) :
  objects_get q s = (Ok (Some e), s') →
  CourseTaskLog.evaluate q s = [e]
  ∧ s !! CourseTaskLog.id e = Some (CourseTaskLog.row e)
  ∧ q (CourseTaskLog.row e) = true.
Proof.
  unfold objects_get. intros Hget.
  destruct (CourseTaskLog.evaluate q s) as [|e0 [|e1 l]] eqn:Hev; simplify_eq.
  split; [done|]. apply elem_of_evaluate. rewrite Hev. by left.
Qed.

(** Writing a row back under its key, still selected by the query, leaves
    the query with that one answer. *)
Lemma objects_get_saved (q : CourseTaskLog.queryset) (s : CourseTaskLog.table)
    (e : CourseTaskLog.t) (r' : CourseTaskLog.fields) :
  objects_get q s = (Ok (Some e), s) →
  q r' = true →
  objects_get q (<[CourseTaskLog.id e := r']> s)
  = (Ok (Some {| CourseTaskLog.id := CourseTaskLog.id e; CourseTaskLog.row := r' |}),
     <[CourseTaskLog.id e := r']> s).
Proof.
  intros (Hev & Hs & Hq)%objects_get_Some Hq'.
  destruct e as [k r]; simpl in *.
  set (mk := λ kr : N * CourseTaskLog.fields,
               {| CourseTaskLog.id := kr.1; CourseTaskLog.row := kr.2 |}).
  set (P := λ kr : N * CourseTaskLog.fields, q kr.2 = true).
  assert (mk <$> base.filter P (map_to_list (delete k s)) = []) as Hrest.
  { assert (CourseTaskLog.evaluate q s
            ≡ₚ mk (k, r) :: (mk <$> base.filter P (map_to_list (delete k s))))
      as Hperm.
    { unfold CourseTaskLog.evaluate. fold mk P.
      rewrite <- (map_to_list_delete s k r Hs).
      by rewrite filter_cons_True. }
    rewrite Hev in Hperm. apply Permutation_length in Hperm.
    destruct (mk <$> base.filter P (map_to_list (delete k s))); [done|].
    simpl in Hperm. lia. }
  assert (CourseTaskLog.evaluate q (<[k := r']> s) = [mk (k, r')]) as Hev'.
  { apply Permutation_singleton_r.
    unfold CourseTaskLog.evaluate. fold mk P.
    rewrite <- insert_delete_eq.
    rewrite map_to_list_insert by apply lookup_delete_eq.
    rewrite filter_cons_True by done.
    rewrite fmap_cons. by rewrite Hrest. }
  unfold objects_get. by rewrite Hev'.
Qed.

Lemma in_READY_STATES_false (state : string) :
  in_ state READY_STATES = false
  ↔ state ≠ "SUCCESS" ∧ state ≠ "FAILURE" ∧ state ≠ "REVOKED".
Proof.
  unfold in_. rewrite bool_decide_eq_false. apply not_in_READY_STATES.
Qed.

(** A record already in a ready state is answered from the row alone. *)
Lemma status_of_ready (backend : string → task_meta) (task_id : string)
    (s : CourseTaskLog.table) (e : CourseTaskLog.t) :
  objects_get (by_task_id task_id) s = (Ok (Some e), s) →
  in_ (CourseTaskLog.task_state (CourseTaskLog.row e)) READY_STATES = true →
  _get_course_task_log_status backend task_id s
  = (match get_task_completion_message e with
     | Ok (succeeded, message) =>
         Ok (Some
               {| Status.message := Some message;
                  Status.task_progress :=
                    json_loads <$> CourseTaskLog.task_output (CourseTaskLog.row e);
                  Status.task_traceback := None;
                  Status.task_id := Some (CourseTaskLog.task_id (CourseTaskLog.row e));
                  Status.task_state := Some (CourseTaskLog.task_state (CourseTaskLog.row e));
                  Status.in_progress := Some false;
                  Status.succeeded := Some succeeded |})
     | Raise err => Raise err
     end, s).
Proof.
  intros Hget Hready.
  unfold _get_course_task_log_status, mbind, M_bind, mret, M_ret, lift.
  rewrite Hget. simpl. rewrite Hready. simpl.
  destruct (CourseTaskLog.task_output (CourseTaskLog.row e)); simpl;
    rewrite Hready; by destruct (get_task_completion_message e) as [[b m]|err].
Qed.

(** A poll of a record not yet in a ready state writes nothing unless the
    result backend answers [REVOKED]. *)
Lemma status_of_unready_table (backend : string → task_meta) (task_id : string)
    (s : CourseTaskLog.table) (e : CourseTaskLog.t) :
  objects_get (by_task_id task_id) s = (Ok (Some e), s) →
  in_ (CourseTaskLog.task_state (CourseTaskLog.row e)) READY_STATES = false →
  meta_state (backend task_id) ≠ "REVOKED" →
  (_get_course_task_log_status backend task_id s).2 = s.
Proof.
  intros Hget Hunready Hst.
  unfold _get_course_task_log_status, mbind, M_bind, mret, M_ret, lift.
  rewrite Hget. simpl. rewrite Hunready. simpl.
  destruct (_update_course_task_log_not_revoked e (AsyncResult backend task_id) s Hst)
    as (r & -> & _).
  destruct r as [[e' out]|err]; [|done].
  destruct (in_ (CourseTaskLog.task_state (CourseTaskLog.row e')) READY_STATES);
    [|done].
  by destruct (get_task_completion_message e') as [[b m]|err].
Qed.

Lemma revoked_entry_row (task_id : string) (e : CourseTaskLog.t) :
  in_ (CourseTaskLog.task_state (CourseTaskLog.row e)) READY_STATES = false →
  revoked_entry task_id e
  = {| CourseTaskLog.id := CourseTaskLog.id e;
       CourseTaskLog.row :=
         {| CourseTaskLog.task_type := CourseTaskLog.task_type (CourseTaskLog.row e);
            CourseTaskLog.course_id := CourseTaskLog.course_id (CourseTaskLog.row e);
            CourseTaskLog.task_key := CourseTaskLog.task_key (CourseTaskLog.row e);
            CourseTaskLog.task_input := CourseTaskLog.task_input (CourseTaskLog.row e);
            CourseTaskLog.task_id := Some task_id;
            CourseTaskLog.task_state := "REVOKED";
            CourseTaskLog.task_output := Some (JObject revoked_payload);
            CourseTaskLog.requester := CourseTaskLog.requester (CourseTaskLog.row e) |} |}.
Proof.
  intros (_ & _ & Hne)%in_READY_STATES_false. unfold revoked_entry.
  by destruct (decide ("REVOKED" ≠ CourseTaskLog.task_state (CourseTaskLog.row e))).
Qed.

Lemma status_of_unready_revoked (backend : string → task_meta) (task_id : string)
    (s : CourseTaskLog.table) (e : CourseTaskLog.t) :
  objects_get (by_task_id task_id) s = (Ok (Some e), s) →
  in_ (CourseTaskLog.task_state (CourseTaskLog.row e)) READY_STATES = false →
  meta_state (backend task_id) = "REVOKED" →
  _get_course_task_log_status backend task_id s
  = (Ok (Some (revoked_status task_id)),
     <[CourseTaskLog.id e := CourseTaskLog.row (revoked_entry task_id e)]> s).
Proof.
  intros Hget Hunready Hst.
  unfold _get_course_task_log_status, mbind, M_bind, mret, M_ret, lift.
  rewrite Hget. simpl. rewrite Hunready. simpl.
  rewrite (_update_course_task_log_revoked e (AsyncResult backend task_id) s Hst).
  simpl. rewrite (revoked_entry_row task_id e Hunready). reflexivity.
Qed.

(** ** What the operations leave untouched *)

Lemma _update_course_task_log_frame (e : CourseTaskLog.t) (tr : TaskResult.t)
    (s : CourseTaskLog.table) :
  ∃ r s', _update_course_task_log e tr s = (r, s')
          ∧ (∀ k, k ≠ CourseTaskLog.id e → s' !! k = s !! k)
          ∧ (∀ e' out, r = Ok (e', out) → CourseTaskLog.id e' = CourseTaskLog.id e).
Proof.
  destruct (decide (TaskResult.state tr = "REVOKED")) as [Hst|Hst].
  - rewrite (_update_course_task_log_revoked e tr s Hst). do 2 eexists.
    split; [reflexivity|]. split.
    + intros k Hk. by rewrite lookup_insert_ne.
    + intros e' out [= <- <-]. unfold revoked_entry. by case_decide.
  - destruct (_update_course_task_log_not_revoked e tr s Hst) as (r & -> & Hr).
    exists r, s. split; [done|]. split; [done|].
    intros e' out He. by apply Hr in He as [? _].
Qed.

Lemma _reserve_task_cases (course_id task_type task_key : string)
    (task_input : gmap string pyval) (requester : User.t)
    (s : CourseTaskLog.table) :
  ((∃ k r, s !! k = Some r ∧ blocks course_id task_type task_key r)
   ∧ _reserve_task course_id task_type task_key task_input requester s
     = (Raise (AlreadyRunningError "requested task is already running"), s))
  ∨ ((¬ ∃ k r, s !! k = Some r ∧ blocks course_id task_type task_key r)
     ∧ _reserve_task course_id task_type task_key task_input requester s
       = (Ok {| CourseTaskLog.id := CourseTaskLog.next_id s;
                CourseTaskLog.row :=
                  {| CourseTaskLog.course_id := course_id;
                     CourseTaskLog.task_type := task_type;
                     CourseTaskLog.task_key := task_key;
                     CourseTaskLog.task_input := Some (JObject task_input);
                     CourseTaskLog.task_state := "QUEUING";
                     CourseTaskLog.requester := requester;
                     CourseTaskLog.task_id := None;
                     CourseTaskLog.task_output := None |} |},
          <[CourseTaskLog.next_id s :=
              {| CourseTaskLog.course_id := course_id;
                 CourseTaskLog.task_type := task_type;
                 CourseTaskLog.task_key := task_key;
                 CourseTaskLog.task_input := Some (JObject task_input);
                 CourseTaskLog.task_state := "QUEUING";
                 CourseTaskLog.requester := requester;
                 CourseTaskLog.task_id := None;
                 CourseTaskLog.task_output := None |}]> s)).
Proof.
  destruct (_task_is_running_spec course_id task_type task_key s)
    as (b & Hrun & Hb).
  unfold _reserve_task, mbind, M_bind. rewrite Hrun.
  destruct b.
  - left. split; [by apply Hb | done].
  - right. split; [|done]. intros Hex. by apply Hb in Hex.
Qed.

Lemma _reserve_task_frame (course_id task_type task_key : string)
    (task_input : gmap string pyval) (requester : User.t)
    (s : CourseTaskLog.table) :
  ∃ r s', _reserve_task course_id task_type task_key task_input requester s = (r, s')
          ∧ (∀ k, k ≠ CourseTaskLog.next_id s → s' !! k = s !! k)
          ∧ (∀ e, r = Ok e → CourseTaskLog.id e = CourseTaskLog.next_id s).
Proof.
  destruct (_reserve_task_cases course_id task_type task_key task_input requester s)
    as [[_ ->]|[_ ->]]; do 2 eexists; (split; [reflexivity|]); split; try done.
  - intros k Hk. by rewrite lookup_insert_ne.
  - by intros e [= <-].
Qed.

Lemma _submit_task_frame prefix request task_type (task_class : task_class)
    course_id task_input task_key (s : CourseTaskLog.table) (k : N) :
  k ≠ CourseTaskLog.next_id s →
  (_submit_task prefix request task_type task_class course_id task_input task_key s).2
    !! k = s !! k.
Proof.
  intros Hk. unfold _submit_task, _update_task, mbind, M_bind, mret, M_ret, lift, save.
  destruct (_reserve_task_frame course_id task_type task_key task_input
              (HttpRequest.user request) s) as (r & s1 & -> & Hs1 & Hid).
  destruct r as [e|err]; simpl; [|by apply Hs1].
  specialize (Hid e eq_refl).
  destruct (_get_xmodule_instance_args prefix request) as [xargs|err]; simpl;
    [|by apply Hs1].
  destruct (task_class _) as [tr|err]; simpl; [|by apply Hs1].
  destruct (_update_course_task_log_frame e tr s1) as (r & s2 & -> & Hs2 & Hid').
  destruct r as [[e' out]|err]; simpl.
  - specialize (Hid' e' out eq_refl).
    rewrite lookup_insert_ne by congruence.
    rewrite Hs2 by congruence. by apply Hs1.
  - rewrite Hs2 by congruence. by apply Hs1.
Qed.

(** No operation touches a row that is in a ready state. *)
Lemma perform_keeps_ready (op : operation) (s : CourseTaskLog.table) (k : N)
    (r : CourseTaskLog.fields) :
  s !! k = Some r →
  in_ (CourseTaskLog.task_state r) READY_STATES = true →
  perform s op !! k = Some r.
Proof.
  intros Hs Hready.
  assert (k ≠ CourseTaskLog.next_id s) as Hfresh.
  { intros ->. by rewrite next_id_fresh in Hs. }
  destruct op as [c t key inp req|prefix request t cls c inp key|backend task_id];
    simpl.
  - destruct (_reserve_task_frame c t key inp req s) as (r0 & s' & -> & Hs' & _).
    simpl. by rewrite Hs'.
  - by rewrite _submit_task_frame.
  - destruct (objects_get (by_task_id task_id) s) as [[[e|]|err] s0] eqn:Hget;
      pose proof (objects_get_table (by_task_id task_id) s) as Htab;
      rewrite Hget in Htab; simpl in Htab; subst s0.
    + destruct (in_ (CourseTaskLog.task_state (CourseTaskLog.row e)) READY_STATES)
        eqn:He.
      * by rewrite (status_of_ready backend task_id s e Hget He).
      * destruct (decide (meta_state (backend task_id) = "REVOKED")) as [Hst|Hst].
        -- rewrite (status_of_unready_revoked backend task_id s e Hget He Hst).
           simpl. apply objects_get_Some in Hget as (_ & Hse & _).
           rewrite lookup_insert_ne; [done|]. intros <-. congruence.
        -- by rewrite (status_of_unready_table backend task_id s e Hget He Hst).
    + unfold _get_course_task_log_status, mbind, M_bind. by rewrite Hget.
    + unfold _get_course_task_log_status, mbind, M_bind. by rewrite Hget.
Qed.

Lemma perform_all_keeps_ready (ops : list operation) (s : CourseTaskLog.table)
    (k : N) (r : CourseTaskLog.fields) :
  s !! k = Some r →
  in_ (CourseTaskLog.task_state r) READY_STATES = true →
  perform_all ops s !! k = Some r.
Proof.
  revert s. induction ops as [|op ops IH]; intros s Hs Hready; [done|].
  simpl. apply IH; [|done]. by apply perform_keeps_ready.
Qed.

(** ** Polling *)

(** C5, as the code has it.  When the backend answers [REVOKED] for a
    record that is not in a ready state, the poll itself writes the payload
    whose message is "Task revoked before running" into the row, and that
    poll and every later one answer [in_progress = False],
    [succeeded = False] and that message. *)
Theorem revoked_is_synthesized_and_persisted (backend backend' : string → task_meta)
    (task_id : string) (s : CourseTaskLog.table) (e : CourseTaskLog.t) :
  objects_get (by_task_id task_id) s = (Ok (Some e), s) →
  in_ (CourseTaskLog.task_state (CourseTaskLog.row e)) READY_STATES = false →
  meta_state (backend task_id) = "REVOKED" →
  ∃ s' r' st,
    _get_course_task_log_status backend task_id s = (Ok (Some st), s')
    ∧ s' !! CourseTaskLog.id e = Some r'
    ∧ CourseTaskLog.task_state r' = "REVOKED"
    ∧ CourseTaskLog.task_output r'
      = Some (JObject {[ "message" := PStr "Task revoked before running" ]})
    ∧ _get_course_task_log_status backend' task_id s' = (Ok (Some st), s')
    ∧ Status.in_progress st = Some false
    ∧ Status.succeeded st = Some false
    ∧ Status.message st = Some (PStr "Task revoked before running").
Proof.
  intros Hget Hunready Hst.
  exists (<[CourseTaskLog.id e := CourseTaskLog.row (revoked_entry task_id e)]> s),
         (CourseTaskLog.row (revoked_entry task_id e)), (revoked_status task_id).
  split; [by apply status_of_unready_revoked|].
  split; [by rewrite lookup_insert_eq|].
  rewrite (revoked_entry_row task_id e Hunready). simpl.
  split; [done|]. split; [done|]. split; [|done].
  match goal with
  | |- context [<[_ := ?r]> s] =>
      assert (by_task_id task_id r = true) as Hq
        by (unfold by_task_id, CourseTaskLog.filter, CourseTaskLog.objects;
            simpl; by rewrite bool_decide_eq_true);
      pose proof (objects_get_saved (by_task_id task_id) s e r Hget Hq) as Hget'
  end.
  by rewrite (status_of_ready backend' task_id _ _ Hget').
Qed.

(** C4. A record in a ready state is answered from its stored output, with
    [in_progress = False], whatever the result backend holds, and the poll
    writes nothing; and no sequence of operations of the module changes the
    row of such a record. *)
Theorem ready_records_are_frozen (e : CourseTaskLog.t) :
  in_ (CourseTaskLog.task_state (CourseTaskLog.row e)) READY_STATES = true →
  (∀ backend task_id s,
     objects_get (by_task_id task_id) s = (Ok (Some e), s) →
     _get_course_task_log_status backend task_id s
     = (match get_task_completion_message e with
        | Ok (succeeded, message) =>
            Ok (Some
                  {| Status.message := Some message;
                     Status.task_progress :=
                       json_loads <$> CourseTaskLog.task_output (CourseTaskLog.row e);
                     Status.task_traceback := None;
                     Status.task_id := Some (CourseTaskLog.task_id (CourseTaskLog.row e));
                     Status.task_state :=
                       Some (CourseTaskLog.task_state (CourseTaskLog.row e));
                     Status.in_progress := Some false;
                     Status.succeeded := Some succeeded |})
        | Raise err => Raise err
        end, s))
  ∧ (∀ ops s,
       s !! CourseTaskLog.id e = Some (CourseTaskLog.row e) →
       perform_all ops s !! CourseTaskLog.id e = Some (CourseTaskLog.row e)).
Proof.
  intros Hready. split.
  - intros backend task_id s Hget. by apply status_of_ready.
  - intros ops s Hs. by apply perform_all_keeps_ready.
Qed.

(** ** Submission *)

(** C8. When [apply_async] raises, [_submit_task] raises the same
    exception, and the record reserved just before stays in the table in
    state [QUEUING] without a task id. *)
Theorem dispatch_failure_leaves_queuing
    (prefix : HttpRequest.t → result string) (request : HttpRequest.t)
    (task_type : string) (task_class : task_class) (course_id : string)
    (task_input : gmap string pyval) (task_key : string)
    (s : CourseTaskLog.table) (xargs : xmodule_instance_args) (err : exn) :
  (¬ ∃ k r, s !! k = Some r ∧ blocks course_id task_type task_key r) →
  _get_xmodule_instance_args prefix request = Ok xargs →
  task_class {| arg_entry_id := CourseTaskLog.next_id s;
                arg_course_id := course_id;
                arg_task_input := task_input;
                arg_xmodule_instance_args := xargs |} = Raise err →
  ∃ s',
    _submit_task prefix request task_type task_class course_id task_input task_key s
    = (Raise err, s')
    ∧ s' = <[CourseTaskLog.next_id s :=
               {| CourseTaskLog.course_id := course_id;
                  CourseTaskLog.task_type := task_type;
                  CourseTaskLog.task_key := task_key;
                  CourseTaskLog.task_input := Some (JObject task_input);
                  CourseTaskLog.task_state := "QUEUING";
                  CourseTaskLog.requester := HttpRequest.user request;
                  CourseTaskLog.task_id := None;
                  CourseTaskLog.task_output := None |}]> s
    ∧ ∃ r, s' !! CourseTaskLog.next_id s = Some r
           ∧ CourseTaskLog.task_state r = "QUEUING"
           ∧ CourseTaskLog.task_id r = None.
Proof.
  intros Hfree Hargs Hraise.
  destruct (_reserve_task_cases course_id task_type task_key task_input
              (HttpRequest.user request) s) as [[Hex _]|[_ Hres]]; [done|].
  eexists. split; [|split; [reflexivity|]].
  - unfold _submit_task, mbind, M_bind, lift. rewrite Hres. simpl.
    rewrite Hargs. simpl. by rewrite Hraise.
  - eexists. by rewrite lookup_insert_eq.
Qed.

(** ** Concurrent reservations *)

(** A caller that runs its two statements with nobody in between has made
    one call of [_reserve_task]. *)
Lemma run_alone_is_reserve_task (c : Concurrent.call) (s : CourseTaskLog.table) :
  Concurrent.run [0%nat; 0%nat] [Concurrent.start c] s
  = ([{| Concurrent.th_call := c;
         Concurrent.th_pc :=
           Concurrent.Finished
             (_reserve_task (Concurrent.course_id c) (Concurrent.task_type c)
                (Concurrent.task_key c) (Concurrent.task_input c)
                (Concurrent.requester c) s).1 |}],
     (_reserve_task (Concurrent.course_id c) (Concurrent.task_type c)
        (Concurrent.task_key c) (Concurrent.task_input c)
        (Concurrent.requester c) s).2).
Proof.
  destruct (_task_is_running_spec (Concurrent.course_id c) (Concurrent.task_type c)
              (Concurrent.task_key c) s) as (b & Hrun & _).
  unfold _reserve_task, mbind, M_bind. rewrite Hrun.
  change (Concurrent.run [0%nat; 0%nat] [Concurrent.start c] s)
    with (let '(t', s') := Concurrent.step_thread (Concurrent.start c) s in
          let '(t'', s'') := Concurrent.step_thread t' s' in
          ([t''], s'')).
  unfold Concurrent.step_thread at 1.
  change (Concurrent.th_pc (Concurrent.start c)) with Concurrent.Start.
  change (Concurrent.th_call (Concurrent.start c)) with c.
  cbv iota beta zeta. rewrite Hrun.
  destruct b; [done|].
  unfold Concurrent.step_thread, Concurrent.th_pc, Concurrent.th_call.
  by destruct (_reserve_task_create _ _ _ _ _ s).
Qed.

Lemma step_turned_away (course_id task_type task_key : string)
    (t : Concurrent.thread) (s : CourseTaskLog.table) :
  (∃ k r, s !! k = Some r ∧ blocks course_id task_type task_key r) →
  turned_away course_id task_type task_key t →
  ∃ t', Concurrent.step_thread t s = (t', s)
        ∧ turned_away course_id task_type task_key t'.
Proof.
  intros Hblocked [(Hc & Ht & Hk) Hpc].
  destruct (_task_is_running_spec course_id task_type task_key s)
    as (b & Hrun & Hb).
  apply Hb in Hblocked. subst b.
  unfold Concurrent.step_thread. destruct Hpc as [Hpc|Hpc]; rewrite Hpc.
  - rewrite Hc, Ht, Hk, Hrun. eexists. split; [reflexivity|].
    unfold turned_away, has_key. simpl. auto.
  - eexists. split; [reflexivity|].
    unfold turned_away, has_key. auto.
Qed.

Lemma run_turned_away (course_id task_type task_key : string)
    (schedule : list nat) (ts : list Concurrent.thread) (s : CourseTaskLog.table) :
  (∃ k r, s !! k = Some r ∧ blocks course_id task_type task_key r) →
  Forall (turned_away course_id task_type task_key) ts →
  ∃ ts', Concurrent.run schedule ts s = (ts', s)
         ∧ Forall (turned_away course_id task_type task_key) ts'.
Proof.
  intros Hblocked. revert ts.
  induction schedule as [|i schedule IH]; intros ts Hts; simpl.
  - by exists ts.
  - destruct (ts !! i) as [t|] eqn:Hi; [|by apply IH].
    destruct (step_turned_away course_id task_type task_key t s Hblocked)
      as (t' & -> & Ht').
    { by eapply Forall_lookup_1. }
    apply IH. by apply Forall_insert.
Qed.

Lemma serial_turned_away (course_id task_type task_key : string)
    (calls : list Concurrent.call) (s : CourseTaskLog.table) :
  (∃ k r, s !! k = Some r ∧ blocks course_id task_type task_key r) →
  Forall (has_key course_id task_type task_key) calls →
  Concurrent.serial calls s
  = (replicate (length calls)
       (Raise (AlreadyRunningError "requested task is already running")), s).
Proof.
  intros Hblocked. induction 1 as [|c calls (Hc & Ht & Hk) _ IH]; [done|].
  simpl.
  destruct (_reserve_task_cases (Concurrent.course_id c) (Concurrent.task_type c)
              (Concurrent.task_key c) (Concurrent.task_input c)
              (Concurrent.requester c) s) as [[_ ->]|[Hfree _]].
  - by rewrite IH.
  - destruct Hfree. by rewrite Hc, Ht, Hk.
Qed.

(** C2, as the code has it.  [_reserve_task] is a query followed by a
    separate insert.  Callers for a key whose blocking record is already in
    the table are all turned away with [AlreadyRunningError], under every
    interleaving of their statements, and nothing is inserted; and of
    callers that run one after the other from a table without such a
    record, the first reserves and all the others are turned away. *)
Theorem reservation_excludes_later_callers (course_id task_type task_key : string)
    (calls : list Concurrent.call) :
  Forall (has_key course_id task_type task_key) calls →
  (∀ schedule s,
     (∃ k r, s !! k = Some r ∧ blocks course_id task_type task_key r) →
     ∃ ts, Concurrent.run schedule (Concurrent.start <$> calls) s = (ts, s)
           ∧ Forall (λ t, Concurrent.returned t = false) ts
           ∧ Forall (λ t, Concurrent.th_pc t = Concurrent.Start
                          ∨ Concurrent.raised_already_running t = true) ts)
  ∧ (∀ c s,
       has_key course_id task_type task_key c →
       (¬ ∃ k r, s !! k = Some r ∧ blocks course_id task_type task_key r) →
       ∃ e,
         Concurrent.serial (c :: calls) s
         = (Ok e :: replicate (length calls)
                      (Raise (AlreadyRunningError "requested task is already running")),
            <[CourseTaskLog.id e := CourseTaskLog.row e]> s)
         ∧ s !! CourseTaskLog.id e = None
         ∧ CourseTaskLog.task_state (CourseTaskLog.row e) = "QUEUING").
Proof.
  intros Hcalls. split.
  - intros schedule s Hblocked.
    destruct (run_turned_away course_id task_type task_key schedule
                (Concurrent.start <$> calls) s Hblocked) as (ts & Hrun & Hts).
    { apply Forall_fmap. eapply Forall_impl; [exact Hcalls|].
      intros c Hc. split; [done|]. by left. }
    exists ts. split; [done|].
    split; (eapply Forall_impl; [exact Hts|]); intros t [_ [Hpc|Hpc]];
      unfold Concurrent.returned, Concurrent.raised_already_running;
      rewrite Hpc; auto.
  - intros c s (Hc & Ht & Hk) Hfree.
    destruct (_reserve_task_cases (Concurrent.course_id c) (Concurrent.task_type c)
                (Concurrent.task_key c) (Concurrent.task_input c)
                (Concurrent.requester c) s) as [[Hex _]|[_ Hres]].
    { destruct Hfree. by rewrite <- Hc, <- Ht, <- Hk. }
    eexists {| CourseTaskLog.id := CourseTaskLog.next_id s; CourseTaskLog.row := _ |}.
    simpl. rewrite Hres.
    rewrite (serial_turned_away course_id task_type task_key calls); [| |done].
    + split; [reflexivity|]. split; [apply next_id_fresh | done].
    + eexists _, _. split; [apply lookup_insert_eq|].
      unfold blocks. simpl. rewrite not_in_READY_STATES. done.
Qed.

(** * The claims on concrete inputs *)

(** ** Reservation and submission *)

(** Scenario C: a second reservation of a pending key is turned away, and
    once the first record is in a ready state the key can be reserved
    again. *)
Example reserve_while_pending :
  _reserve_task "edX/101" "rescore_problem" "_P1" bulk_input sample_user pending_table
  = (Raise (AlreadyRunningError "requested task is already running"), pending_table).
Proof. reflexivity. Qed.

Example reserve_after_success :
  let table : CourseTaskLog.table :=
    {[ 1%N := sample_row "_P1" bulk_input (Some "t1") "SUCCESS"
                (Some (JObject (sample_counters 5 5 5))) ]} in
  _reserve_task "edX/101" "rescore_problem" "_P1" bulk_input sample_user table
  = (Ok {| CourseTaskLog.id := 2;
           CourseTaskLog.row := sample_row "_P1" bulk_input None "QUEUING" None |},
     <[2%N := sample_row "_P1" bulk_input None "QUEUING" None]> table).
Proof. reflexivity. Qed.

Lemma dispatch_failure_leaves_queuing_witness :
  (¬ ∃ k r, (∅ : CourseTaskLog.table) !! k = Some r
            ∧ blocks "edX/101" "rescore_problem" "_P1" r)
  ∧ ∃ s',
      _submit_task sample_prefix sample_request "rescore_problem" failing_task_class
        "edX/101" bulk_input "_P1" ∅
      = (Raise (OtherError "OperationalError"), s')
      ∧ s' = {[ 1%N := sample_row "_P1" bulk_input None "QUEUING" None ]}.
Proof.
  assert (¬ ∃ k r, (∅ : CourseTaskLog.table) !! k = Some r
                   ∧ blocks "edX/101" "rescore_problem" "_P1" r) as Hfree.
  { intros (k & r & Hs & _). by rewrite lookup_empty in Hs. }
  split; [exact Hfree|].
  destruct (dispatch_failure_leaves_queuing sample_prefix sample_request
              "rescore_problem" failing_task_class "edX/101" bulk_input "_P1" ∅
              {| xqueue_callback_url_prefix := "https://lms";
                 xia_request_info :=
                   {| ri_username := "S7"; ri_ip := "127.0.0.1";
                      ri_agent := ""; ri_host := "lms" |} |}
              (OtherError "OperationalError") Hfree eq_refl eq_refl)
    as (s' & Hsubmit & Hs' & _).
  exists s'. split; [exact Hsubmit|]. rewrite Hs'. reflexivity.
Defined.

(** Two callers whose queries both run before either insert both reserve
    the key: the table ends with two [QUEUING] rows for it.  Run one after
    the other, the second caller is turned away. *)
Lemma interleaved_reservations_both_succeed :
  Concurrent.run [0; 1; 0; 1]%nat
    [Concurrent.start sample_call; Concurrent.start sample_call] ∅
  = ([ {| Concurrent.th_call := sample_call;
          Concurrent.th_pc :=
            Concurrent.Finished
              (Ok {| CourseTaskLog.id := 1;
                     CourseTaskLog.row :=
                       sample_row "_P1" bulk_input None "QUEUING" None |}) |};
       {| Concurrent.th_call := sample_call;
          Concurrent.th_pc :=
            Concurrent.Finished
              (Ok {| CourseTaskLog.id := 2;
                     CourseTaskLog.row :=
                       sample_row "_P1" bulk_input None "QUEUING" None |}) |} ],
     {[ 1%N := sample_row "_P1" bulk_input None "QUEUING" None;
        2%N := sample_row "_P1" bulk_input None "QUEUING" None ]})
  ∧ blocks "edX/101" "rescore_problem" "_P1"
      (sample_row "_P1" bulk_input None "QUEUING" None)
  ∧ (Concurrent.serial [sample_call; sample_call] ∅).1
    = [ Ok {| CourseTaskLog.id := 1;
              CourseTaskLog.row := sample_row "_P1" bulk_input None "QUEUING" None |};
        Raise (AlreadyRunningError "requested task is already running") ].
Proof.
  split; [vm_compute; reflexivity|]. split; [|vm_compute; reflexivity].
  unfold blocks. rewrite not_in_READY_STATES. done.
Qed.

Lemma reservation_excludes_later_callers_witness :
  Forall (has_key "edX/101" "rescore_problem" "_P1") [sample_call; sample_call]
  ∧ (∃ k r, pending_table !! k = Some r ∧ blocks "edX/101" "rescore_problem" "_P1" r)
  ∧ (∃ ts, Concurrent.run [0; 1; 0; 1]%nat
             (Concurrent.start <$> [sample_call; sample_call]) pending_table
           = (ts, pending_table)
           ∧ Forall (λ t, Concurrent.returned t = false) ts)
  ∧ ∃ e, (Concurrent.serial [sample_call; sample_call; sample_call] ∅).1
         = [Ok e; Raise (AlreadyRunningError "requested task is already running");
            Raise (AlreadyRunningError "requested task is already running")].
Proof.
  assert (Forall (has_key "edX/101" "rescore_problem" "_P1")
            [sample_call; sample_call]) as Hcalls.
  { repeat constructor. }
  assert (∃ k r, pending_table !! k = Some r
                 ∧ blocks "edX/101" "rescore_problem" "_P1" r) as Hblocked.
  { exists 1%N, pending_row. split; [reflexivity|].
    unfold blocks. rewrite not_in_READY_STATES. done. }
  assert (¬ ∃ k r, (∅ : CourseTaskLog.table) !! k = Some r
                   ∧ blocks "edX/101" "rescore_problem" "_P1" r) as Hfree.
  { intros (k & r & Hs & _). by rewrite lookup_empty in Hs. }
  destruct (reservation_excludes_later_callers "edX/101" "rescore_problem" "_P1"
              [sample_call; sample_call] Hcalls) as [Hrun Hserial].
  split; [exact Hcalls|]. split; [exact Hblocked|]. split.
  - destruct (Hrun [0; 1; 0; 1]%nat pending_table Hblocked) as (ts & Hts & Hret & _).
    by exists ts.
  - destruct (Hserial sample_call ∅ (conj eq_refl (conj eq_refl eq_refl)) Hfree)
      as (e & He & _).
    exists e. by rewrite He.
Defined.

(** ** Polling *)

(** The backend reports [SUCCESS] for a task whose row says [PENDING]: the
    poll answers [SUCCESS], and the row in the table still says [PENDING],
    without a payload. *)
Lemma poll_of_changed_state_is_not_saved :
  let backend := sample_backend "SUCCESS" (ODict (sample_counters 5 5 5)) in
  objects_get (by_task_id "t1") pending_table
  = (Ok (Some (sample_entry pending_row)), pending_table)
  ∧ in_ (CourseTaskLog.task_state pending_row) READY_STATES = false
  ∧ meta_state (backend "t1") ≠ CourseTaskLog.task_state pending_row
  ∧ _get_course_task_log_status backend "t1" pending_table
    = (Ok (Some
             {| Status.message :=
                  Some (PStr "Problem successfully rescored for 5 students");
                Status.task_progress := Some (ODict (sample_counters 5 5 5));
                Status.task_traceback := None;
                Status.task_id := Some (Some "t1");
                Status.task_state := Some "SUCCESS";
                Status.in_progress := Some false;
                Status.succeeded := Some true |}),
       pending_table)
  ∧ pending_table !! 1%N = Some pending_row
  ∧ CourseTaskLog.task_state pending_row = "PENDING"
  ∧ CourseTaskLog.task_output pending_row = None.
Proof. repeat split; try (vm_compute; reflexivity). discriminate. Qed.

(** Scenario D on the code: the message of a revoked task is "Task revoked
    before running", in the status and in the stored payload, and not "Job
    revoked before running". *)
Lemma revoked_message_names_the_task :
  let '(answer, table) :=
    _get_course_task_log_status (sample_backend "REVOKED" ONone) "t1" pending_table in
  answer
  = Ok (Some
          {| Status.message := Some (PStr "Task revoked before running");
             Status.task_progress :=
               Some (ODict {[ "message" := PStr "Task revoked before running" ]});
             Status.task_traceback := None;
             Status.task_id := Some (Some "t1");
             Status.task_state := Some "REVOKED";
             Status.in_progress := Some false;
             Status.succeeded := Some false |})
  ∧ table
    = {[ 1%N := sample_row "_P1" bulk_input (Some "t1") "REVOKED"
                  (Some (JObject {[ "message" := PStr "Task revoked before running" ]})) ]}
  ∧ PStr "Task revoked before running" ≠ PStr "Job revoked before running".
Proof. vm_compute. repeat split. discriminate. Qed.

(** Scenario D through [_submit_task]: the dispatch hands back a revoked
    result before the record was ever seen pending. *)
Example submit_revoked_then_status :
  let revoked_class : task_class :=
    λ _, Ok {| TaskResult.task_id := "t9"; TaskResult.state := "REVOKED";
               TaskResult.result := ONone; TaskResult.traceback := None |} in
  let '(_, table) :=
    _submit_task sample_prefix sample_request "rescore_problem" revoked_class
      "edX/101" bulk_input "_P1" ∅ in
  table = {[ 1%N := sample_row "_P1" bulk_input (Some "t9") "REVOKED"
                      (Some (JObject revoked_payload)) ]}
  ∧ (_get_course_task_log_status (sample_backend "PENDING" ONone) "t9" table).1
    = Ok (Some
            {| Status.message := Some (PStr "Task revoked before running");
               Status.task_progress := Some (ODict revoked_payload);
               Status.task_traceback := None;
               Status.task_id := Some (Some "t9");
               Status.task_state := Some "REVOKED";
               Status.in_progress := Some false;
               Status.succeeded := Some false |}).
Proof. vm_compute. split; reflexivity. Qed.

Lemma revoked_is_synthesized_and_persisted_witness :
  objects_get (by_task_id "t1") pending_table
  = (Ok (Some (sample_entry pending_row)), pending_table)
  ∧ in_ (CourseTaskLog.task_state pending_row) READY_STATES = false
  ∧ meta_state (sample_backend "REVOKED" ONone "t1") = "REVOKED"
  ∧ ∃ s' st,
      _get_course_task_log_status (sample_backend "REVOKED" ONone) "t1" pending_table
      = (Ok (Some st), s')
      ∧ _get_course_task_log_status
          (sample_backend "SUCCESS" (ODict (sample_counters 5 5 5))) "t1" s'
        = (Ok (Some st), s')
      ∧ Status.message st = Some (PStr "Task revoked before running").
Proof.
  assert (objects_get (by_task_id "t1") pending_table
          = (Ok (Some (sample_entry pending_row)), pending_table)) as Hget
    by (vm_compute; reflexivity).
  assert (in_ (CourseTaskLog.task_state (CourseTaskLog.row (sample_entry pending_row)))
              READY_STATES = false) as Hunready
    by (vm_compute; reflexivity).
  split; [exact Hget|]. split; [exact Hunready|]. split; [reflexivity|].
  destruct (revoked_is_synthesized_and_persisted
              (sample_backend "REVOKED" ONone)
              (sample_backend "SUCCESS" (ODict (sample_counters 5 5 5)))
              "t1" pending_table (sample_entry pending_row) Hget Hunready eq_refl)
    as (s' & r' & st & H1 & _ & _ & _ & H2 & _ & _ & Hmsg).
  by exists s', st.
Defined.

Lemma ready_records_are_frozen_witness :
  let row := sample_row "_P1" bulk_input (Some "t1") "SUCCESS"
               (Some (JObject (sample_counters 5 5 5))) in
  let table : CourseTaskLog.table := {[ 1%N := row ]} in
  in_ (CourseTaskLog.task_state row) READY_STATES = true
  ∧ objects_get (by_task_id "t1") table = (Ok (Some (sample_entry row)), table)
  ∧ _get_course_task_log_status (sample_backend "REVOKED" ONone) "t1" table
    = (Ok (Some
             {| Status.message :=
                  Some (PStr "Problem successfully rescored for 5 students");
                Status.task_progress := Some (ODict (sample_counters 5 5 5));
                Status.task_traceback := None;
                Status.task_id := Some (Some "t1");
                Status.task_state := Some "SUCCESS";
                Status.in_progress := Some false;
                Status.succeeded := Some true |}),
       table)
  ∧ perform_all
      [GetStatus (sample_backend "REVOKED" ONone) "t1";
       Submit sample_prefix sample_request "rescore_problem"
         (λ _, Ok {| TaskResult.task_id := "t2"; TaskResult.state := "PENDING";
                     TaskResult.result := ONone; TaskResult.traceback := None |})
         "edX/101" bulk_input "_P1";
       GetStatus (sample_backend "FAILURE" (OExc "ValueError" "boom")) "t2"]
      table !! 1%N
    = Some row.
Proof.
  intros row table.
  assert (in_ (CourseTaskLog.task_state (CourseTaskLog.row (sample_entry row)))
              READY_STATES = true) as Hready
    by (vm_compute; reflexivity).
  assert (objects_get (by_task_id "t1") table = (Ok (Some (sample_entry row)), table))
    as Hget by (vm_compute; reflexivity).
  destruct (ready_records_are_frozen (sample_entry row) Hready) as [Hstatus Hfrozen].
  split; [exact Hready|]. split; [exact Hget|]. split.
  - rewrite (Hstatus (sample_backend "REVOKED" ONone) "t1" table Hget).
    vm_compute. reflexivity.
  - apply (Hfrozen _ table). reflexivity.
Defined.

(** ** Completion messages *)

(** Scenario A: a bulk rescoring that updated all five students. *)
Example bulk_success_message :
  get_task_completion_message
    (sample_entry (sample_row "_P1" bulk_input (Some "t1") "SUCCESS"
                     (Some (JObject (sample_counters 5 5 5)))))
  = Ok (true, PStr "Problem successfully rescored for 5 students").
Proof. reflexivity. Qed.

(** Scenario B: a rescoring for S7 that updated nothing. *)
Example student_failure_message :
  get_task_completion_message
    (sample_entry (sample_row "7_P1" student_input (Some "t1") "SUCCESS"
                     (Some (JObject (sample_counters 1 0 1)))))
  = Ok (false, PStr "Problem failed to be rescored for student 'S7'").
Proof. reflexivity. Qed.

(** A student is named and [updated] is 1, which C6 words as a success; with
    [attempted] at 0 the code answers that no submission was found.  And
    the message of scenario B speaks of the student, not of a subject. *)
Lemma student_with_nothing_attempted_is_not_a_success :
  dict_get student_input "student" = PStr "S7"
  ∧ claimed_succeeded true 0 1 = true
  ∧ get_task_completion_message
      (sample_entry (sample_row "7_P1" student_input (Some "t1") "SUCCESS"
                       (Some (JObject (sample_counters 0 1 1)))))
    = Ok (false,
          PStr "Unable to find submission to be rescored for student 'S7' (out of 1)")
  ∧ get_task_completion_message
      (sample_entry (sample_row "7_P1" student_input (Some "t1") "SUCCESS"
                       (Some (JObject (sample_counters 1 0 1)))))
    ≠ Ok (false, PStr "Problem failed to be rescored for subject 'S7'").
Proof. repeat split; try (vm_compute; reflexivity). vm_compute. discriminate. Qed.

Lemma completion_message_cases_witness :
  let e := sample_entry (sample_row "7_P1" student_input (Some "t1") "SUCCESS"
                           (Some (JObject (sample_counters 3 2 4)))) in
  CourseTaskLog.task_state (CourseTaskLog.row e) = "SUCCESS"
  ∧ has_counters (sample_counters 3 2 4) (PStr "rescored") 3 2 4
  ∧ dict_get student_input "student" ≠ PNone
  ∧ get_task_completion_message e
    = Ok (true, PStr "Problem successfully rescored for student 'S7' (out of 4)").
Proof.
  intros e.
  assert (has_counters (sample_counters 3 2 4) (PStr "rescored") 3 2 4) as Hc.
  { repeat split; vm_compute; reflexivity. }
  assert (dict_get student_input "student" ≠ PNone) as Hnamed.
  { vm_compute. discriminate. }
  split; [reflexivity|]. split; [exact Hc|]. split; [exact Hnamed|].
  destruct (completion_message_cases e (sample_counters 3 2 4) student_input
              (PStr "rescored") 3 2 4 eq_refl eq_refl eq_refl Hc)
    as (_ & _ & Hsuccess & _).
  rewrite (Hsuccess Hnamed) by discriminate. vm_compute. reflexivity.
Defined.

Lemma missing_output_is_reported_witness :
  let row := sample_row "_P1" bulk_input (Some "t1") "SUCCESS" None in
  let table : CourseTaskLog.table := {[ 1%N := row ]} in
  in_ (CourseTaskLog.task_state row) READY_STATES = true
  ∧ CourseTaskLog.task_output row = None
  ∧ get_task_completion_message (sample_entry row)
    = Ok (false, PStr "No status information available")
  ∧ _get_course_task_log_status (sample_backend "SUCCESS" ONone) "t1" table
    = (Ok (Some
             {| Status.message := Some (PStr "No status information available");
                Status.task_progress := None;
                Status.task_traceback := None;
                Status.task_id := Some (Some "t1");
                Status.task_state := Some "SUCCESS";
                Status.in_progress := Some false;
                Status.succeeded := Some false |}),
       table).
Proof.
  intros row table.
  destruct (missing_output_is_reported (sample_entry row) eq_refl eq_refl)
    as [Hmessage Hstatus].
  split; [reflexivity|]. split; [reflexivity|]. split; [exact Hmessage|].
  apply (Hstatus (sample_backend "SUCCESS" ONone) "t1" table).
  vm_compute. reflexivity.
Defined.

Lemma completion_message_needs_updated_le_attempted_witness :
  let e := sample_entry (sample_row "_P1" bulk_input (Some "t1") "SUCCESS"
                           (Some (JObject (sample_counters 5 7 5)))) in
  has_counters (sample_counters 5 7 5) (PStr "rescored") 5 7 5
  ∧ dict_get bulk_input "student" = PNone
  ∧ get_task_completion_message e = Raise (UnboundLocalError "msg").
Proof.
  intros e.
  assert (has_counters (sample_counters 5 7 5) (PStr "rescored") 5 7 5) as Hc.
  { repeat split; vm_compute; reflexivity. }
  split; [exact Hc|]. split; [reflexivity|].
  destruct (completion_message_needs_updated_le_attempted e (sample_counters 5 7 5)
              bulk_input (PStr "rescored") 5 7 5 eq_refl eq_refl eq_refl Hc eq_refl)
    as [Hraise _].
  apply Hraise; lia.
Defined.

(** ** Key encoding *)

Example encode_for_student :
  _encode_problem_and_student_input "P1" (Some sample_user)
  = Ok (student_input, "7_P1").
Proof. reflexivity. Qed.

Example encode_for_all_students :
  _encode_problem_and_student_input "P1" None = Ok (bulk_input, "_P1").
Proof. reflexivity. Qed.

(** * Further properties *)

(** ** The queries *)

(** X1. [get_running_course_tasks] selects exactly the rows of the course
    whose state is not a ready state. *)
Theorem running_course_tasks_are_the_unfinished (course_id : string)
    (s : CourseTaskLog.table) (e : CourseTaskLog.t) :
  e ∈ CourseTaskLog.evaluate (get_running_course_tasks course_id) s
  ↔ s !! CourseTaskLog.id e = Some (CourseTaskLog.row e)
    ∧ CourseTaskLog.course_id (CourseTaskLog.row e) = course_id
    ∧ CourseTaskLog.task_state (CourseTaskLog.row e) ∉ READY_STATES.
Proof.
  rewrite elem_of_evaluate, not_in_READY_STATES.
  unfold get_running_course_tasks. simpl.
  unfold CourseTaskLog.exclude, CourseTaskLog.filter, CourseTaskLog.objects.
  rewrite !andb_true_iff, !negb_true_iff, !String.eqb_eq, !String.eqb_neq.
  tauto.
Qed.

Lemma encode_for_a_student (problem_url : string) (student : User.t) :
  _encode_problem_and_student_input problem_url (Some student)
  = Ok ({[ "problem_url" := PStr problem_url;
           "student" := PStr (User.username student) ]},
        pretty (User.id student) +:+ "_" +:+ problem_url).
Proof.
  rewrite <- (append_empty_r problem_url) at 3. reflexivity.
Qed.

Lemma encode_for_everyone (problem_url : string) :
  _encode_problem_and_student_input problem_url None
  = Ok ({[ "problem_url" := PStr problem_url ]}, "_" +:+ problem_url).
Proof.
  rewrite <- (append_empty_r problem_url) at 3. reflexivity.
Qed.

Lemma student_key_is_not_the_bulk_key (problem_url : string) (student : User.t) :
  pretty (User.id student) +:+ "_" +:+ problem_url ≠ "_" +:+ problem_url.
Proof.
  intros Heq. apply (f_equal String.length) in Heq.
  rewrite length_append in Heq.
  pose proof (pretty_Z_nonempty (User.id student)) as Hne.
  destruct (pretty (User.id student)); [done|]. simpl in Heq. lia.
Qed.

Lemma encode_returns (problem_url : string) (student : option User.t) :
  ∃ task_input task_key,
    _encode_problem_and_student_input problem_url student = Ok (task_input, task_key).
Proof.
  destruct student as [student|].
  - rewrite encode_for_a_student. by eexists _, _.
  - rewrite encode_for_everyone. by eexists _, _.
Qed.

(** The query of [get_course_task_history], for a key. *)
Lemma history_query (course_id task_key : string) (s : CourseTaskLog.table)
    (e : CourseTaskLog.t) :
  e ∈ CourseTaskLog.evaluate
        (CourseTaskLog.filter
           (λ r, String.eqb (CourseTaskLog.course_id r) course_id
                 && String.eqb (CourseTaskLog.task_key r) task_key)
           CourseTaskLog.objects) s
  ↔ s !! CourseTaskLog.id e = Some (CourseTaskLog.row e)
    ∧ CourseTaskLog.course_id (CourseTaskLog.row e) = course_id
    ∧ CourseTaskLog.task_key (CourseTaskLog.row e) = task_key.
Proof.
  rewrite elem_of_evaluate.
  unfold CourseTaskLog.filter, CourseTaskLog.objects.
  rewrite !andb_true_iff, !String.eqb_eq. tauto.
Qed.

Lemma get_course_task_history_unfold (course_id problem_url : string)
    (student : option User.t) (task_input : gmap string pyval) (task_key : string) :
  _encode_problem_and_student_input problem_url student = Ok (task_input, task_key) →
  get_course_task_history course_id problem_url student
  = Ok (λ s, order_by_minus_id
               (CourseTaskLog.evaluate
                  (CourseTaskLog.filter
                     (λ r, String.eqb (CourseTaskLog.course_id r) course_id
                           && String.eqb (CourseTaskLog.task_key r) task_key)
                     CourseTaskLog.objects) s)).
Proof. intros Henc. unfold get_course_task_history. by rewrite Henc. Qed.

Global Instance newer_first_transitive : Transitive newer_first.
Proof. unfold newer_first. intros a b c ??. lia. Qed.

Global Instance newer_first_total : Total newer_first.
Proof. unfold newer_first. intros a b. lia. Qed.

Lemma evaluate_NoDup (q : CourseTaskLog.queryset) (s : CourseTaskLog.table) :
  NoDup (CourseTaskLog.evaluate q s).
Proof.
  unfold CourseTaskLog.evaluate. apply NoDup_fmap_2.
  - intros [k1 r1] [k2 r2] [= -> ->]. done.
  - apply NoDup_filter, NoDup_map_to_list.
Qed.

(** Rows of one table that are sorted by [order_by('-id')] have strictly
    decreasing keys. *)
Lemma sorted_rows_decrease (l : list CourseTaskLog.t) :
  NoDup l →
  (∀ a b, a ∈ l → b ∈ l → CourseTaskLog.id a = CourseTaskLog.id b → a = b) →
  StronglySorted newer_first l →
  StronglySorted (λ a b, (CourseTaskLog.id b < CourseTaskLog.id a)%N) l.
Proof.
  intros Hnd Hkey Hsorted.
  induction Hsorted as [|a l Hsorted IH Hall]; [constructor|].
  apply NoDup_cons in Hnd as [Hnotin Hnd].
  constructor.
  - apply IH; [done|]. intros x y Hx Hy. apply Hkey; by right.
  - rewrite Forall_forall in Hall. apply Forall_forall. intros b Hb.
    specialize (Hall b Hb). unfold newer_first in Hall.
    destruct (decide (CourseTaskLog.id a = CourseTaskLog.id b)) as [Heq|Hne]; [|lia].
    destruct Hnotin. rewrite (Hkey a b); [done|by left|by right|done].
Qed.

Lemma order_by_minus_id_sorted (q : CourseTaskLog.queryset) (s : CourseTaskLog.table) :
  StronglySorted (λ a b, (CourseTaskLog.id b < CourseTaskLog.id a)%N)
    (order_by_minus_id (CourseTaskLog.evaluate q s)).
Proof.
  unfold order_by_minus_id. apply sorted_rows_decrease.
  - rewrite merge_sort_Permutation. apply evaluate_NoDup.
  - intros a b Ha Hb Hid.
    rewrite merge_sort_Permutation in Ha, Hb.
    apply elem_of_evaluate in Ha as [Ha _]. apply elem_of_evaluate in Hb as [Hb _].
    destruct a as [ka ra], b as [kb rb]; simpl in *. subst kb. congruence.
  - apply StronglySorted_merge_sort; apply _.
Qed.

(** X2. [get_course_task_history] returns the rows of the course that
    carry the key encoded from the problem and the student, whatever their
    task type and state, with strictly decreasing primary keys. *)
Theorem history_is_selected_and_ordered (course_id problem_url : string)
    (student : option User.t) :
  ∃ task_input task_key query,
    _encode_problem_and_student_input problem_url student = Ok (task_input, task_key)
    ∧ get_course_task_history course_id problem_url student = Ok query
    ∧ ∀ s,
        (∀ e, e ∈ query s
              ↔ s !! CourseTaskLog.id e = Some (CourseTaskLog.row e)
                ∧ CourseTaskLog.course_id (CourseTaskLog.row e) = course_id
                ∧ CourseTaskLog.task_key (CourseTaskLog.row e) = task_key)
        ∧ StronglySorted (λ a b, (CourseTaskLog.id b < CourseTaskLog.id a)%N) (query s).
Proof.
  destruct (encode_returns problem_url student) as (task_input & task_key & Henc).
  eexists task_input, task_key, _. split; [done|].
  split; [by apply get_course_task_history_unfold with task_input|].
  intros s. split.
  - intros e. unfold order_by_minus_id. rewrite merge_sort_Permutation.
    apply history_query.
  - apply order_by_minus_id_sorted.
Qed.

Lemma lt_next_id (s : CourseTaskLog.table) (k : N) (r : CourseTaskLog.fields) :
  s !! k = Some r → (k < CourseTaskLog.next_id s)%N.
Proof.
  intros Hs. apply elem_of_map_to_list in Hs.
  assert (k ∈ (map_to_list s).*1) as Hin.
  { apply list_elem_of_fmap. by exists (k, r). }
  apply le_foldr_max in Hin. unfold CourseTaskLog.next_id. lia.
Qed.

Lemma evaluate_insert_fresh (q : CourseTaskLog.queryset) (s : CourseTaskLog.table)
    (k : N) (r : CourseTaskLog.fields) :
  s !! k = None →
  q r = true →
  CourseTaskLog.evaluate q (<[k := r]> s)
  ≡ₚ {| CourseTaskLog.id := k; CourseTaskLog.row := r |} :: CourseTaskLog.evaluate q s.
Proof.
  intros Hs Hq. unfold CourseTaskLog.evaluate.
  rewrite map_to_list_insert by done.
  by rewrite filter_cons_True.
Qed.

(** X3. A task reserved under the key encoded from a problem and a student
    becomes the first row of their history, in front of the rows that were
    there. *)
Theorem reserved_task_heads_history (course_id task_type problem_url : string)
    (student : option User.t) (task_input : gmap string pyval) (task_key : string)
    (requester : User.t) (s s' : CourseTaskLog.table) (e : CourseTaskLog.t)
    (query : CourseTaskLog.table → list CourseTaskLog.t) :
  _encode_problem_and_student_input problem_url student = Ok (task_input, task_key) →
  _reserve_task course_id task_type task_key task_input requester s = (Ok e, s') →
  get_course_task_history course_id problem_url student = Ok query →
  query s' = e :: query s.
Proof.
  intros Henc Hres Hq.
  rewrite (get_course_task_history_unfold _ _ _ _ _ Henc) in Hq.
  injection Hq as <-.
  destruct (_reserve_task_cases course_id task_type task_key task_input requester s)
    as [[_ Hr]|[_ Hr]]; rewrite Hr in Hres; [done|].
  injection Hres as <- <-.
  set (q := CourseTaskLog.filter _ _).
  set (e := {| CourseTaskLog.id := CourseTaskLog.next_id s; CourseTaskLog.row := _ |}).
  apply (StronglySorted_unique_strong
           (λ a b, (CourseTaskLog.id b < CourseTaskLog.id a)%N)).
  - intros a b _ _ ??. lia.
  - apply order_by_minus_id_sorted.
  - constructor; [apply order_by_minus_id_sorted|].
    apply Forall_forall. intros b Hb.
    unfold order_by_minus_id in Hb. rewrite merge_sort_Permutation in Hb.
    apply elem_of_evaluate in Hb as [Hb _].
    by apply lt_next_id in Hb.
  - unfold order_by_minus_id. rewrite !merge_sort_Permutation.
    apply (evaluate_insert_fresh q s _ (CourseTaskLog.row e)); [apply next_id_fresh|].
    unfold q, CourseTaskLog.filter, CourseTaskLog.objects. simpl.
    by rewrite !String.eqb_refl.
Qed.

(** X4. For one problem, the history of a student and the history of the
    tasks on all students have no row in common. *)
Theorem student_and_bulk_histories_are_disjoint (course_id problem_url : string)
    (student : User.t) (s : CourseTaskLog.table)
    (for_student for_all : CourseTaskLog.table → list CourseTaskLog.t)
    (e : CourseTaskLog.t) :
  get_course_task_history course_id problem_url (Some student) = Ok for_student →
  get_course_task_history course_id problem_url None = Ok for_all →
  e ∈ for_student s →
  e ∉ for_all s.
Proof.
  rewrite (get_course_task_history_unfold _ _ _ _ _
             (encode_for_a_student problem_url student)).
  rewrite (get_course_task_history_unfold _ _ _ _ _
             (encode_for_everyone problem_url)).
  intros [= <-] [= <-]. unfold order_by_minus_id.
  rewrite !merge_sort_Permutation, !history_query.
  intros (_ & _ & Hkey) (_ & _ & Hkey').
  rewrite Hkey in Hkey'. by apply student_key_is_not_the_bulk_key in Hkey'.
Qed.

(** ** Polling *)

Lemma by_task_id_true (task_id : string) (r : CourseTaskLog.fields) :
  by_task_id task_id r = true ↔ CourseTaskLog.task_id r = Some task_id.
Proof.
  unfold by_task_id, CourseTaskLog.filter, CourseTaskLog.objects. simpl.
  apply bool_decide_eq_true.
Qed.

Lemma status_not_found (backend : string → task_meta) (task_id : string)
    (s : CourseTaskLog.table) (r : result (option CourseTaskLog.t)) :
  objects_get (by_task_id task_id) s = (r, s) →
  (∀ e, r ≠ Ok (Some e)) →
  _get_course_task_log_status backend task_id s
  = (match r with Ok _ => Ok None | Raise err => Raise err end, s).
Proof.
  intros Hget Hr. unfold _get_course_task_log_status, mbind, M_bind.
  rewrite Hget. destruct r as [[e|]|err]; [by destruct (Hr e)|done..].
Qed.

(** X5. A status query asked twice, with the result backend unchanged in
    between, gives the same answer the second time and writes nothing
    more. *)
Theorem status_query_is_idempotent (backend : string → task_meta)
    (task_id : string) (s : CourseTaskLog.table) :
  _get_course_task_log_status backend task_id
    (_get_course_task_log_status backend task_id s).2
  = _get_course_task_log_status backend task_id s.
Proof.
  destruct (objects_get (by_task_id task_id) s) as [r s0] eqn:Hget.
  pose proof (objects_get_table (by_task_id task_id) s) as Htab.
  rewrite Hget in Htab. simpl in Htab. subst s0.
  destruct r as [[e|]|err].
  - destruct (in_ (CourseTaskLog.task_state (CourseTaskLog.row e)) READY_STATES)
      eqn:He.
    + rewrite (status_of_ready backend task_id s e Hget He). cbn [snd].
      by rewrite (status_of_ready backend task_id s e Hget He).
    + destruct (decide (meta_state (backend task_id) = "REVOKED")) as [Hst|Hst].
      * rewrite (status_of_unready_revoked backend task_id s e Hget He Hst). simpl.
        rewrite (revoked_entry_row task_id e He). simpl.
        match goal with
        | |- context [<[_ := ?r]> s] =>
            assert (by_task_id task_id r = true) as Hq by (by apply by_task_id_true);
            pose proof (objects_get_saved (by_task_id task_id) s e r Hget Hq) as Hget'
        end.
        by rewrite (status_of_ready backend task_id _ _ Hget').
      * by rewrite (status_of_unready_table backend task_id s e Hget He Hst).
  - rewrite (status_not_found backend task_id s (Ok None) Hget) by done. cbn [snd].
    by rewrite (status_not_found backend task_id s (Ok None) Hget).
  - rewrite (status_not_found backend task_id s (Raise err) Hget) by done. cbn [snd].
    by rewrite (status_not_found backend task_id s (Raise err) Hget).
Qed.

Lemma progress_output_succeeded (returned_result : pyobj) (out : Status.t) :
  progress_output returned_result = Ok out → Status.succeeded out = None.
Proof.
  unfold progress_output, mbind, result_bind.
  destruct (contains returned_result "attempted") as [[|]|]; [| |done].
  - repeat match goal with
           | |- context [getitem ?o ?k] => destruct (getitem o k); [|done]
           | |- context [format ?t ?kw] => destruct (format t kw); [|done]
           end.
    by intros [= <-].
  - by intros [= <-].
Qed.

(** [_update_course_task_log] never sets the key [succeeded]. *)
Lemma _update_course_task_log_succeeded (e e' : CourseTaskLog.t) (tr : TaskResult.t)
    (s s' : CourseTaskLog.table) (out : Status.t) :
  _update_course_task_log e tr s = (Ok (e', out), s') →
  Status.succeeded out = None.
Proof.
  unfold _update_course_task_log, mbind, M_bind, mret, M_ret, lift, save.
  repeat case_decide;
    repeat match goal with
    | |- context [progress_output ?x] =>
        pose proof (progress_output_succeeded x) as Hprog;
        destruct (progress_output x); simpl
    | |- context [json_dumps (TaskResult.result tr)] =>
        destruct (json_dumps (TaskResult.result tr)); simpl
    | |- context [exc_message_of ?x] => destruct (exc_message_of x); simpl
    | |- context [TaskResult.traceback tr] => destruct (TaskResult.traceback tr); simpl
    end;
    simpl; try done; intros [= _ <- _]; simpl; try done; by apply Hprog.
Qed.

(** X6. Every status that a query returns names the task state and the
    task id; [in_progress] says whether that state is a ready state; and
    [succeeded] and [message] are both present when it is, while
    [succeeded] is absent when it is not. *)
Theorem returned_status_shape (backend : string → task_meta) (task_id : string)
    (s s' : CourseTaskLog.table) (st : Status.t) :
  _get_course_task_log_status backend task_id s = (Ok (Some st), s') →
  ∃ state,
    Status.task_state st = Some state
    ∧ is_Some (Status.task_id st)
    ∧ Status.in_progress st = Some (negb (in_ state READY_STATES))
    ∧ (is_Some (Status.succeeded st) ↔ in_ state READY_STATES = true)
    ∧ (in_ state READY_STATES = true → is_Some (Status.message st)).
Proof.
  unfold _get_course_task_log_status, mbind, M_bind, mret, M_ret, lift.
  destruct (objects_get (by_task_id task_id) s) as [[[e|]|err] s0]; [|done..].
  destruct (in_ (CourseTaskLog.task_state (CourseTaskLog.row e)) READY_STATES)
    eqn:Hready; simpl.
  - destruct (CourseTaskLog.task_output (CourseTaskLog.row e)); simpl;
      rewrite Hready;
      (destruct (get_task_completion_message e) as [[b m]|err]; [|done]);
      intros [= <- <-]; eexists; simpl; rewrite Hready;
      (split; [done|]); (split; [done|]); (split; [done|]);
      (split; [|done]); (split; [done|]); intros _; by eexists.
  - destruct (_update_course_task_log e (AsyncResult backend task_id) s0)
      as [[[e' out]|err] s1] eqn:Hupd; [|done].
    apply _update_course_task_log_succeeded in Hupd. simpl.
    destruct (in_ (CourseTaskLog.task_state (CourseTaskLog.row e')) READY_STATES)
      eqn:Hready'.
    + destruct (get_task_completion_message e') as [[b m]|err]; [|done].
      intros [= <- <-]. eexists. simpl. rewrite Hready'.
      split; [done|]. split; [done|]. split; [done|].
      split; [|done]. split; [done|]. intros _. by eexists.
    + intros [= <- <-]. eexists. simpl. rewrite Hready', Hupd.
      split; [done|]. split; [done|]. split; [done|].
      split; [|done]. split; [|done]. by intros [? ?].
Qed.

Lemma returned_status_shape_witness :
  let st :=
    {| Status.message := Some (PStr "Attempted 2 of 5, rescored 2");
       Status.task_progress := Some (ODict (sample_counters 2 2 5));
       Status.task_traceback := None;
       Status.task_id := Some (Some "t1");
       Status.task_state := Some "PROGRESS";
       Status.in_progress := Some true;
       Status.succeeded := None |} in
  _get_course_task_log_status
    (sample_backend "PROGRESS" (ODict (sample_counters 2 2 5))) "t1" pending_table
  = (Ok (Some st), pending_table)
  ∧ ∃ state,
      Status.task_state st = Some state
      ∧ is_Some (Status.task_id st)
      ∧ Status.in_progress st = Some (negb (in_ state READY_STATES))
      ∧ (is_Some (Status.succeeded st) ↔ in_ state READY_STATES = true)
      ∧ (in_ state READY_STATES = true → is_Some (Status.message st)).
Proof.
  intros st.
  assert (_get_course_task_log_status
            (sample_backend "PROGRESS" (ODict (sample_counters 2 2 5))) "t1"
            pending_table
          = (Ok (Some st), pending_table)) as Hpoll
    by (vm_compute; reflexivity).
  split; [exact Hpoll|].
  exact (returned_status_shape _ _ _ _ _ Hpoll).
Defined.

Lemma progress_output_counters (d : gmap string pyval) (a u t action : pyval) :
  d !! "attempted" = Some a →
  d !! "updated" = Some u →
  d !! "total" = Some t →
  d !! "action_name" = Some action →
  progress_output (ODict d)
  = Ok (Status.set_task_progress (ODict d)
          (Status.set_message
             (PStr ("Attempted " +:+ py_str a +:+ " of " +:+ py_str t +:+ ", "
                    +:+ py_str action +:+ " " +:+ py_str u))
             Status.empty)).
Proof.
  intros Ha Hu Ht Hact. unfold progress_output, contains, getitem, dict_getitem.
  rewrite Ha, Hu, Ht, Hact.
  rewrite bool_decide_eq_true_2 by (by eexists).
  rewrite <- (append_empty_r (py_str u)). reflexivity.
Qed.

Lemma progress_output_plain (d : gmap string pyval) :
  d !! "attempted" = None →
  progress_output (ODict d) = Ok (Status.set_task_progress (ODict d) Status.empty).
Proof.
  intros Ha. unfold progress_output, contains. rewrite Ha.
  rewrite bool_decide_eq_false_2 by (by intros [? ?]). reflexivity.
Qed.

(** The entry that [_update_course_task_log] leaves in memory for a state
    it observes. *)
Lemma observed_state_entry (task_id state : string) (e : CourseTaskLog.t) :
  CourseTaskLog.task_id (CourseTaskLog.row e) = Some task_id →
  let e' :=
    if decide (state ≠ CourseTaskLog.task_state (CourseTaskLog.row e))
    then CourseTaskLog.set_task_id (Some task_id)
           (CourseTaskLog.set_task_state state e)
    else e in
  CourseTaskLog.task_state (CourseTaskLog.row e') = state
  ∧ CourseTaskLog.task_id (CourseTaskLog.row e') = Some task_id.
Proof.
  intros Hid. simpl. case_decide as Hne; simpl; [done|].
  split; [|done]. by destruct (decide (state = CourseTaskLog.task_state (CourseTaskLog.row e))).
Qed.

(** X7. A poll of a record that is not in a ready state, answered
    [PROGRESS] with a dictionary, returns that dictionary as
    [task_progress] with [in_progress = True] and no [succeeded], and writes
    nothing.  The message "Attempted a of t, action u" is there when the
    dictionary has the key [attempted], and absent when it has not. *)
Theorem progress_poll_reports_counters (backend : string → task_meta)
    (task_id : string) (s : CourseTaskLog.table) (e : CourseTaskLog.t)
    (d : gmap string pyval) :
  objects_get (by_task_id task_id) s = (Ok (Some e), s) →
  in_ (CourseTaskLog.task_state (CourseTaskLog.row e)) READY_STATES = false →
  meta_state (backend task_id) = "PROGRESS" →
  meta_result (backend task_id) = ODict d →
  (∀ a u t action,
     d !! "attempted" = Some a → d !! "updated" = Some u →
     d !! "total" = Some t → d !! "action_name" = Some action →
     _get_course_task_log_status backend task_id s
     = (Ok (Some
              {| Status.message :=
                   Some (PStr ("Attempted " +:+ py_str a +:+ " of " +:+ py_str t
                               +:+ ", " +:+ py_str action +:+ " " +:+ py_str u));
                 Status.task_progress := Some (ODict d);
                 Status.task_traceback := None;
                 Status.task_id := Some (Some task_id);
                 Status.task_state := Some "PROGRESS";
                 Status.in_progress := Some true;
                 Status.succeeded := None |}), s))
  ∧ (d !! "attempted" = None →
     _get_course_task_log_status backend task_id s
     = (Ok (Some
              {| Status.message := None;
                 Status.task_progress := Some (ODict d);
                 Status.task_traceback := None;
                 Status.task_id := Some (Some task_id);
                 Status.task_state := Some "PROGRESS";
                 Status.in_progress := Some true;
                 Status.succeeded := None |}), s)).
Proof.
  intros Hget Hunready Hst Hres.
  pose proof (objects_get_Some _ _ _ _ Hget) as (_ & _ & Hid%by_task_id_true).
  destruct (observed_state_entry task_id "PROGRESS" e Hid) as [Hstate' Hid'].
  assert (∀ out, progress_output (ODict d) = Ok out →
            _get_course_task_log_status backend task_id s
            = (Ok (Some
                     (Status.set_in_progress true
                        (Status.set_task_state "PROGRESS"
                           (Status.set_task_id (Some task_id)
                              (Status.update out Status.empty))))), s)) as Hpoll.
  { intros out Hout.
    unfold _get_course_task_log_status, mbind, M_bind, mret, M_ret, lift.
    rewrite Hget. simpl. rewrite Hunready. simpl.
    unfold _update_course_task_log, mbind, M_bind, mret, M_ret, lift. simpl.
    rewrite Hst, Hres. simpl. rewrite Hout. simpl.
    by rewrite Hstate', Hid'. }
  split.
  - intros a u t action Ha Hu Ht Hact.
    by rewrite (Hpoll _ (progress_output_counters d a u t action Ha Hu Ht Hact)).
  - intros Ha. by rewrite (Hpoll _ (progress_output_plain d Ha)).
Qed.

Lemma progress_poll_reports_counters_witness :
  objects_get (by_task_id "t1") pending_table
  = (Ok (Some (sample_entry pending_row)), pending_table)
  ∧ _get_course_task_log_status
      (sample_backend "PROGRESS" (ODict (sample_counters 2 1 5))) "t1" pending_table
    = (Ok (Some
             {| Status.message := Some (PStr "Attempted 2 of 5, rescored 1");
                Status.task_progress := Some (ODict (sample_counters 2 1 5));
                Status.task_traceback := None;
                Status.task_id := Some (Some "t1");
                Status.task_state := Some "PROGRESS";
                Status.in_progress := Some true;
                Status.succeeded := None |}), pending_table).
Proof.
  assert (objects_get (by_task_id "t1") pending_table
          = (Ok (Some (sample_entry pending_row)), pending_table)) as Hget
    by (vm_compute; reflexivity).
  split; [exact Hget|].
  destruct (progress_poll_reports_counters
              (sample_backend "PROGRESS" (ODict (sample_counters 2 1 5))) "t1"
              pending_table (sample_entry pending_row) (sample_counters 2 1 5)
              Hget eq_refl eq_refl eq_refl) as [Hcounters _].
  apply (Hcounters (PInt 2) (PInt 1) (PInt 5) (PStr "rescored"));
    vm_compute; reflexivity.
Defined.

Lemma completion_message_of_stored_message (e : CourseTaskLog.t)
    (payload : gmap string pyval) (message : pyval) :
  CourseTaskLog.task_output (CourseTaskLog.row e) = Some (JObject payload) →
  in_ (CourseTaskLog.task_state (CourseTaskLog.row e)) ["FAILURE"; "REVOKED"] = true →
  payload !! "message" = Some message →
  get_task_completion_message e = Ok (false, message).
Proof.
  intros Hout Hstate Hmsg. unfold get_task_completion_message.
  rewrite Hout, Hstate. unfold json_loads, getitem, dict_getitem. by rewrite Hmsg.
Qed.

(** X8. A poll of a record that is not in a ready state, answered
    [FAILURE] with an exception, returns the exception's message,
    [succeeded = False] and [in_progress = False]; [task_progress] holds the
    name and the message of the exception, and the traceback when there is
    one.  The poll writes nothing. *)
Theorem failure_poll_reports_exception (backend : string → task_meta)
    (task_id : string) (s : CourseTaskLog.table) (e : CourseTaskLog.t)
    (exc_type message : string) :
  objects_get (by_task_id task_id) s = (Ok (Some e), s) →
  in_ (CourseTaskLog.task_state (CourseTaskLog.row e)) READY_STATES = false →
  meta_state (backend task_id) = "FAILURE" →
  meta_result (backend task_id) = OExc exc_type message →
  _get_course_task_log_status backend task_id s
  = (Ok (Some
           {| Status.message := Some (PStr message);
              Status.task_progress :=
                Some (ODict (failure_payload exc_type message
                               (meta_traceback (backend task_id))));
              Status.task_traceback := meta_traceback (backend task_id);
              Status.task_id := Some (Some task_id);
              Status.task_state := Some "FAILURE";
              Status.in_progress := Some false;
              Status.succeeded := Some false |}), s).
Proof.
  intros Hget Hunready Hst Hres.
  pose proof (objects_get_Some _ _ _ _ Hget) as (_ & _ & Hid%by_task_id_true).
  apply in_READY_STATES_false in Hunready as Hne. destruct Hne as (_ & Hne & _).
  unfold _get_course_task_log_status, mbind, M_bind, mret, M_ret, lift.
  rewrite Hget. simpl. rewrite Hunready. simpl.
  unfold _update_course_task_log, mbind, M_bind, mret, M_ret, lift. simpl.
  rewrite Hst, Hres. simpl.
  unfold failure_payload.
  destruct (meta_traceback (backend task_id)) as [tb|]; simpl;
    (case_decide as Hd; [|destruct Hd; congruence]); simpl;
    (erewrite completion_message_of_stored_message; [reflexivity..|]);
    reflexivity.
Qed.

Lemma failure_poll_reports_exception_witness :
  let backend : string → task_meta :=
    λ _, {| meta_state := "FAILURE"; meta_result := OExc "ValueError" "boom";
            meta_traceback := Some "Traceback: line 3" |} in
  objects_get (by_task_id "t1") pending_table
  = (Ok (Some (sample_entry pending_row)), pending_table)
  ∧ _get_course_task_log_status backend "t1" pending_table
    = (Ok (Some
             {| Status.message := Some (PStr "boom");
                Status.task_progress :=
                  Some (ODict {[ "exception" := PStr "ValueError";
                                 "message" := PStr "boom";
                                 "traceback" := PStr "Traceback: line 3" ]});
                Status.task_traceback := Some "Traceback: line 3";
                Status.task_id := Some (Some "t1");
                Status.task_state := Some "FAILURE";
                Status.in_progress := Some false;
                Status.succeeded := Some false |}), pending_table).
Proof.
  intros backend.
  assert (objects_get (by_task_id "t1") pending_table
          = (Ok (Some (sample_entry pending_row)), pending_table)) as Hget
    by (vm_compute; reflexivity).
  split; [exact Hget|].
  rewrite (failure_poll_reports_exception backend "t1" pending_table
             (sample_entry pending_row) "ValueError" "boom"
             Hget eq_refl eq_refl eq_refl).
  vm_compute. reflexivity.
Defined.

(** X9. When the backend answers [FAILURE] and the result is not an
    exception object, so that it has no [message], the poll of a record
    that is not in a ready state raises [AttributeError] and writes
    nothing. *)
Theorem failure_poll_without_message_raises (backend : string → task_meta)
    (task_id : string) (s : CourseTaskLog.table) (e : CourseTaskLog.t) :
  objects_get (by_task_id task_id) s = (Ok (Some e), s) →
  in_ (CourseTaskLog.task_state (CourseTaskLog.row e)) READY_STATES = false →
  meta_state (backend task_id) = "FAILURE" →
  (∀ exc_type message, meta_result (backend task_id) ≠ OExc exc_type message) →
  _get_course_task_log_status backend task_id s
  = (Raise (AttributeError "message"), s).
Proof.
  intros Hget Hunready Hst Hres.
  unfold _get_course_task_log_status, mbind, M_bind, mret, M_ret, lift.
  rewrite Hget. simpl. rewrite Hunready. simpl.
  unfold _update_course_task_log, mbind, M_bind, mret, M_ret, lift. simpl.
  rewrite Hst. simpl.
  destruct (meta_result (backend task_id)) as [|d|ty msg]; [done..|].
  by destruct (Hres ty msg).
Qed.

Lemma failure_poll_without_message_raises_witness :
  objects_get (by_task_id "t1") pending_table
  = (Ok (Some (sample_entry pending_row)), pending_table)
  ∧ _get_course_task_log_status (sample_backend "FAILURE" ONone) "t1" pending_table
    = (Raise (AttributeError "message"), pending_table).
Proof.
  assert (objects_get (by_task_id "t1") pending_table
          = (Ok (Some (sample_entry pending_row)), pending_table)) as Hget
    by (vm_compute; reflexivity).
  split; [exact Hget|].
  apply (failure_poll_without_message_raises (sample_backend "FAILURE" ONone) "t1"
           pending_table (sample_entry pending_row) Hget eq_refl eq_refl).
  intros exc_type message. discriminate.
Defined.

(** ** What a poll leaves in memory and what it reports *)

Lemma observed_entry_eq (task_id state : string) (output : option json)
    (e : CourseTaskLog.t) :
  CourseTaskLog.task_id (CourseTaskLog.row e) = Some task_id →
  (if decide (state ≠ CourseTaskLog.task_state (CourseTaskLog.row e))
   then CourseTaskLog.set_task_id (Some task_id)
          (CourseTaskLog.set_task_state state
             (CourseTaskLog.set_task_output output e))
   else CourseTaskLog.set_task_output output e)
  = observed_entry task_id state output e.
Proof.
  intros Hid. destruct e as [k r]. destruct r. simpl in *. subst.
  case_decide as Hne; [done|].
  unfold observed_entry, CourseTaskLog.set_task_output. simpl.
  do 2 f_equal.
  match goal with
  | |- ?x = state => by destruct (decide (state = x))
  end.
Qed.

Lemma observed_entry_kept (task_id state : string) (e : CourseTaskLog.t) :
  CourseTaskLog.task_id (CourseTaskLog.row e) = Some task_id →
  (if decide (state ≠ CourseTaskLog.task_state (CourseTaskLog.row e))
   then CourseTaskLog.set_task_id (Some task_id) (CourseTaskLog.set_task_state state e)
   else e)
  = observed_entry task_id state (CourseTaskLog.task_output (CourseTaskLog.row e)) e.
Proof.
  intros Hid. rewrite <- (observed_entry_eq task_id state _ e Hid).
  destruct e as [k r]. by destruct r.
Qed.

(** The output of the [PROGRESS] branch holds the result as
    [task_progress] and, at most, a message. *)
Lemma progress_output_shape (returned_result : pyobj) (out : Status.t) :
  progress_output returned_result = Ok out →
  out = {| Status.message := Status.message out;
           Status.task_progress := Some returned_result;
           Status.task_traceback := None;
           Status.task_id := None;
           Status.task_state := None;
           Status.in_progress := None;
           Status.succeeded := None |}.
Proof.
  unfold progress_output, mbind, result_bind.
  destruct (contains returned_result "attempted") as [[|]|]; [| |done].
  - repeat match goal with
           | |- context [getitem ?o ?k] => destruct (getitem o k); [|done]
           | |- context [format ?t ?kw] => destruct (format t kw); [|done]
           end.
    by intros [= <-].
  - by intros [= <-].
Qed.

(** For every answer but [REVOKED], [_update_course_task_log] writes
    nothing, and the entry it leaves in memory is the one it was given with
    the observed state, the task id and some output. *)
Lemma _update_course_task_log_observed (e e' : CourseTaskLog.t) (tr : TaskResult.t)
    (s s' : CourseTaskLog.table) (out : Status.t) :
  TaskResult.state tr ≠ "REVOKED" →
  CourseTaskLog.task_id (CourseTaskLog.row e) = Some (TaskResult.task_id tr) →
  _update_course_task_log e tr s = (Ok (e', out), s') →
  s' = s
  ∧ ∃ output, e' = observed_entry (TaskResult.task_id tr) (TaskResult.state tr) output e.
Proof.
  intros Hst Hid. destruct e as [k r]. destruct r. simpl in Hid. subst.
  unfold _update_course_task_log, mbind, M_bind, mret, M_ret, lift.
  repeat case_decide; try done;
    repeat match goal with
    | |- context [progress_output ?x] => destruct (progress_output x); simpl
    | |- context [json_dumps (TaskResult.result tr)] =>
        destruct (json_dumps (TaskResult.result tr)); simpl
    | |- context [exc_message_of ?x] => destruct (exc_message_of x); simpl
    | |- context [TaskResult.traceback tr] => destruct (TaskResult.traceback tr); simpl
    end;
    simpl in *; try done; try case_decide;
    intros [= <- _ <-]; (split; [done|]); eexists; unfold observed_entry; simpl;
    try reflexivity;
    match goal with
    | H : TaskResult.state tr = _ |- _ = _ => by rewrite H
    end.
Qed.

(** C3, as the code has it.  A poll of a record that is not in a ready
    state writes the record back exactly when the backend answers
    [REVOKED]: the row then holds the state [REVOKED], the task id and the
    synthesized payload.  For every other answer, changed or not, nothing
    is written: the table and the stored row are as they were, the entry in
    memory holds the observed state and the task id, and the status that is
    returned carries that state and that task id.  What is reported and set
    in memory besides depends on the answer.  [PROGRESS], when the progress
    message can be built: the result is reported as [task_progress], the
    output of the entry is left alone.  [SUCCESS] with a result that can be
    serialized: the serialized result is set as the output of the entry in
    memory, and the result is reported as [task_progress].  [FAILURE] with
    an exception: the serialized payload of exception, message and
    traceback is set as the output of the entry in memory and reported as
    [task_progress], with the message and the traceback.  Any other state:
    the output of the entry is left alone and the status names the task id,
    the state and [in_progress] only. *)
Theorem poll_saves_only_on_revoked (backend : string → task_meta)
    (task_id : string) (s : CourseTaskLog.table) (e : CourseTaskLog.t) :
  objects_get (by_task_id task_id) s = (Ok (Some e), s) →
  in_ (CourseTaskLog.task_state (CourseTaskLog.row e)) READY_STATES = false →
  let state := meta_state (backend task_id) in
  let result := meta_result (backend task_id) in
  let traceback := meta_traceback (backend task_id) in
  let observed := AsyncResult backend task_id in
  let kept := CourseTaskLog.task_output (CourseTaskLog.row e) in
  (state = "REVOKED" →
   (_get_course_task_log_status backend task_id s).2
   = <[CourseTaskLog.id e :=
         {| CourseTaskLog.task_type := CourseTaskLog.task_type (CourseTaskLog.row e);
            CourseTaskLog.course_id := CourseTaskLog.course_id (CourseTaskLog.row e);
            CourseTaskLog.task_key := CourseTaskLog.task_key (CourseTaskLog.row e);
            CourseTaskLog.task_input := CourseTaskLog.task_input (CourseTaskLog.row e);
            CourseTaskLog.task_id := Some task_id;
            CourseTaskLog.task_state := "REVOKED";
            CourseTaskLog.task_output := Some (JObject revoked_payload);
            CourseTaskLog.requester := CourseTaskLog.requester (CourseTaskLog.row e) |}]> s)
  ∧ (state ≠ "REVOKED" →
     (_get_course_task_log_status backend task_id s).2 = s
     ∧ (_get_course_task_log_status backend task_id s).2 !! CourseTaskLog.id e
       = Some (CourseTaskLog.row e)
     ∧ (_update_course_task_log e observed s).2 = s
     ∧ (∀ e' out,
          (_update_course_task_log e observed s).1 = Ok (e', out) →
          CourseTaskLog.id e' = CourseTaskLog.id e
          ∧ CourseTaskLog.task_state (CourseTaskLog.row e') = state
          ∧ CourseTaskLog.task_id (CourseTaskLog.row e') = Some task_id)
     ∧ ∀ st, (_get_course_task_log_status backend task_id s).1 = Ok (Some st) →
             Status.task_state st = Some state
             ∧ Status.task_id st = Some (Some task_id)
             ∧ Status.in_progress st = Some (negb (in_ state READY_STATES)))
  ∧ (state = "PROGRESS" →
     ∀ out, progress_output result = Ok out →
       Status.task_progress out = Some result
       ∧ _update_course_task_log e observed s
         = (Ok (observed_entry task_id "PROGRESS" kept e, out), s)
       ∧ _get_course_task_log_status backend task_id s
         = (Ok (Some
                  {| Status.message := Status.message out;
                     Status.task_progress := Some result;
                     Status.task_traceback := None;
                     Status.task_id := Some (Some task_id);
                     Status.task_state := Some "PROGRESS";
                     Status.in_progress := Some true;
                     Status.succeeded := None |}), s))
  ∧ (state = "SUCCESS" →
     ∀ text, json_dumps result = Ok text →
       _update_course_task_log e observed s
       = (Ok (observed_entry task_id "SUCCESS" (Some text) e,
              Status.set_task_progress result Status.empty), s)
       ∧ _get_course_task_log_status backend task_id s
         = (match get_task_completion_message
                    (observed_entry task_id "SUCCESS" (Some text) e) with
            | Ok (succeeded, message) =>
                Ok (Some
                      {| Status.message := Some message;
                         Status.task_progress := Some result;
                         Status.task_traceback := None;
                         Status.task_id := Some (Some task_id);
                         Status.task_state := Some "SUCCESS";
                         Status.in_progress := Some false;
                         Status.succeeded := Some succeeded |})
            | Raise err => Raise err
            end, s))
  ∧ (state = "FAILURE" →
     ∀ exc_type message, result = OExc exc_type message →
       _update_course_task_log e observed s
       = (Ok (observed_entry task_id "FAILURE"
                (Some (JObject (failure_payload exc_type message traceback))) e,
              {| Status.message := Some (PStr message);
                 Status.task_progress :=
                   Some (ODict (failure_payload exc_type message traceback));
                 Status.task_traceback := traceback;
                 Status.task_id := None;
                 Status.task_state := None;
                 Status.in_progress := None;
                 Status.succeeded := None |}), s)
       ∧ _get_course_task_log_status backend task_id s
         = (Ok (Some
                  {| Status.message := Some (PStr message);
                     Status.task_progress :=
                       Some (ODict (failure_payload exc_type message traceback));
                     Status.task_traceback := traceback;
                     Status.task_id := Some (Some task_id);
                     Status.task_state := Some "FAILURE";
                     Status.in_progress := Some false;
                     Status.succeeded := Some false |}), s))
  ∧ (state ∉ ["PROGRESS"; "SUCCESS"; "FAILURE"; "REVOKED"] →
     _update_course_task_log e observed s
     = (Ok (observed_entry task_id state kept e, Status.empty), s)
     ∧ _get_course_task_log_status backend task_id s
       = (Ok (Some
                {| Status.message := None;
                   Status.task_progress := None;
                   Status.task_traceback := None;
                   Status.task_id := Some (Some task_id);
                   Status.task_state := Some state;
                   Status.in_progress := Some true;
                   Status.succeeded := None |}), s)).
Proof.
  intros Hget Hunready state result traceback observed kept.
  pose proof (objects_get_Some _ _ _ _ Hget) as (_ & Hrow & Hid%by_task_id_true).
  assert (∀ r s',
            _update_course_task_log e observed s = (r, s') →
            _get_course_task_log_status backend task_id s
            = (match r with
               | Ok (e', out) =>
                   let st :=
                     Status.set_in_progress
                       (negb (in_ (CourseTaskLog.task_state (CourseTaskLog.row e'))
                                  READY_STATES))
                       (Status.set_task_state
                          (CourseTaskLog.task_state (CourseTaskLog.row e'))
                          (Status.set_task_id
                             (CourseTaskLog.task_id (CourseTaskLog.row e'))
                             (Status.update out Status.empty))) in
                   if in_ (CourseTaskLog.task_state (CourseTaskLog.row e')) READY_STATES
                   then match get_task_completion_message e' with
                        | Ok (succeeded, message) =>
                            Ok (Some (Status.set_succeeded succeeded
                                        (Status.set_message message st)))
                        | Raise err => Raise err
                        end
                   else Ok (Some st)
               | Raise err => Raise err
               end, s')) as Hpoll.
  { intros r s' Hupd.
    unfold _get_course_task_log_status, mbind, M_bind, mret, M_ret, lift.
    rewrite Hget. simpl. rewrite Hunready. simpl. fold observed. rewrite Hupd.
    destruct r as [[e' out]|err]; [|done]. simpl.
    destruct (in_ (CourseTaskLog.task_state (CourseTaskLog.row e')) READY_STATES);
      [|done].
    by destruct (get_task_completion_message e') as [[b m]|err]. }
  split; [|split; [|split; [|split; [|split]]]].
  - intros Hst.
    rewrite (status_of_unready_revoked backend task_id s e Hget Hunready Hst).
    simpl. by rewrite (revoked_entry_row task_id e Hunready).
  - intros Hst.
    pose proof (status_of_unready_table backend task_id s e Hget Hunready Hst) as Htab.
    destruct (_update_course_task_log e observed s) as [r s'] eqn:Hupd.
    assert (∀ e' out, r = Ok (e', out) →
              s' = s ∧ ∃ output, e' = observed_entry task_id state output e) as Hobs.
    { intros e' out ->.
      by apply (_update_course_task_log_observed e e' observed s s' out Hst Hid). }
    split; [done|]. split; [by rewrite Htab|]. split.
    { simpl. destruct (_update_course_task_log_not_revoked e observed s Hst)
        as (r' & Hr' & _).
      rewrite Hupd in Hr'. by simplify_eq. }
    split.
    { simpl. intros e' out ->. by destruct (Hobs e' out eq_refl) as (_ & output & ->). }
    intros st. rewrite (Hpoll r s' eq_refl). simpl.
    destruct r as [[e' out]|err]; [|done].
    destruct (Hobs e' out eq_refl) as (_ & output & ->). simpl.
    destruct (in_ state READY_STATES).
    + destruct (get_task_completion_message _) as [[b m]|err]; [|done].
      by intros [= <-].
    + by intros [= <-].
  - intros Hst out Hout.
    pose proof (progress_output_shape result out Hout) as Hshape.
    assert (_update_course_task_log e observed s
            = (Ok (observed_entry task_id "PROGRESS" kept e, out), s)) as Hupd.
    { unfold _update_course_task_log, mbind, M_bind, mret, M_ret, lift. simpl.
      fold state result. rewrite Hst, Hout. simpl.
      by rewrite (observed_entry_kept task_id "PROGRESS" e Hid). }
    split; [by rewrite Hshape|]. split; [done|].
    rewrite (Hpoll _ _ Hupd). simpl. rewrite Hshape. simpl.
    by destruct (Status.message out).
  - intros Hst text Htext.
    assert (_update_course_task_log e observed s
            = (Ok (observed_entry task_id "SUCCESS" (Some text) e,
                   Status.set_task_progress result Status.empty), s)) as Hupd.
    { unfold _update_course_task_log, mbind, M_bind, mret, M_ret, lift. simpl.
      fold state result. rewrite Hst, Htext. simpl.
      by rewrite (observed_entry_eq task_id "SUCCESS" (Some text) e Hid). }
    split; [done|].
    rewrite (Hpoll _ _ Hupd). simpl.
    by destruct (get_task_completion_message _) as [[b m]|err].
  - intros Hst exc_type message Hres.
    assert (_update_course_task_log e observed s
            = (Ok (observed_entry task_id "FAILURE"
                     (Some (JObject (failure_payload exc_type message traceback))) e,
                   {| Status.message := Some (PStr message);
                      Status.task_progress :=
                        Some (ODict (failure_payload exc_type message traceback));
                      Status.task_traceback := traceback;
                      Status.task_id := None;
                      Status.task_state := None;
                      Status.in_progress := None;
                      Status.succeeded := None |}), s)) as Hupd.
    { unfold _update_course_task_log, mbind, M_bind, mret, M_ret, lift. simpl.
      fold state result traceback. rewrite Hst, Hres. simpl.
      unfold failure_payload.
      destruct traceback as [tb|]; simpl;
        by rewrite (observed_entry_eq task_id "FAILURE" _ e Hid). }
    split; [done|].
    rewrite (Hpoll _ _ Hupd). simpl.
    rewrite (completion_message_of_stored_message _
               (failure_payload exc_type message traceback) (PStr message));
      [by destruct traceback|done|done|].
    unfold failure_payload. by destruct traceback.
  - intros Hst.
    repeat (apply not_elem_of_cons in Hst as [? Hst]).
    assert (_update_course_task_log e observed s
            = (Ok (observed_entry task_id state kept e, Status.empty), s)) as Hupd.
    { unfold _update_course_task_log, mbind, M_bind, mret, M_ret, lift. simpl.
      fold state.
      rewrite (decide_False (P := state = "PROGRESS")) by done.
      rewrite (decide_False (P := state = "SUCCESS")) by done.
      rewrite (decide_False (P := state = "FAILURE")) by done.
      rewrite (decide_False (P := state = "REVOKED")) by done. simpl.
      by rewrite (observed_entry_kept task_id state e Hid). }
    split; [done|].
    rewrite (Hpoll _ _ Hupd). simpl.
    by rewrite (proj2 (in_READY_STATES_false state)).
Qed.

Lemma poll_saves_only_on_revoked_witness :
  let failed : string → task_meta :=
    λ _, {| meta_state := "FAILURE"; meta_result := OExc "ValueError" "boom";
            meta_traceback := Some "Traceback: line 3" |} in
  let failure : gmap string pyval :=
    {[ "exception" := PStr "ValueError"; "message" := PStr "boom";
       "traceback" := PStr "Traceback: line 3" ]} in
  let e := sample_entry pending_row in
  let seen state output :=
    sample_entry (sample_row "_P1" bulk_input (Some "t1") state output) in
  objects_get (by_task_id "t1") pending_table = (Ok (Some e), pending_table)
  ∧ in_ (CourseTaskLog.task_state pending_row) READY_STATES = false
  ∧ (_get_course_task_log_status (sample_backend "REVOKED" ONone) "t1" pending_table).2
    = {[ 1%N := sample_row "_P1" bulk_input (Some "t1") "REVOKED"
                  (Some (JObject revoked_payload)) ]}
  ∧ (_update_course_task_log e
       (AsyncResult (sample_backend "PROGRESS" (ODict (sample_counters 2 2 5))) "t1")
       pending_table
     = (Ok (seen "PROGRESS" None,
            {| Status.message := Some (PStr "Attempted 2 of 5, rescored 2");
               Status.task_progress := Some (ODict (sample_counters 2 2 5));
               Status.task_traceback := None;
               Status.task_id := None;
               Status.task_state := None;
               Status.in_progress := None;
               Status.succeeded := None |}), pending_table)
     ∧ _get_course_task_log_status
         (sample_backend "PROGRESS" (ODict (sample_counters 2 2 5))) "t1" pending_table
       = (Ok (Some
                {| Status.message := Some (PStr "Attempted 2 of 5, rescored 2");
                   Status.task_progress := Some (ODict (sample_counters 2 2 5));
                   Status.task_traceback := None;
                   Status.task_id := Some (Some "t1");
                   Status.task_state := Some "PROGRESS";
                   Status.in_progress := Some true;
                   Status.succeeded := None |}), pending_table))
  ∧ (_update_course_task_log e
       (AsyncResult (sample_backend "SUCCESS" (ODict (sample_counters 5 5 5))) "t1")
       pending_table
     = (Ok (seen "SUCCESS" (Some (JObject (sample_counters 5 5 5))),
            {| Status.message := None;
               Status.task_progress := Some (ODict (sample_counters 5 5 5));
               Status.task_traceback := None;
               Status.task_id := None;
               Status.task_state := None;
               Status.in_progress := None;
               Status.succeeded := None |}), pending_table)
     ∧ _get_course_task_log_status
         (sample_backend "SUCCESS" (ODict (sample_counters 5 5 5))) "t1" pending_table
       = (Ok (Some
                {| Status.message :=
                     Some (PStr "Problem successfully rescored for 5 students");
                   Status.task_progress := Some (ODict (sample_counters 5 5 5));
                   Status.task_traceback := None;
                   Status.task_id := Some (Some "t1");
                   Status.task_state := Some "SUCCESS";
                   Status.in_progress := Some false;
                   Status.succeeded := Some true |}), pending_table))
  ∧ (_update_course_task_log e (AsyncResult failed "t1") pending_table
     = (Ok (seen "FAILURE" (Some (JObject failure)),
            {| Status.message := Some (PStr "boom");
               Status.task_progress := Some (ODict failure);
               Status.task_traceback := Some "Traceback: line 3";
               Status.task_id := None;
               Status.task_state := None;
               Status.in_progress := None;
               Status.succeeded := None |}), pending_table)
     ∧ _get_course_task_log_status failed "t1" pending_table
       = (Ok (Some
                {| Status.message := Some (PStr "boom");
                   Status.task_progress := Some (ODict failure);
                   Status.task_traceback := Some "Traceback: line 3";
                   Status.task_id := Some (Some "t1");
                   Status.task_state := Some "FAILURE";
                   Status.in_progress := Some false;
                   Status.succeeded := Some false |}), pending_table))
  ∧ (_update_course_task_log e (AsyncResult (sample_backend "STARTED" ONone) "t1")
       pending_table
     = (Ok (seen "STARTED" None, Status.empty), pending_table)
     ∧ _get_course_task_log_status (sample_backend "STARTED" ONone) "t1" pending_table
       = (Ok (Some
                {| Status.message := None;
                   Status.task_progress := None;
                   Status.task_traceback := None;
                   Status.task_id := Some (Some "t1");
                   Status.task_state := Some "STARTED";
                   Status.in_progress := Some true;
                   Status.succeeded := None |}), pending_table))
  ∧ pending_table !! 1%N = Some pending_row.
Proof.
  intros failed failure e seen.
  assert (objects_get (by_task_id "t1") pending_table
          = (Ok (Some e), pending_table)) as Hget
    by (vm_compute; reflexivity).
  assert (in_ (CourseTaskLog.task_state (CourseTaskLog.row e)) READY_STATES = false)
    as Hunready
    by (vm_compute; reflexivity).
  split; [exact Hget|]. split; [exact Hunready|].
  split; [|split; [|split; [|split; [|split]]]].
  - destruct (poll_saves_only_on_revoked (sample_backend "REVOKED" ONone) "t1"
                pending_table e Hget Hunready) as [Hrev _].
    rewrite (Hrev eq_refl). vm_compute. reflexivity.
  - destruct (poll_saves_only_on_revoked
                (sample_backend "PROGRESS" (ODict (sample_counters 2 2 5))) "t1"
                pending_table e Hget Hunready) as (_ & _ & Hprogress & _).
    destruct (Hprogress eq_refl
                {| Status.message := Some (PStr "Attempted 2 of 5, rescored 2");
                   Status.task_progress := Some (ODict (sample_counters 2 2 5));
                   Status.task_traceback := None;
                   Status.task_id := None;
                   Status.task_state := None;
                   Status.in_progress := None;
                   Status.succeeded := None |})
      as (_ & Hentry & Hpoll); [vm_compute; reflexivity|].
    split; [rewrite Hentry|rewrite Hpoll]; vm_compute; reflexivity.
  - destruct (poll_saves_only_on_revoked
                (sample_backend "SUCCESS" (ODict (sample_counters 5 5 5))) "t1"
                pending_table e Hget Hunready) as (_ & _ & _ & Hsuccess & _).
    destruct (Hsuccess eq_refl (JObject (sample_counters 5 5 5)) eq_refl)
      as (Hentry & Hpoll).
    split; [rewrite Hentry|rewrite Hpoll]; vm_compute; reflexivity.
  - destruct (poll_saves_only_on_revoked failed "t1" pending_table e Hget Hunready)
      as (_ & _ & _ & _ & Hfailure & _).
    destruct (Hfailure eq_refl "ValueError" "boom" eq_refl) as (Hentry & Hpoll).
    split; [rewrite Hentry|rewrite Hpoll]; vm_compute; reflexivity.
  - destruct (poll_saves_only_on_revoked (sample_backend "STARTED" ONone) "t1"
                pending_table e Hget Hunready) as (_ & _ & _ & _ & _ & Hother).
    destruct Hother as (Hentry & Hpoll).
    { rewrite !not_elem_of_cons. repeat (split; [discriminate|]).
      by intros ?%elem_of_nil. }
    split; [rewrite Hentry|rewrite Hpoll]; vm_compute; reflexivity.
  - destruct (poll_saves_only_on_revoked
                (sample_backend "SUCCESS" (ODict (sample_counters 5 5 5))) "t1"
                pending_table e Hget Hunready) as (_ & Hother & _).
    destruct Hother as (Htable & Hstored & _); [discriminate|].
    rewrite Htable in Hstored. exact Hstored.
Defined.

(** ** Completion messages *)

Lemma completion_template_true (student a u : pyval) (msg : option string) :
  completion_template student a u false = (true, msg) →
  py_eq a (PInt 0) = false ∧ py_eq u (PInt 0) = false
  ∧ (student = PNone → py_eq u a = true).
Proof.
  unfold completion_template.
  destruct (is_not_None student) eqn:Hs;
    destruct (py_eq a (PInt 0)); try done;
    destruct (py_eq u (PInt 0)); try done.
  - intros _. split; [done|]. split; [done|]. by intros ->.
  - destruct (py_eq u a); [done|]. by destruct (py_lt u a).
Qed.

(** X10. [get_task_completion_message] reports a success only for a
    record that is neither [FAILURE] nor [REVOKED] and whose stored output
    has [attempted] and [updated] both different from 0; when the input
    names no student, [updated] moreover equals [attempted]. *)
Theorem success_needs_attempted_and_updated (e : CourseTaskLog.t) (message : pyval) :
  get_task_completion_message e = Ok (true, message) →
  in_ (CourseTaskLog.task_state (CourseTaskLog.row e)) ["FAILURE"; "REVOKED"] = false
  ∧ ∃ out inp a u,
      CourseTaskLog.task_output (CourseTaskLog.row e) = Some (JObject out)
      ∧ CourseTaskLog.task_input (CourseTaskLog.row e) = Some (JObject inp)
      ∧ out !! "attempted" = Some a
      ∧ out !! "updated" = Some u
      ∧ py_eq a (PInt 0) = false
      ∧ py_eq u (PInt 0) = false
      ∧ (dict_get inp "student" = PNone → py_eq u a = true).
Proof.
  unfold get_task_completion_message.
  destruct (CourseTaskLog.task_output (CourseTaskLog.row e)) as [text|]; [|done].
  destruct (in_ (CourseTaskLog.task_state (CourseTaskLog.row e)) ["FAILURE"; "REVOKED"]).
  { by destruct (getitem (json_loads text) "message"). }
  destruct text as [|out]; [done|].
  unfold json_loads, getitem, dict_getitem, mbind, result_bind.
  destruct (out !! "action_name") as [action|]; [|done].
  destruct (out !! "attempted") as [a|] eqn:Ha; [|done].
  destruct (out !! "updated") as [u|] eqn:Hu; [|done].
  destruct (out !! "total") as [t|]; [|done].
  destruct (CourseTaskLog.task_input (CourseTaskLog.row e)) as [[|inp]|]; [done| |done].
  unfold get.
  destruct (completion_template (dict_get inp "student") a u false) as [b msg] eqn:Htpl.
  intros Hres.
  assert (b = true) as ->.
  { destruct (is_not_None (dict_get inp "student") && negb (py_eq a t));
      destruct msg as [m|]; try done; simpl in Hres;
      match type of Hres with
      | context [format ?x ?y] => destruct (format x y); [|done]
      end; by injection Hres. }
  apply completion_template_true in Htpl as (Ha0 & Hu0 & Hua).
  split; [done|]. by exists out, inp, a, u.
Qed.

Lemma success_needs_attempted_and_updated_witness :
  let e := sample_entry (sample_row "_P1" bulk_input (Some "t1") "SUCCESS"
                           (Some (JObject (sample_counters 5 5 5)))) in
  get_task_completion_message e
  = Ok (true, PStr "Problem successfully rescored for 5 students")
  ∧ in_ (CourseTaskLog.task_state (CourseTaskLog.row e)) ["FAILURE"; "REVOKED"] = false.
Proof.
  intros e.
  assert (get_task_completion_message e
          = Ok (true, PStr "Problem successfully rescored for 5 students")) as Hmsg
    by (vm_compute; reflexivity).
  split; [exact Hmsg|].
  by destruct (success_needs_attempted_and_updated e _ Hmsg) as [Hstate _].
Defined.

(** ** Submission *)

Lemma same_identity_refl (r : CourseTaskLog.fields) : same_identity r r.
Proof. by repeat split. Qed.

Lemma same_identity_trans (r1 r2 r3 : CourseTaskLog.fields) :
  same_identity r1 r2 → same_identity r2 r3 → same_identity r1 r3.
Proof.
  unfold same_identity. intros (?&?&?&?&?) (?&?&?&?&?). repeat split; congruence.
Qed.

(** [_update_course_task_log] hands back the entry it was given, with its
    identity. *)
Lemma _update_course_task_log_identity (e e' : CourseTaskLog.t) (tr : TaskResult.t)
    (s s' : CourseTaskLog.table) (out : Status.t) :
  _update_course_task_log e tr s = (Ok (e', out), s') →
  CourseTaskLog.id e' = CourseTaskLog.id e
  ∧ same_identity (CourseTaskLog.row e) (CourseTaskLog.row e').
Proof.
  unfold _update_course_task_log, mbind, M_bind, mret, M_ret, lift, save.
  repeat case_decide;
    repeat match goal with
    | |- context [progress_output ?x] => destruct (progress_output x); simpl
    | |- context [json_dumps (TaskResult.result tr)] =>
        destruct (json_dumps (TaskResult.result tr)); simpl
    | |- context [exc_message_of ?x] => destruct (exc_message_of x); simpl
    | |- context [TaskResult.traceback tr] => destruct (TaskResult.traceback tr); simpl
    end;
    simpl; try done; try case_decide; intros [= <- _ _]; simpl;
    (split; [done|]); unfold same_identity; simpl; by repeat split.
Qed.

Lemma _update_course_task_log_table (e : CourseTaskLog.t) (tr : TaskResult.t)
    (s : CourseTaskLog.table) :
  ∃ r s', _update_course_task_log e tr s = (r, s')
          ∧ (s' = s
             ∨ ∃ e' out, r = Ok (e', out)
                         ∧ s' = <[CourseTaskLog.id e := CourseTaskLog.row e']> s).
Proof.
  destruct (decide (TaskResult.state tr = "REVOKED")) as [Hst|Hst].
  - rewrite (_update_course_task_log_revoked e tr s Hst). do 2 eexists.
    split; [reflexivity|]. right. by eexists _, _.
  - destruct (_update_course_task_log_not_revoked e tr s Hst) as (r & -> & _).
    exists r, s. split; [done|]. by left.
Qed.

Lemma _update_task_effect (e : CourseTaskLog.t) (tr : TaskResult.t)
    (s : CourseTaskLog.table) :
  (∃ err, _update_task e tr s = (Raise err, s))
  ∨ (∃ e', _update_task e tr s
           = (Ok e', <[CourseTaskLog.id e := CourseTaskLog.row e']> s)
           ∧ CourseTaskLog.id e' = CourseTaskLog.id e
           ∧ same_identity (CourseTaskLog.row e) (CourseTaskLog.row e')).
Proof.
  unfold _update_task, mbind, M_bind, mret, M_ret, save.
  destruct (_update_course_task_log_table e tr s) as (r & s' & Hupd & Hs').
  rewrite Hupd. destruct r as [[e' out]|err].
  - right. exists e'.
    destruct (_update_course_task_log_identity _ _ _ _ _ _ Hupd) as [Hid Hsame].
    split; [|done]. rewrite Hid.
    destruct Hs' as [->|(e'' & out' & [= <- <-] & ->)]; [done|].
    by rewrite insert_insert_eq.
  - left. exists err. destruct Hs' as [->|(e'' & out' & [=] & _)]. done.
Qed.

(** What [_submit_task] does to the table: nothing when the key is
    blocked; otherwise one row under the next key, which carries the
    course, the type and the key of the call, and is the record that is
    returned when the call returns. *)
Lemma _submit_task_effect (prefix : HttpRequest.t → result string)
    (request : HttpRequest.t) (task_type : string) (cls : task_class)
    (course_id : string) (task_input : gmap string pyval) (task_key : string)
    (s : CourseTaskLog.table) :
  ((∃ k r, s !! k = Some r ∧ blocks course_id task_type task_key r)
   ∧ _submit_task prefix request task_type cls course_id task_input task_key s
     = (Raise (AlreadyRunningError "requested task is already running"), s))
  ∨ ((¬ ∃ k r, s !! k = Some r ∧ blocks course_id task_type task_key r)
     ∧ ∃ r row,
         _submit_task prefix request task_type cls course_id task_input task_key s
         = (r, <[CourseTaskLog.next_id s := row]> s)
         ∧ CourseTaskLog.course_id row = course_id
         ∧ CourseTaskLog.task_type row = task_type
         ∧ CourseTaskLog.task_key row = task_key
         ∧ ∀ e, r = Ok e
                → e = {| CourseTaskLog.id := CourseTaskLog.next_id s;
                         CourseTaskLog.row := row |}).
Proof.
  unfold _submit_task, mbind, M_bind, mret, M_ret, lift.
  destruct (_reserve_task_cases course_id task_type task_key task_input
              (HttpRequest.user request) s) as [[Hex ->]|[Hfree ->]].
  { left. by split. }
  right. split; [done|].
  destruct (_get_xmodule_instance_args prefix request) as [xargs|err]; simpl.
  2: { eexists _, _. split; [reflexivity|]. by repeat split. }
  destruct (cls _) as [tr|err]; simpl.
  2: { eexists _, _. split; [reflexivity|]. by repeat split. }
  match goal with
  | |- context [_update_task ?e tr ?s1] =>
      destruct (_update_task_effect e tr s1) as [[err ->]|(e' & -> & Hid & Hsame)]
  end.
  - eexists _, _. split; [reflexivity|]. by repeat split.
  - simpl in *. rewrite insert_insert_eq.
    destruct Hsame as (Hc & Ht & Hk & _).
    exists (Ok e'), (CourseTaskLog.row e').
    split; [done|]. split; [done|]. split; [done|]. split; [done|].
    intros e0 [= <-]. destruct e'; simpl in *. by subst.
Qed.

(** A state that [_update_course_task_log] has no branch for. *)
Lemma _update_course_task_log_plain (e : CourseTaskLog.t) (tr : TaskResult.t)
    (s : CourseTaskLog.table) :
  TaskResult.state tr ∉ ["PROGRESS"; "SUCCESS"; "FAILURE"; "REVOKED"] →
  _update_course_task_log e tr s
  = (Ok (if decide (TaskResult.state tr
                    ≠ CourseTaskLog.task_state (CourseTaskLog.row e))
         then CourseTaskLog.set_task_id (Some (TaskResult.task_id tr))
                (CourseTaskLog.set_task_state (TaskResult.state tr) e)
         else e, Status.empty), s).
Proof.
  rewrite !not_elem_of_cons. intros (H1 & H2 & H3 & H4 & _).
  unfold _update_course_task_log, mbind, M_bind, mret, M_ret, lift.
  by repeat case_decide.
Qed.

Lemma objects_get_inserted (q : CourseTaskLog.queryset) (s : CourseTaskLog.table)
    (k : N) (r : CourseTaskLog.fields) :
  (∀ k' r', s !! k' = Some r' → q r' = false) →
  s !! k = None →
  q r = true →
  objects_get q (<[k := r]> s)
  = (Ok (Some {| CourseTaskLog.id := k; CourseTaskLog.row := r |}), <[k := r]> s).
Proof.
  intros Hnone Hs Hq.
  assert (CourseTaskLog.evaluate q s = []) as Hev.
  { apply elem_of_nil_inv. intros e [He Hqe]%elem_of_evaluate.
    apply Hnone in He. congruence. }
  pose proof (evaluate_insert_fresh q s k r Hs Hq) as Hperm.
  rewrite Hev in Hperm. apply Permutation_singleton_r in Hperm.
  unfold objects_get. by rewrite Hperm.
Qed.

(** X11. When the key is free, the arguments can be built and the
    dispatch hands back a result in a state such as [PENDING], under a task
    id that no stored row has, [_submit_task] returns the record with that
    state and task id and has stored it; a status query by that task id
    then finds it, and with the backend still in that state reports
    [in_progress = True] and nothing else. *)
Theorem submitted_task_is_found_by_its_id
    (prefix : HttpRequest.t → result string) (request : HttpRequest.t)
    (task_type : string) (cls : task_class) (course_id : string)
    (task_input : gmap string pyval) (task_key : string)
    (s : CourseTaskLog.table) (xargs : xmodule_instance_args)
    (tr : TaskResult.t) (backend : string → task_meta) :
  (¬ ∃ k r, s !! k = Some r ∧ blocks course_id task_type task_key r) →
  _get_xmodule_instance_args prefix request = Ok xargs →
  cls {| arg_entry_id := CourseTaskLog.next_id s;
         arg_course_id := course_id;
         arg_task_input := task_input;
         arg_xmodule_instance_args := xargs |} = Ok tr →
  TaskResult.state tr ∉ ["QUEUING"; "PROGRESS"; "SUCCESS"; "FAILURE"; "REVOKED"] →
  (∀ k r, s !! k = Some r → CourseTaskLog.task_id r ≠ Some (TaskResult.task_id tr)) →
  meta_state (backend (TaskResult.task_id tr)) = TaskResult.state tr →
  let e :=
    {| CourseTaskLog.id := CourseTaskLog.next_id s;
       CourseTaskLog.row :=
         {| CourseTaskLog.course_id := course_id;
            CourseTaskLog.task_type := task_type;
            CourseTaskLog.task_key := task_key;
            CourseTaskLog.task_input := Some (JObject task_input);
            CourseTaskLog.task_state := TaskResult.state tr;
            CourseTaskLog.requester := HttpRequest.user request;
            CourseTaskLog.task_id := Some (TaskResult.task_id tr);
            CourseTaskLog.task_output := None |} |} in
  let s' := <[CourseTaskLog.id e := CourseTaskLog.row e]> s in
  _submit_task prefix request task_type cls course_id task_input task_key s = (Ok e, s')
  ∧ _get_course_task_log_status backend (TaskResult.task_id tr) s'
    = (Ok (Some
             {| Status.message := None;
                Status.task_progress := None;
                Status.task_traceback := None;
                Status.task_id := Some (Some (TaskResult.task_id tr));
                Status.task_state := Some (TaskResult.state tr);
                Status.in_progress := Some true;
                Status.succeeded := None |}), s').
Proof.
  intros Hfree Hargs Hcls Hstate Hnew Hmeta e s'.
  rewrite !not_elem_of_cons in Hstate.
  destruct Hstate as (Hq & Hp & Hsu & Hf & Hr & _).
  assert (TaskResult.state tr ∉ ["PROGRESS"; "SUCCESS"; "FAILURE"; "REVOKED"]) as Hplain.
  { rewrite !not_elem_of_cons. repeat split; try done. by intros ?%elem_of_nil. }
  assert (in_ (TaskResult.state tr) READY_STATES = false) as Hunready.
  { by apply in_READY_STATES_false. }
  split.
  - destruct (_reserve_task_cases course_id task_type task_key task_input
                (HttpRequest.user request) s) as [[Hex _]|[_ Hres]]; [done|].
    unfold _submit_task, _update_task, mbind, M_bind, mret, M_ret, lift, save.
    rewrite Hres. simpl. rewrite Hargs. simpl. rewrite Hcls. simpl.
    rewrite _update_course_task_log_plain by done. simpl.
    case_decide as Hd; [|destruct Hd; congruence]. simpl.
    by rewrite insert_insert_eq.
  - assert (objects_get (by_task_id (TaskResult.task_id tr)) s' = (Ok (Some e), s'))
      as Hget.
    { apply objects_get_inserted; [|apply next_id_fresh|by apply by_task_id_true].
      intros k r Hs. apply not_true_is_false. intros Hid%by_task_id_true.
      by apply (Hnew k r). }
    unfold _get_course_task_log_status, mbind, M_bind, mret, M_ret, lift.
    rewrite Hget. simpl. rewrite Hunready. simpl.
    rewrite _update_course_task_log_plain by (simpl; by rewrite Hmeta).
    simpl. rewrite Hmeta.
    case_decide as Hd; [by destruct Hd|]. simpl. by rewrite Hunready.
Qed.

Lemma submitted_task_is_found_by_its_id_witness :
  let cls : task_class :=
    λ _, Ok {| TaskResult.task_id := "t2"; TaskResult.state := "PENDING";
               TaskResult.result := ONone; TaskResult.traceback := None |} in
  (¬ ∃ k r, (∅ : CourseTaskLog.table) !! k = Some r
            ∧ blocks "edX/101" "rescore_problem" "_P1" r)
  ∧ _submit_task sample_prefix sample_request "rescore_problem" cls
      "edX/101" bulk_input "_P1" ∅
    = (Ok (sample_entry (sample_row "_P1" bulk_input (Some "t2") "PENDING" None)),
       {[ 1%N := sample_row "_P1" bulk_input (Some "t2") "PENDING" None ]})
  ∧ (_get_course_task_log_status (sample_backend "PENDING" ONone) "t2"
       {[ 1%N := sample_row "_P1" bulk_input (Some "t2") "PENDING" None ]}).1
    = Ok (Some
            {| Status.message := None;
               Status.task_progress := None;
               Status.task_traceback := None;
               Status.task_id := Some (Some "t2");
               Status.task_state := Some "PENDING";
               Status.in_progress := Some true;
               Status.succeeded := None |}).
Proof.
  intros cls.
  assert (¬ ∃ k r, (∅ : CourseTaskLog.table) !! k = Some r
                   ∧ blocks "edX/101" "rescore_problem" "_P1" r) as Hfree.
  { intros (k & r & Hs & _). by rewrite lookup_empty in Hs. }
  split; [exact Hfree|].
  destruct (submitted_task_is_found_by_its_id sample_prefix sample_request
              "rescore_problem" cls "edX/101" bulk_input "_P1" ∅
              {| xqueue_callback_url_prefix := "https://lms";
                 xia_request_info :=
                   {| ri_username := "S7"; ri_ip := "127.0.0.1";
                      ri_agent := ""; ri_host := "lms" |} |}
              {| TaskResult.task_id := "t2"; TaskResult.state := "PENDING";
                 TaskResult.result := ONone; TaskResult.traceback := None |}
              (sample_backend "PENDING" ONone) Hfree eq_refl eq_refl)
    as [Hsubmit Hstatus].
  - rewrite !not_elem_of_cons. repeat split; try discriminate.
    by intros ?%elem_of_nil.
  - intros k r Hs. by rewrite lookup_empty in Hs.
  - reflexivity.
  - split.
    + rewrite Hsubmit. vm_compute. reflexivity.
    + etrans; [|exact (f_equal fst Hstatus)]. vm_compute. reflexivity.
Defined.

(** X12. A request whose [META] has no [REMOTE_ADDR] makes [_submit_task]
    raise [KeyError] after the reservation: whatever the task class, the
    task is not dispatched, and the reserved record stays in the table in
    state [QUEUING] without a task id. *)
Theorem submit_without_remote_addr_strands_record
    (prefix : HttpRequest.t → result string) (request : HttpRequest.t)
    (task_type : string) (cls : task_class) (course_id : string)
    (task_input : gmap string pyval) (task_key : string)
    (s : CourseTaskLog.table) :
  (¬ ∃ k r, s !! k = Some r ∧ blocks course_id task_type task_key r) →
  HttpRequest.META request !! "REMOTE_ADDR" = None →
  _submit_task prefix request task_type cls course_id task_input task_key s
  = (Raise (KeyError "REMOTE_ADDR"),
     <[CourseTaskLog.next_id s :=
         {| CourseTaskLog.course_id := course_id;
            CourseTaskLog.task_type := task_type;
            CourseTaskLog.task_key := task_key;
            CourseTaskLog.task_input := Some (JObject task_input);
            CourseTaskLog.task_state := "QUEUING";
            CourseTaskLog.requester := HttpRequest.user request;
            CourseTaskLog.task_id := None;
            CourseTaskLog.task_output := None |}]> s).
Proof.
  intros Hfree Hmeta.
  destruct (_reserve_task_cases course_id task_type task_key task_input
              (HttpRequest.user request) s) as [[Hex _]|[_ Hres]]; [done|].
  unfold _submit_task, mbind, M_bind, lift. rewrite Hres. simpl.
  unfold _get_xmodule_instance_args. by rewrite Hmeta.
Qed.

Lemma submit_without_remote_addr_strands_record_witness :
  let request :=
    {| HttpRequest.user := sample_user;
       HttpRequest.META := {[ "SERVER_NAME" := "lms" ]} |} in
  (¬ ∃ k r, (∅ : CourseTaskLog.table) !! k = Some r
            ∧ blocks "edX/101" "rescore_problem" "_P1" r)
  ∧ _submit_task sample_prefix request "rescore_problem" failing_task_class
      "edX/101" bulk_input "_P1" ∅
    = (Raise (KeyError "REMOTE_ADDR"),
       {[ 1%N := sample_row "_P1" bulk_input None "QUEUING" None ]}).
Proof.
  intros request.
  assert (¬ ∃ k r, (∅ : CourseTaskLog.table) !! k = Some r
                   ∧ blocks "edX/101" "rescore_problem" "_P1" r) as Hfree.
  { intros (k & r & Hs & _). by rewrite lookup_empty in Hs. }
  split; [exact Hfree|].
  rewrite (submit_without_remote_addr_strands_record sample_prefix request
             "rescore_problem" failing_task_class "edX/101" bulk_input "_P1" ∅
             Hfree eq_refl).
  vm_compute. reflexivity.
Defined.

Lemma blocked_after_insert (course_id task_type task_key : string)
    (s : CourseTaskLog.table) (k : N) (row : CourseTaskLog.fields) :
  s !! k = None →
  (CourseTaskLog.course_id row, CourseTaskLog.task_type row, CourseTaskLog.task_key row)
  ≠ (course_id, task_type, task_key) →
  (∃ k' r, <[k := row]> s !! k' = Some r ∧ blocks course_id task_type task_key r)
  ↔ (∃ k' r, s !! k' = Some r ∧ blocks course_id task_type task_key r).
Proof.
  intros Hk Hne. split; intros (k' & r & Hs & Hb).
  - destruct (decide (k = k')) as [<-|Hkk'].
    + rewrite lookup_insert_eq in Hs. injection Hs as <-.
      destruct Hb as (<- & <- & <- & _). done.
    + rewrite lookup_insert_ne in Hs by done. by exists k', r.
  - exists k', r. split; [|done].
    rewrite lookup_insert_ne; [done|]. intros <-. congruence.
Qed.

Lemma _task_is_running_agree (course_id task_type task_key : string)
    (s s' : CourseTaskLog.table) :
  ((∃ k r, s' !! k = Some r ∧ blocks course_id task_type task_key r)
   ↔ (∃ k r, s !! k = Some r ∧ blocks course_id task_type task_key r)) →
  (_task_is_running course_id task_type task_key s').1
  = (_task_is_running course_id task_type task_key s).1.
Proof.
  intros Hiff.
  destruct (_task_is_running_spec course_id task_type task_key s) as (b & -> & Hb).
  destruct (_task_is_running_spec course_id task_type task_key s') as (b' & -> & Hb').
  simpl. f_equal. apply eq_true_iff_eq. by rewrite Hb, Hb'.
Qed.

Lemma _submit_task_keeps_other_keys
    (prefix : HttpRequest.t → result string) (request : HttpRequest.t)
    (task_type : string) (cls : task_class) (course_id : string)
    (task_input : gmap string pyval) (task_key : string)
    (s : CourseTaskLog.table) (course_id' task_type' task_key' : string) :
  (course_id', task_type', task_key') ≠ (course_id, task_type, task_key) →
  (_task_is_running course_id' task_type' task_key'
     (_submit_task prefix request task_type cls course_id task_input task_key s).2).1
  = (_task_is_running course_id' task_type' task_key' s).1.
Proof.
  intros Hne.
  destruct (_submit_task_effect prefix request task_type cls course_id task_input
              task_key s) as [[_ ->]|[_ (r & row & -> & Hc & Ht & Hk & _)]];
    [done|].
  apply _task_is_running_agree. simpl.
  apply blocked_after_insert; [apply next_id_fresh|]. congruence.
Qed.

(** X13. A submission changes the answer of [_task_is_running] for its own
    course, task type and key only: for every other triple the answer after
    [_submit_task], returned or raised, is the answer before. *)
Theorem submit_only_blocks_its_own_key
    (prefix : HttpRequest.t → result string) (request : HttpRequest.t)
    (task_type : string) (cls : task_class) (course_id : string)
    (task_input : gmap string pyval) (task_key : string)
    (s : CourseTaskLog.table) (course_id' task_type' task_key' : string) :
  (course_id', task_type', task_key') ≠ (course_id, task_type, task_key) →
  (_task_is_running course_id' task_type' task_key'
     (_submit_task prefix request task_type cls course_id task_input task_key s).2).1
  = (_task_is_running course_id' task_type' task_key' s).1.
Proof. apply _submit_task_keeps_other_keys. Qed.

Lemma submit_only_blocks_its_own_key_witness :
  ("edX/101", "reset_problem_attempts", "_P1") ≠ ("edX/101", "rescore_problem", "_P1")
  ∧ (_task_is_running "edX/101" "reset_problem_attempts" "_P1"
       (_submit_task sample_prefix sample_request "rescore_problem" failing_task_class
          "edX/101" bulk_input "_P1" ∅).2).1
    = Ok false.
Proof.
  assert (("edX/101", "reset_problem_attempts", "_P1")
          ≠ ("edX/101", "rescore_problem", "_P1")) as Hne by discriminate.
  split; [exact Hne|].
  rewrite (submit_only_blocks_its_own_key sample_prefix sample_request
             "rescore_problem" failing_task_class "edX/101" bulk_input "_P1" ∅
             "edX/101" "reset_problem_attempts" "_P1" Hne).
  vm_compute. reflexivity.
Defined.

(** X14. While the record that [_submit_task] returned is not in a ready
    state, a submission for the same course, task type and key, whoever asks
    and whatever the input and the task class, raises [AlreadyRunningError]
    and leaves the table as it is. *)
Theorem identical_submission_is_rejected
    (prefix prefix' : HttpRequest.t → result string) (request request' : HttpRequest.t)
    (task_type : string) (cls cls' : task_class) (course_id : string)
    (task_input task_input' : gmap string pyval) (task_key : string)
    (s s' : CourseTaskLog.table) (e : CourseTaskLog.t) :
  _submit_task prefix request task_type cls course_id task_input task_key s
  = (Ok e, s') →
  CourseTaskLog.task_state (CourseTaskLog.row e) ∉ READY_STATES →
  _submit_task prefix' request' task_type cls' course_id task_input' task_key s'
  = (Raise (AlreadyRunningError "requested task is already running"), s').
Proof.
  intros Hsubmit Hunready.
  destruct (_submit_task_effect prefix request task_type cls course_id task_input
              task_key s) as [[_ Heq]|[_ (r & row & Heq & Hc & Ht & Hk & He)]];
    rewrite Heq in Hsubmit; [done|].
  injection Hsubmit as -> <-. specialize (He e eq_refl). subst e. simpl in *.
  destruct (_submit_task_effect prefix' request' task_type cls' course_id task_input'
              task_key (<[CourseTaskLog.next_id s := row]> s))
    as [[_ ->]|[Hfree _]]; [done|].
  destruct Hfree. exists (CourseTaskLog.next_id s), row.
  split; [apply lookup_insert_eq|]. by repeat split.
Qed.

Lemma identical_submission_is_rejected_witness :
  let cls : task_class :=
    λ _, Ok {| TaskResult.task_id := "t2"; TaskResult.state := "PENDING";
               TaskResult.result := ONone; TaskResult.traceback := None |} in
  let s' : CourseTaskLog.table :=
    {[ 1%N := sample_row "_P1" bulk_input (Some "t2") "PENDING" None ]} in
  _submit_task sample_prefix sample_request "rescore_problem" cls
    "edX/101" bulk_input "_P1" ∅
  = (Ok (sample_entry (sample_row "_P1" bulk_input (Some "t2") "PENDING" None)), s')
  ∧ _submit_task sample_prefix sample_request "rescore_problem" failing_task_class
      "edX/101" student_input "_P1" s'
    = (Raise (AlreadyRunningError "requested task is already running"), s').
Proof.
  intros cls s'.
  assert (_submit_task sample_prefix sample_request "rescore_problem" cls
            "edX/101" bulk_input "_P1" ∅
          = (Ok (sample_entry (sample_row "_P1" bulk_input (Some "t2") "PENDING" None)),
             s')) as Hsubmit
    by (vm_compute; reflexivity).
  split; [exact Hsubmit|].
  apply (identical_submission_is_rejected _ _ _ _ _ _ _ _ _ _ _ _ _ _ Hsubmit).
  simpl. rewrite not_in_READY_STATES. by repeat split.
Defined.

(** ** The submission entry points *)

Lemma submit_rescore_problem_for_student_checked (env : collaborators)
    (request : HttpRequest.t) (course_id problem_url : string) (student : User.t)
    (s : CourseTaskLog.table) :
  _check_arguments_for_rescoring env course_id problem_url = Ok () →
  submit_rescore_problem_for_student env request course_id problem_url student s
  = _submit_task (xqueue_prefix env) request "rescore_problem" (rescore_problem env)
      course_id
      {[ "problem_url" := PStr problem_url;
         "student" := PStr (User.username student) ]}
      (pretty (User.id student) +:+ "_" +:+ problem_url) s.
Proof.
  intros Hcheck.
  unfold submit_rescore_problem_for_student, mbind, M_bind, lift.
  by rewrite Hcheck, encode_for_a_student.
Qed.

Lemma submit_rescore_problem_for_all_students_checked (env : collaborators)
    (request : HttpRequest.t) (course_id problem_url : string)
    (s : CourseTaskLog.table) :
  _check_arguments_for_rescoring env course_id problem_url = Ok () →
  submit_rescore_problem_for_all_students env request course_id problem_url s
  = _submit_task (xqueue_prefix env) request "rescore_problem" (rescore_problem env)
      course_id {[ "problem_url" := PStr problem_url ]} ("_" +:+ problem_url) s.
Proof.
  intros Hcheck.
  unfold submit_rescore_problem_for_all_students, mbind, M_bind, lift.
  by rewrite Hcheck, encode_for_everyone.
Qed.

Lemma submit_reset_problem_attempts_for_all_students_checked (env : collaborators)
    (request : HttpRequest.t) (course_id problem_url : string)
    (s : CourseTaskLog.table) (d : Descriptor.t) :
  get_instance env course_id problem_url = Ok d →
  submit_reset_problem_attempts_for_all_students env request course_id problem_url s
  = _submit_task (xqueue_prefix env) request "reset_problem_attempts"
      (reset_problem_attempts env) course_id
      {[ "problem_url" := PStr problem_url ]} ("_" +:+ problem_url) s.
Proof.
  intros Hget.
  unfold submit_reset_problem_attempts_for_all_students, mbind, M_bind, lift.
  by rewrite Hget, encode_for_everyone.
Qed.

Lemma submit_delete_problem_state_for_all_students_checked (env : collaborators)
    (request : HttpRequest.t) (course_id problem_url : string)
    (s : CourseTaskLog.table) (d : Descriptor.t) :
  get_instance env course_id problem_url = Ok d →
  submit_delete_problem_state_for_all_students env request course_id problem_url s
  = _submit_task (xqueue_prefix env) request "delete_problem_state"
      (delete_problem_state env) course_id
      {[ "problem_url" := PStr problem_url ]} ("_" +:+ problem_url) s.
Proof.
  intros Hget.
  unfold submit_delete_problem_state_for_all_students, mbind, M_bind, lift.
  by rewrite Hget, encode_for_everyone.
Qed.

Lemma submit_rescore_unchecked (env : collaborators) (request : HttpRequest.t)
    (course_id problem_url : string) (student : User.t) (s : CourseTaskLog.table)
    (err : exn) :
  _check_arguments_for_rescoring env course_id problem_url = Raise err →
  submit_rescore_problem_for_student env request course_id problem_url student s
  = (Raise err, s)
  ∧ submit_rescore_problem_for_all_students env request course_id problem_url s
    = (Raise err, s).
Proof.
  intros Hcheck.
  unfold submit_rescore_problem_for_student, submit_rescore_problem_for_all_students,
    mbind, M_bind, lift.
  by rewrite Hcheck.
Qed.

(** X15. When the problem cannot be found, each of the four submission
    entry points raises what [get_instance] raised; and when the problem's
    descriptor has no [module_class], or one without [rescore_problem], the
    two rescoring entry points raise [NotImplementedError].  In both cases
    nothing is reserved: the table is left as it was. *)
Theorem failed_precondition_reserves_nothing (env : collaborators)
    (request : HttpRequest.t) (course_id problem_url : string) (student : User.t)
    (s : CourseTaskLog.table) :
  (∀ err,
     get_instance env course_id problem_url = Raise err →
     submit_rescore_problem_for_student env request course_id problem_url student s
     = (Raise err, s)
     ∧ submit_rescore_problem_for_all_students env request course_id problem_url s
       = (Raise err, s)
     ∧ submit_reset_problem_attempts_for_all_students env request course_id
         problem_url s
       = (Raise err, s)
     ∧ submit_delete_problem_state_for_all_students env request course_id
         problem_url s
       = (Raise err, s))
  ∧ (∀ d,
       get_instance env course_id problem_url = Ok d →
       Descriptor.module_class_of d = None
       ∨ Descriptor.module_class_of d
         = Some {| Descriptor.has_rescore_problem := false |} →
       submit_rescore_problem_for_student env request course_id problem_url student s
       = (Raise (OtherError
                   "NotImplementedError: Specified module does not support rescoring."),
          s)
       ∧ submit_rescore_problem_for_all_students env request course_id problem_url s
         = (Raise (OtherError
                     "NotImplementedError: Specified module does not support rescoring."),
            s)).
Proof.
  split.
  - intros err Hget.
    assert (_check_arguments_for_rescoring env course_id problem_url = Raise err)
      as Hcheck.
    { unfold _check_arguments_for_rescoring. by rewrite Hget. }
    destruct (submit_rescore_unchecked env request course_id problem_url student s
                err Hcheck) as [-> ->].
    split; [done|]. split; [done|].
    unfold submit_reset_problem_attempts_for_all_students,
      submit_delete_problem_state_for_all_students, mbind, M_bind, lift.
    by rewrite Hget.
  - intros d Hget Hd. apply submit_rescore_unchecked.
    unfold _check_arguments_for_rescoring. rewrite Hget. simpl.
    by destruct Hd as [-> | ->].
Qed.

Lemma failed_precondition_reserves_nothing_witness :
  sample_get_instance "edX/101" "P0" = Raise (OtherError "ItemNotFoundError")
  ∧ submit_delete_problem_state_for_all_students sample_env sample_request
      "edX/101" "P0" pending_table
    = (Raise (OtherError "ItemNotFoundError"), pending_table)
  ∧ submit_rescore_problem_for_student sample_env sample_request
      "edX/101" "P2" sample_user pending_table
    = (Raise (OtherError
                "NotImplementedError: Specified module does not support rescoring."),
       pending_table).
Proof.
  split; [reflexivity|]. split.
  - destruct (failed_precondition_reserves_nothing sample_env sample_request
                "edX/101" "P0" sample_user pending_table) as [Hmissing _].
    by destruct (Hmissing (OtherError "ItemNotFoundError") eq_refl) as (_ & _ & _ & H).
  - destruct (failed_precondition_reserves_nothing sample_env sample_request
                "edX/101" "P2" sample_user pending_table) as [_ Hunsupported].
    by destruct (Hunsupported _ eq_refl (or_intror eq_refl)) as [H _].
Defined.

(** X16. For one problem, rescoring for all students and rescoring for one
    student do not block each other: a call of either entry point, whatever
    its outcome, leaves the answer of [_task_is_running] for the other's key
    as it was. *)
Theorem bulk_and_student_rescoring_do_not_block (env : collaborators)
    (request : HttpRequest.t) (course_id problem_url : string) (student : User.t)
    (s : CourseTaskLog.table) :
  ∃ input_student key_student input_all key_all,
    _encode_problem_and_student_input problem_url (Some student)
    = Ok (input_student, key_student)
    ∧ _encode_problem_and_student_input problem_url None = Ok (input_all, key_all)
    ∧ (_task_is_running course_id "rescore_problem" key_student
         (submit_rescore_problem_for_all_students env request course_id
            problem_url s).2).1
      = (_task_is_running course_id "rescore_problem" key_student s).1
    ∧ (_task_is_running course_id "rescore_problem" key_all
         (submit_rescore_problem_for_student env request course_id problem_url
            student s).2).1
      = (_task_is_running course_id "rescore_problem" key_all s).1.
Proof.
  do 4 eexists.
  split; [apply encode_for_a_student|]. split; [apply encode_for_everyone|].
  pose proof (student_key_is_not_the_bulk_key problem_url student) as Hkeys.
  destruct (_check_arguments_for_rescoring env course_id problem_url) as [[]|err]
    eqn:Hcheck.
  - rewrite submit_rescore_problem_for_all_students_checked,
      submit_rescore_problem_for_student_checked by done.
    split; apply _submit_task_keeps_other_keys; congruence.
  - by destruct (submit_rescore_unchecked env request course_id problem_url student s
                   err Hcheck) as [-> ->].
Qed.

(** ** Invariants of the ledger *)

Lemma _submit_task_ledger_step (prefix : HttpRequest.t → result string)
    (request : HttpRequest.t) (task_type : string) (cls : task_class)
    (course_id : string) (task_input : gmap string pyval) (task_key : string)
    (s : CourseTaskLog.table) :
  ledger_step s
    (_submit_task prefix request task_type cls course_id task_input task_key s).2.
Proof.
  destruct (_submit_task_effect prefix request task_type cls course_id task_input
              task_key s) as [[_ ->]|[Hfree (r & row & -> & Hc & Ht & Hk & _)]].
  - constructor.
  - simpl. apply ledger_insert; [apply next_id_fresh|]. by rewrite Hc, Ht, Hk.
Qed.

Lemma status_ledger_step (backend : string → task_meta) (task_id : string)
    (s : CourseTaskLog.table) :
  ledger_step s (_get_course_task_log_status backend task_id s).2.
Proof.
  destruct (objects_get (by_task_id task_id) s) as [r s0] eqn:Hget.
  pose proof (objects_get_table (by_task_id task_id) s) as Htab.
  rewrite Hget in Htab. simpl in Htab. subst s0.
  destruct r as [[e|]|err].
  - destruct (in_ (CourseTaskLog.task_state (CourseTaskLog.row e)) READY_STATES)
      eqn:He.
    + rewrite (status_of_ready backend task_id s e Hget He). constructor.
    + destruct (decide (meta_state (backend task_id) = "REVOKED")) as [Hst|Hst].
      * rewrite (status_of_unready_revoked backend task_id s e Hget He Hst). simpl.
        apply objects_get_Some in Hget as (_ & Hs & _).
        apply (ledger_update s _ _ _ Hs).
        -- unfold unready. apply not_in_READY_STATES. by apply in_READY_STATES_false.
        -- rewrite (revoked_entry_row task_id e He). simpl.
           unfold same_identity. simpl. by repeat split.
      * rewrite (status_of_unready_table backend task_id s e Hget He Hst).
        constructor.
  - rewrite (status_not_found backend task_id s (Ok None) Hget) by done. constructor.
  - rewrite (status_not_found backend task_id s (Raise err) Hget) by done. constructor.
Qed.

Lemma status_of_each_ledger_steps (backend : string → task_meta)
    (tasks : list string) (output : gmap string Status.t) (s : CourseTaskLog.table) :
  rtc ledger_step s (status_of_each backend tasks output s).2.
Proof.
  revert output s. induction tasks as [|task_id tasks IH]; intros output s; simpl.
  - done.
  - unfold mbind, M_bind.
    pose proof (status_ledger_step backend task_id s) as Hstep.
    destruct (_get_course_task_log_status backend task_id s) as [[o|err] s1];
      simpl in *.
    + eapply rtc_l; [exact Hstep|]. apply IH.
    + by apply rtc_once.
Qed.

Lemma course_task_log_status_ledger_steps (backend : string → task_meta)
    (POST : QueryDict) (task_id : option string) (s : CourseTaskLog.table) :
  rtc ledger_step s (course_task_log_status backend POST task_id s).2.
Proof.
  assert (∀ tid, rtc ledger_step s
            ((_get_course_task_log_status backend tid
              ≫= λ output, mret (OneStatus output)) s).2) as Hone.
  { intros tid. unfold mbind, M_bind, mret, M_ret.
    pose proof (status_ledger_step backend tid s) as Hstep.
    destruct (_get_course_task_log_status backend tid s) as [[o|err] s1];
      by apply rtc_once. }
  unfold course_task_log_status.
  destruct task_id as [tid|]; [apply Hone|].
  destruct (POST !! "task_id") as [values|]; [apply Hone|].
  destruct (POST !! "task_ids[]") as [values|]; [|done].
  unfold mbind, M_bind, mret, M_ret.
  pose proof (status_of_each_ledger_steps backend (all_values values) ∅ s) as Hsteps.
  by destruct (status_of_each backend (all_values values) ∅ s) as [[o|err] s1].
Qed.

Lemma api_perform_ledger_steps (env : collaborators) (s : CourseTaskLog.table)
    (c : api_call) :
  rtc ledger_step s (api_perform env s c).
Proof.
  destruct c as [request c P student|request c P|request c P|request c P
                 |backend POST task_id]; simpl.
  - destruct (_check_arguments_for_rescoring env c P) as [[]|err] eqn:Hcheck.
    + rewrite submit_rescore_problem_for_student_checked by done.
      apply rtc_once, _submit_task_ledger_step.
    + by destruct (submit_rescore_unchecked env request c P student s err Hcheck)
        as [-> _].
  - destruct (_check_arguments_for_rescoring env c P) as [[]|err] eqn:Hcheck.
    + rewrite submit_rescore_problem_for_all_students_checked by done.
      apply rtc_once, _submit_task_ledger_step.
    + by destruct (submit_rescore_unchecked env request c P (HttpRequest.user request) s err Hcheck)
        as [_ ->].
  - destruct (get_instance env c P) as [d|err] eqn:Hget.
    + rewrite (submit_reset_problem_attempts_for_all_students_checked _ _ _ _ _ d)
        by done.
      apply rtc_once, _submit_task_ledger_step.
    + unfold submit_reset_problem_attempts_for_all_students, mbind, M_bind, lift.
      by rewrite Hget.
  - destruct (get_instance env c P) as [d|err] eqn:Hget.
    + rewrite (submit_delete_problem_state_for_all_students_checked _ _ _ _ _ d)
        by done.
      apply rtc_once, _submit_task_ledger_step.
    + unfold submit_delete_problem_state_for_all_students, mbind, M_bind, lift.
      by rewrite Hget.
  - apply course_task_log_status_ledger_steps.
Qed.

Lemma api_perform_all_ledger_steps (env : collaborators) (calls : list api_call)
    (s : CourseTaskLog.table) :
  rtc ledger_step s (api_perform_all env calls s).
Proof.
  revert s. induction calls as [|c calls IH]; intros s; simpl; [done|].
  etrans; [apply api_perform_ledger_steps|apply IH].
Qed.

Lemma ledger_step_row_kept (s s' : CourseTaskLog.table) :
  ledger_step s s' → row_kept s s'.
Proof.
  intros [|k r Hk _|k r r' Hk Hun Hsame] k0 r0 Hs.
  - exists r0. split; [done|]. split; [apply same_identity_refl|done].
  - exists r0. split; [|split; [apply same_identity_refl|done]].
    rewrite lookup_insert_ne; [done|]. intros <-. congruence.
  - destruct (decide (k = k0)) as [<-|Hne].
    + exists r'. rewrite lookup_insert_eq. split; [done|].
      rewrite Hk in Hs. injection Hs as <-. split; [done|].
      intros Hready. unfold unready, in_ in *.
      apply bool_decide_eq_true in Hready. done.
    + exists r0. rewrite lookup_insert_ne by done.
      split; [done|]. split; [apply same_identity_refl|done].
Qed.

Lemma row_kept_trans (s1 s2 s3 : CourseTaskLog.table) :
  row_kept s1 s2 → row_kept s2 s3 → row_kept s1 s3.
Proof.
  intros H12 H23 k r Hs.
  destruct (H12 k r Hs) as (r2 & Hs2 & Hsame2 & Hready2).
  destruct (H23 k r2 Hs2) as (r3 & Hs3 & Hsame3 & Hready3).
  exists r3. split; [done|]. split; [by eapply same_identity_trans|].
  intros Hready. specialize (Hready2 Hready). subst r2. by apply Hready3.
Qed.

Lemma ledger_steps_row_kept (s s' : CourseTaskLog.table) :
  rtc ledger_step s s' → row_kept s s'.
Proof.
  induction 1 as [s|s1 s2 s3 Hstep _ IH].
  - intros k r Hs. exists r. split; [done|]. split; [apply same_identity_refl|done].
  - eapply row_kept_trans; [by apply ledger_step_row_kept|done].
Qed.

Lemma ledger_step_one_running (s s' : CourseTaskLog.table) :
  ledger_step s s' → one_running_per_key s → one_running_per_key s'.
Proof.
  intros [|k r Hk Hfree|k r r' Hk Hun (Hc & Ht & Hkey & _)] Hinv; [done| |].
  - intros k1 k2 r1 r2 Hs1 Hs2 Hu1 Hu2 Hec Het Hek.
    destruct (decide (k = k1)) as [<-|Hne1], (decide (k = k2)) as [<-|Hne2];
      [done| | |].
    + rewrite lookup_insert_eq in Hs1. rewrite lookup_insert_ne in Hs2 by done.
      injection Hs1 as <-. destruct Hfree. exists k2, r2. split; [done|].
      unfold blocks. by repeat split.
    + rewrite lookup_insert_eq in Hs2. rewrite lookup_insert_ne in Hs1 by done.
      injection Hs2 as <-. destruct Hfree. exists k1, r1. split; [done|].
      unfold blocks. by repeat split.
    + rewrite lookup_insert_ne in Hs1, Hs2 by done.
      by apply (Hinv k1 k2 r1 r2).
  - intros k1 k2 r1 r2 Hs1 Hs2 Hu1 Hu2 Hec Het Hek.
    destruct (decide (k = k1)) as [<-|Hne1], (decide (k = k2)) as [<-|Hne2];
      [done| | |].
    + rewrite lookup_insert_eq in Hs1. rewrite lookup_insert_ne in Hs2 by done.
      injection Hs1 as <-. apply (Hinv k k2 r r2); congruence.
    + rewrite lookup_insert_eq in Hs2. rewrite lookup_insert_ne in Hs1 by done.
      injection Hs2 as <-. apply (Hinv k1 k r1 r); congruence.
    + rewrite lookup_insert_ne in Hs1, Hs2 by done.
      by apply (Hinv k1 k2 r1 r2).
Qed.

Lemma ledger_steps_one_running (s s' : CourseTaskLog.table) :
  rtc ledger_step s s' → one_running_per_key s → one_running_per_key s'.
Proof.
  induction 1 as [s|s1 s2 s3 Hstep _ IH]; [done|].
  intros Hinv. apply IH. by eapply ledger_step_one_running.
Qed.

(** X17. Whatever calls of the submission entry points and of the status
    view are made, in whatever order and with whatever outcome, every row
    of the table stays under its key with its course, task type, key, input
    and requester; and a row that is in a ready state is not changed at
    all.  No row is ever deleted. *)
Theorem api_keeps_every_row (env : collaborators) (calls : list api_call)
    (s : CourseTaskLog.table) (k : N) (r : CourseTaskLog.fields) :
  s !! k = Some r →
  ∃ r', api_perform_all env calls s !! k = Some r'
        ∧ same_identity r r'
        ∧ (in_ (CourseTaskLog.task_state r) READY_STATES = true → r' = r).
Proof.
  apply ledger_steps_row_kept, api_perform_all_ledger_steps.
Qed.

(** X18. When the calls of the entry points are made one after the other,
    they keep the table free of duplicates: if no two rows that are not in
    a ready state share course, task type and key before, none do after. *)
Theorem api_keeps_one_running_per_key (env : collaborators) (calls : list api_call)
    (s : CourseTaskLog.table) :
  one_running_per_key s →
  one_running_per_key (api_perform_all env calls s).
Proof.
  apply ledger_steps_one_running, api_perform_all_ledger_steps.
Qed.

Lemma api_keeps_every_row_witness :
  let calls :=
    [RescoreForAll sample_request "edX/101" "P1";
     StatusView (sample_backend "REVOKED" ONone) ∅ (Some "t1");
     RescoreForAll sample_request "edX/101" "P1"] in
  pending_table !! 1%N = Some pending_row
  ∧ ∃ r', api_perform_all sample_env calls pending_table !! 1%N = Some r'
          ∧ same_identity pending_row r'.
Proof.
  intros calls.
  assert (pending_table !! 1%N = Some pending_row) as Hs by reflexivity.
  split; [exact Hs|].
  destruct (api_keeps_every_row sample_env calls pending_table 1 pending_row Hs)
    as (r' & Hr' & Hsame & _).
  by exists r'.
Defined.

Lemma api_keeps_one_running_per_key_witness :
  let calls :=
    [RescoreForAll sample_request "edX/101" "P1";
     RescoreForStudent sample_request "edX/101" "P1" sample_user;
     RescoreForAll sample_request "edX/101" "P1"] in
  one_running_per_key ∅
  ∧ one_running_per_key (api_perform_all sample_env calls ∅).
Proof.
  intros calls.
  assert (one_running_per_key ∅) as Hinv.
  { intros k1 k2 r1 r2 Hs1. by rewrite lookup_empty in Hs1. }
  split; [exact Hinv|].
  exact (api_keeps_one_running_per_key sample_env calls ∅ Hinv).
Defined.

(** ** The status view *)

Lemma status_Some_found (backend : string → task_meta) (task_id : string)
    (s s' : CourseTaskLog.table) (st : Status.t) :
  _get_course_task_log_status backend task_id s = (Ok (Some st), s') →
  ∃ k r, s !! k = Some r ∧ CourseTaskLog.task_id r = Some task_id.
Proof.
  destruct (objects_get (by_task_id task_id) s) as [r s0] eqn:Hget.
  pose proof (objects_get_table (by_task_id task_id) s) as Htab.
  rewrite Hget in Htab. simpl in Htab. subst s0.
  destruct r as [[e|]|err].
  - intros _. apply objects_get_Some in Hget as (_ & Hs & Hid%by_task_id_true).
    by eexists _, _.
  - by rewrite (status_not_found backend task_id s (Ok None) Hget).
  - by rewrite (status_not_found backend task_id s (Raise err) Hget).
Qed.

(** A poll does not change which task ids the rows carry. *)
Lemma status_keeps_task_ids (backend : string → task_meta) (task_id : string)
    (s : CourseTaskLog.table) (k : N) (r' : CourseTaskLog.fields) :
  (_get_course_task_log_status backend task_id s).2 !! k = Some r' →
  ∃ r, s !! k = Some r ∧ CourseTaskLog.task_id r = CourseTaskLog.task_id r'.
Proof.
  destruct (objects_get (by_task_id task_id) s) as [r s0] eqn:Hget.
  pose proof (objects_get_table (by_task_id task_id) s) as Htab.
  rewrite Hget in Htab. simpl in Htab. subst s0.
  destruct r as [[e|]|err].
  - destruct (in_ (CourseTaskLog.task_state (CourseTaskLog.row e)) READY_STATES)
      eqn:He.
    + rewrite (status_of_ready backend task_id s e Hget He). by exists r'.
    + destruct (decide (meta_state (backend task_id) = "REVOKED")) as [Hst|Hst].
      * rewrite (status_of_unready_revoked backend task_id s e Hget He Hst). simpl.
        apply objects_get_Some in Hget as (_ & Hs & Hid%by_task_id_true).
        rewrite (revoked_entry_row task_id e He). simpl.
        destruct (decide (CourseTaskLog.id e = k)) as [<-|Hne].
        -- rewrite lookup_insert_eq. intros [= <-]. by eexists.
        -- rewrite lookup_insert_ne by done. by exists r'.
      * rewrite (status_of_unready_table backend task_id s e Hget He Hst).
        by exists r'.
  - rewrite (status_not_found backend task_id s (Ok None) Hget) by done. by exists r'.
  - rewrite (status_not_found backend task_id s (Raise err) Hget) by done.
    by exists r'.
Qed.

Lemma status_of_each_keys (backend : string → task_meta) (tasks : list string)
    (output output' : gmap string Status.t) (s s' : CourseTaskLog.table)
    (task_id : string) :
  status_of_each backend tasks output s = (Ok output', s') →
  is_Some (output' !! task_id) →
  is_Some (output !! task_id)
  ∨ (task_id ∈ tasks
     ∧ ∃ k r, s !! k = Some r ∧ CourseTaskLog.task_id r = Some task_id).
Proof.
  revert output s. induction tasks as [|tid tasks IH]; intros output s; simpl.
  - intros [= <- <-] Hin. by left.
  - unfold mbind, M_bind.
    destruct (_get_course_task_log_status backend tid s) as [[o|err] s1] eqn:Hpoll;
      [|done].
    intros Heach Hin.
    destruct (IH _ _ Heach Hin) as [Hout|(Htasks & k & r & Hs1 & Hid)].
    + destruct o as [st|]; [|by left].
      destruct (decide (tid = task_id)) as [->|Hne].
      * right. split; [by left|]. by eapply status_Some_found.
      * left. by rewrite lookup_insert_ne in Hout.
    + right. split; [by right|].
      pose proof (status_keeps_task_ids backend tid s k r) as Hkeep.
      rewrite Hpoll in Hkeep. destruct (Hkeep Hs1) as (r0 & Hs & Hid0).
      exists k, r0. split; [done|]. congruence.
Qed.

(** X19. In the answer of the status view to a list of task ids, every entry
    is for a task id of the list that some row of the table carries: ids
    that are not known are left out. *)
Theorem batch_status_lists_known_ids_only (backend : string → task_meta)
    (POST : QueryDict) (values : string * list string)
    (s s' : CourseTaskLog.table) (output : gmap string Status.t) (task_id : string) :
  POST !! "task_id" = None →
  POST !! "task_ids[]" = Some values →
  course_task_log_status backend POST None s = (Ok (StatusById output), s') →
  is_Some (output !! task_id) →
  task_id ∈ all_values values
  ∧ ∃ k r, s !! k = Some r ∧ CourseTaskLog.task_id r = Some task_id.
Proof.
  intros Hone Hmany. unfold course_task_log_status. rewrite Hone, Hmany.
  unfold mbind, M_bind, mret, M_ret.
  destruct (status_of_each backend (all_values values) ∅ s) as [[o|err] s1] eqn:Heach;
    [|done].
  intros [= <- <-] Hin.
  destruct (status_of_each_keys _ _ _ _ _ _ _ Heach Hin) as [Hempty|H]; [|done].
  rewrite lookup_empty in Hempty. by destruct Hempty.
Qed.

Lemma batch_status_lists_known_ids_only_witness :
  let POST : QueryDict := {[ "task_ids[]" := ("t0", ["t1"; "t7"]) ]} in
  let st :=
    {| Status.message := None;
       Status.task_progress := None;
       Status.task_traceback := None;
       Status.task_id := Some (Some "t1");
       Status.task_state := Some "PENDING";
       Status.in_progress := Some true;
       Status.succeeded := None |} in
  course_task_log_status (sample_backend "PENDING" ONone) POST None pending_table
  = (Ok (StatusById {[ "t1" := st ]}), pending_table)
  ∧ "t1" ∈ all_values ("t0", ["t1"; "t7"])
  ∧ ∃ k r, pending_table !! k = Some r ∧ CourseTaskLog.task_id r = Some "t1".
Proof.
  intros POST st.
  assert (course_task_log_status (sample_backend "PENDING" ONone) POST None
            pending_table
          = (Ok (StatusById {[ "t1" := st ]}), pending_table)) as Hview
    by (vm_compute; reflexivity).
  split; [exact Hview|].
  apply (batch_status_lists_known_ids_only _ POST ("t0", ["t1"; "t7"]) _ _ _ "t1"
           eq_refl eq_refl Hview).
  by eexists.
Defined.

Lemma status_of_each_quiet (backend : string → task_meta) (tasks : list string)
    (output : gmap string Status.t) (s : CourseTaskLog.table) :
  (∀ tid, tid ∈ tasks → ∃ o, _get_course_task_log_status backend tid s = (Ok o, s)) →
  ∃ output',
    status_of_each backend tasks output s = (Ok output', s)
    ∧ ∀ tid,
        output' !! tid
        = match (if decide (tid ∈ tasks)
                 then (_get_course_task_log_status backend tid s).1
                 else Ok None) with
          | Ok (Some st) => Some st
          | _ => output !! tid
          end.
Proof.
  revert output. induction tasks as [|t tasks IH]; intros output Hquiet; simpl.
  - exists output. split; [done|]. intros tid.
    by destruct (decide (tid ∈ [])) as [?%elem_of_nil|].
  - destruct (Hquiet t) as [o Ho]; [by left|].
    unfold mbind, M_bind. rewrite Ho.
    destruct (IH (match o with Some st => <[t := st]> output | None => output end))
      as (output' & -> & Hout).
    { intros tid Hin. apply Hquiet. by right. }
    exists output'. split; [done|]. intros tid. rewrite Hout.
    destruct (decide (tid = t)) as [->|Hne].
    + destruct (decide (t ∈ t :: tasks)) as [_|Hnin]; [|destruct Hnin; by left].
      destruct (decide (t ∈ tasks)); rewrite ?Ho; simpl.
      * by destruct o.
      * destruct o; [by rewrite lookup_insert_eq|done].
    + destruct (decide (tid ∈ tasks)) as [Hin|Hnin].
      * destruct (decide (tid ∈ t :: tasks)) as [_|Hnin]; [|destruct Hnin; by right].
        destruct ((_get_course_task_log_status backend tid s).1) as [[st|]|err];
          [done| |]; destruct o; by rewrite ?lookup_insert_ne.
      * destruct (decide (tid ∈ t :: tasks)) as [[?|?]%elem_of_cons|_]; [done..|].
        destruct o; by rewrite ?lookup_insert_ne.
Qed.

(** X20. When every poll of a list of task ids returns without writing
    (the id is unknown, the record is in a ready state, or the backend does
    not answer [REVOKED]), the status view answers the list with exactly
    the statuses the single polls give: an entry for each id whose poll
    returns a status, and no other. *)
Theorem batch_status_is_the_single_statuses (backend : string → task_meta)
    (POST : QueryDict) (values : string * list string) (s : CourseTaskLog.table) :
  POST !! "task_id" = None →
  POST !! "task_ids[]" = Some values →
  (∀ tid, tid ∈ all_values values →
          ∃ o, _get_course_task_log_status backend tid s = (Ok o, s)) →
  ∃ output,
    course_task_log_status backend POST None s = (Ok (StatusById output), s)
    ∧ ∀ tid st,
        output !! tid = Some st
        ↔ tid ∈ all_values values
          ∧ _get_course_task_log_status backend tid s = (Ok (Some st), s).
Proof.
  intros Hone Hmany Hquiet.
  destruct (status_of_each_quiet backend (all_values values) ∅ s Hquiet)
    as (output & Heach & Hout).
  exists output. split.
  - unfold course_task_log_status. rewrite Hone, Hmany.
    unfold mbind, M_bind, mret, M_ret. by rewrite Heach.
  - intros tid st. rewrite Hout, lookup_empty.
    destruct (decide (tid ∈ all_values values)) as [Hin|Hnin].
    + destruct (Hquiet tid Hin) as [o Ho]. rewrite Ho. simpl.
      destruct o as [st'|]; split.
      * intros [= ->]. done.
      * by intros [_ [= ->]].
      * done.
      * by intros [_ [=]].
    + split; [done|]. by intros [? _].
Qed.

Lemma batch_status_is_the_single_statuses_witness :
  let POST : QueryDict := {[ "task_ids[]" := ("t0", ["t1"]) ]} in
  let backend := sample_backend "PENDING" ONone in
  (∀ tid, tid ∈ all_values ("t0", ["t1"]) →
          ∃ o, _get_course_task_log_status backend tid pending_table
               = (Ok o, pending_table))
  ∧ ∃ output,
      course_task_log_status backend POST None pending_table
      = (Ok (StatusById output), pending_table)
      ∧ output !! "t0" = None.
Proof.
  intros POST backend.
  assert (∀ tid, tid ∈ all_values ("t0", ["t1"]) →
                 ∃ o, _get_course_task_log_status backend tid pending_table
                      = (Ok o, pending_table)) as Hquiet.
  { intros tid Hin. unfold all_values in Hin. simpl in Hin.
    apply elem_of_cons in Hin as [->|Hin]; [by eexists|].
    apply list_elem_of_singleton in Hin as ->. by eexists. }
  split; [exact Hquiet|].
  destruct (batch_status_is_the_single_statuses backend POST ("t0", ["t1"])
              pending_table eq_refl eq_refl Hquiet) as (output & Hview & Hout).
  exists output. split; [exact Hview|].
  destruct (output !! "t0") as [st|] eqn:Hst; [|done].
  apply Hout in Hst as [_ Hst]. vm_compute in Hst. discriminate.
Defined.

(** ** Inline completion and the list of running tasks *)

(** X21. When the dispatch runs the task inline and hands back [SUCCESS]
    with a dictionary, [_submit_task] stores the record in state [SUCCESS]
    with the task id and that dictionary as output; a later status query by
    that id, whatever the backend then holds, writes nothing and, when it
    returns a status, reports that dictionary as [task_progress] with
    [in_progress = False]. *)
Theorem inline_success_is_stored_and_served
    (prefix : HttpRequest.t → result string) (request : HttpRequest.t)
    (task_type : string) (cls : task_class) (course_id : string)
    (task_input : gmap string pyval) (task_key : string)
    (s : CourseTaskLog.table) (xargs : xmodule_instance_args)
    (tr : TaskResult.t) (d : gmap string pyval) (backend : string → task_meta) :
  (¬ ∃ k r, s !! k = Some r ∧ blocks course_id task_type task_key r) →
  _get_xmodule_instance_args prefix request = Ok xargs →
  cls {| arg_entry_id := CourseTaskLog.next_id s;
         arg_course_id := course_id;
         arg_task_input := task_input;
         arg_xmodule_instance_args := xargs |} = Ok tr →
  TaskResult.state tr = "SUCCESS" →
  TaskResult.result tr = ODict d →
  (∀ k r, s !! k = Some r → CourseTaskLog.task_id r ≠ Some (TaskResult.task_id tr)) →
  let e :=
    {| CourseTaskLog.id := CourseTaskLog.next_id s;
       CourseTaskLog.row :=
         {| CourseTaskLog.course_id := course_id;
            CourseTaskLog.task_type := task_type;
            CourseTaskLog.task_key := task_key;
            CourseTaskLog.task_input := Some (JObject task_input);
            CourseTaskLog.task_state := "SUCCESS";
            CourseTaskLog.requester := HttpRequest.user request;
            CourseTaskLog.task_id := Some (TaskResult.task_id tr);
            CourseTaskLog.task_output := Some (JObject d) |} |} in
  let s' := <[CourseTaskLog.id e := CourseTaskLog.row e]> s in
  _submit_task prefix request task_type cls course_id task_input task_key s = (Ok e, s')
  ∧ (_get_course_task_log_status backend (TaskResult.task_id tr) s').2 = s'
  ∧ ∀ st, (_get_course_task_log_status backend (TaskResult.task_id tr) s').1
          = Ok (Some st) →
          Status.task_progress st = Some (ODict d)
          ∧ Status.task_state st = Some "SUCCESS"
          ∧ Status.in_progress st = Some false.
Proof.
  intros Hfree Hargs Hcls Hstate Hres Hnew e s'.
  assert (objects_get (by_task_id (TaskResult.task_id tr)) s' = (Ok (Some e), s'))
    as Hget.
  { apply objects_get_inserted; [|apply next_id_fresh|by apply by_task_id_true].
    intros k r Hs. apply not_true_is_false. intros Hid%by_task_id_true.
    by apply (Hnew k r). }
  split; [|split].
  - destruct (_reserve_task_cases course_id task_type task_key task_input
                (HttpRequest.user request) s) as [[Hex _]|[_ Hreserve]]; [done|].
    unfold _submit_task, _update_task, mbind, M_bind, mret, M_ret, lift, save.
    rewrite Hreserve. simpl. rewrite Hargs. simpl. rewrite Hcls. simpl.
    unfold _update_course_task_log, mbind, M_bind, mret, M_ret, lift.
    rewrite Hstate, Hres. simpl. by rewrite insert_insert_eq.
  - by rewrite (status_of_ready backend _ s' e Hget).
  - rewrite (status_of_ready backend _ s' e Hget) by done. simpl.
    destruct (get_task_completion_message e) as [[b m]|err]; [|done].
    by intros st [= <-].
Qed.

Lemma inline_success_is_stored_and_served_witness :
  let cls : task_class :=
    λ _, Ok {| TaskResult.task_id := "t3"; TaskResult.state := "SUCCESS";
               TaskResult.result := ODict (sample_counters 5 5 5);
               TaskResult.traceback := None |} in
  let row := sample_row "_P1" bulk_input (Some "t3") "SUCCESS"
               (Some (JObject (sample_counters 5 5 5))) in
  (¬ ∃ k r, (∅ : CourseTaskLog.table) !! k = Some r
            ∧ blocks "edX/101" "rescore_problem" "_P1" r)
  ∧ _submit_task sample_prefix sample_request "rescore_problem" cls
      "edX/101" bulk_input "_P1" ∅
    = (Ok (sample_entry row), {[ 1%N := row ]}).
Proof.
  intros cls row.
  assert (¬ ∃ k r, (∅ : CourseTaskLog.table) !! k = Some r
                   ∧ blocks "edX/101" "rescore_problem" "_P1" r) as Hfree.
  { intros (k & r & Hs & _). by rewrite lookup_empty in Hs. }
  split; [exact Hfree|].
  destruct (inline_success_is_stored_and_served sample_prefix sample_request
              "rescore_problem" cls "edX/101" bulk_input "_P1" ∅
              {| xqueue_callback_url_prefix := "https://lms";
                 xia_request_info :=
                   {| ri_username := "S7"; ri_ip := "127.0.0.1";
                      ri_agent := ""; ri_host := "lms" |} |}
              {| TaskResult.task_id := "t3"; TaskResult.state := "SUCCESS";
                 TaskResult.result := ODict (sample_counters 5 5 5);
                 TaskResult.traceback := None |}
              (sample_counters 5 5 5) (sample_backend "PENDING" ONone)
              Hfree eq_refl eq_refl eq_refl eq_refl)
    as [Hsubmit _].
  - intros k r Hs. by rewrite lookup_empty in Hs.
  - rewrite Hsubmit. vm_compute. reflexivity.
Defined.

(** X22. A poll that finds a running record and is answered [REVOKED]
    takes exactly that record off the list of running tasks of its course:
    afterwards [get_running_course_tasks] selects the rows it selected
    before, except the one with that key. *)
Theorem revoked_task_leaves_the_running_list (backend : string → task_meta)
    (task_id course_id : string) (s : CourseTaskLog.table)
    (e x : CourseTaskLog.t) :
  objects_get (by_task_id task_id) s = (Ok (Some e), s) →
  in_ (CourseTaskLog.task_state (CourseTaskLog.row e)) READY_STATES = false →
  meta_state (backend task_id) = "REVOKED" →
  x ∈ CourseTaskLog.evaluate (get_running_course_tasks course_id)
        (_get_course_task_log_status backend task_id s).2
  ↔ x ∈ CourseTaskLog.evaluate (get_running_course_tasks course_id) s
    ∧ CourseTaskLog.id x ≠ CourseTaskLog.id e.
Proof.
  intros Hget Hunready Hst.
  rewrite (status_of_unready_revoked backend task_id s e Hget Hunready Hst). simpl.
  rewrite (revoked_entry_row task_id e Hunready). simpl.
  assert (∀ s0, x ∈ CourseTaskLog.evaluate (get_running_course_tasks course_id) s0
                ↔ s0 !! CourseTaskLog.id x = Some (CourseTaskLog.row x)
                  ∧ CourseTaskLog.course_id (CourseTaskLog.row x) = course_id
                  ∧ CourseTaskLog.task_state (CourseTaskLog.row x) ∉ READY_STATES)
    as Hrunning.
  { intros s0. rewrite elem_of_evaluate, not_in_READY_STATES.
    unfold get_running_course_tasks. simpl.
    unfold CourseTaskLog.exclude, CourseTaskLog.filter, CourseTaskLog.objects.
    rewrite !andb_true_iff, !negb_true_iff, !String.eqb_eq, !String.eqb_neq.
    tauto. }
  rewrite !Hrunning.
  destruct (decide (CourseTaskLog.id e = CourseTaskLog.id x)) as [Heq|Hne].
  - rewrite <- Heq, lookup_insert_eq. split; [|by intros [_ ?]].
    intros ([= Hrow] & _ & Hstate). rewrite <- Hrow in Hstate. simpl in Hstate.
    destruct Hstate. unfold READY_STATES. rewrite !elem_of_cons. auto.
  - rewrite lookup_insert_ne by done. split; [|tauto].
    intros (? & ? & ?). split; [done|]. congruence.
Qed.

Lemma revoked_task_leaves_the_running_list_witness :
  objects_get (by_task_id "t1") pending_table
  = (Ok (Some (sample_entry pending_row)), pending_table)
  ∧ sample_entry pending_row
    ∈ CourseTaskLog.evaluate (get_running_course_tasks "edX/101") pending_table
  ∧ sample_entry pending_row
    ∉ CourseTaskLog.evaluate (get_running_course_tasks "edX/101")
        (_get_course_task_log_status (sample_backend "REVOKED" ONone) "t1"
           pending_table).2.
Proof.
  assert (objects_get (by_task_id "t1") pending_table
          = (Ok (Some (sample_entry pending_row)), pending_table)) as Hget
    by (vm_compute; reflexivity).
  split; [exact Hget|]. split.
  - vm_compute. by left.
  - intros Hin.
    apply (revoked_task_leaves_the_running_list (sample_backend "REVOKED" ONone)
             "t1" "edX/101" pending_table (sample_entry pending_row)
             (sample_entry pending_row) Hget eq_refl eq_refl) in Hin.
    by destruct Hin as [_ Hne].
Defined.

(** ** The history on concrete tables *)

Lemma reserved_task_heads_history_witness :
  let done_row := sample_row "_P1" bulk_input (Some "t1") "SUCCESS"
                    (Some (JObject (sample_counters 5 5 5))) in
  let new_row := sample_row "_P1" bulk_input None "QUEUING" None in
  let s : CourseTaskLog.table := {[ 1%N := done_row ]} in
  let e := {| CourseTaskLog.id := 2; CourseTaskLog.row := new_row |} in
  _encode_problem_and_student_input "P1" None = Ok (bulk_input, "_P1")
  ∧ _reserve_task "edX/101" "rescore_problem" "_P1" bulk_input sample_user s
    = (Ok e, <[2%N := new_row]> s)
  ∧ ∃ query,
      get_course_task_history "edX/101" "P1" None = Ok query
      ∧ query (<[2%N := new_row]> s) = e :: query s
      ∧ query s = [sample_entry done_row].
Proof.
  intros done_row new_row s e.
  assert (_encode_problem_and_student_input "P1" None = Ok (bulk_input, "_P1"))
    as Henc by reflexivity.
  assert (_reserve_task "edX/101" "rescore_problem" "_P1" bulk_input sample_user s
          = (Ok e, <[2%N := new_row]> s)) as Hres by (vm_compute; reflexivity).
  split; [exact Henc|]. split; [exact Hres|].
  eexists. split; [exact (get_course_task_history_unfold _ _ _ _ _ Henc)|].
  split.
  - exact (reserved_task_heads_history "edX/101" "rescore_problem" "P1" None
             bulk_input "_P1" sample_user s _ e _ Henc Hres
             (get_course_task_history_unfold _ _ _ _ _ Henc)).
  - vm_compute. reflexivity.
Defined.

Lemma student_and_bulk_histories_are_disjoint_witness :
  let s : CourseTaskLog.table :=
    {[ 1%N := sample_row "_P1" bulk_input (Some "t1") "PENDING" None;
       2%N := sample_row "7_P1" student_input (Some "t2") "PENDING" None ]} in
  let e := {| CourseTaskLog.id := 2;
              CourseTaskLog.row :=
                sample_row "7_P1" student_input (Some "t2") "PENDING" None |} in
  ∃ for_student for_all,
    get_course_task_history "edX/101" "P1" (Some sample_user) = Ok for_student
    ∧ get_course_task_history "edX/101" "P1" None = Ok for_all
    ∧ e ∈ for_student s
    ∧ e ∉ for_all s.
Proof.
  intros s e.
  pose proof (get_course_task_history_unfold "edX/101" "P1" (Some sample_user)
                _ _ (encode_for_a_student "P1" sample_user)) as Hstudent.
  pose proof (get_course_task_history_unfold "edX/101" "P1" None
                _ _ (encode_for_everyone "P1")) as Hall.
  eexists _, _. split; [exact Hstudent|]. split; [exact Hall|].
  assert (e ∈ order_by_minus_id
                (CourseTaskLog.evaluate
                   (CourseTaskLog.filter
                      (λ r, String.eqb (CourseTaskLog.course_id r) "edX/101"
                            && String.eqb (CourseTaskLog.task_key r)
                                 (pretty (User.id sample_user) +:+ "_" +:+ "P1"))
                      CourseTaskLog.objects) s)) as Hin.
  { vm_compute. by left. }
  split; [exact Hin|].
  exact (student_and_bulk_histories_are_disjoint "edX/101" "P1" sample_user s _ _ e
           Hstudent Hall Hin).
Defined.
